(** * vsclone: capture and replay of an editor installation

    A shallow embedding of [vsclone.py] together with the properties of
    its capture ([Clone]) and apply ([Install]) phases.

    Conventions of the embedding.
    - Python [str] is [string]; a character is one [ascii] (code points
      below 256).  Truthiness of a string is non-emptiness.
    - Python dictionaries that are only looked up are [gmap string _];
      the constant table [PLATFORM_IDS], whose key order drives the
      loops, is an association list.
    - A Python call either returns a value or raises: [result].  Code
      that talks to the outside (sub-processes, HTTP, the file system,
      the UUID generator) threads a [World] through a state-and-error
      monad [M]; what the outside answers is read from an [Env].
    - [os.path] is modelled by its POSIX flavour. *)

From Stdlib Require Import ZArith NArith Ascii String List Lia Bool.
From stdpp Require Import base option list gmap strings fin_maps.

Open Scope string_scope.
Open Scope list_scope.
Open Scope Z_scope.
Open Scope nat_scope.

(** String concatenation is left free to compute on literal prefixes. *)
Arguments String.append !s1 s2 : simpl nomatch.

(** ** Python string primitives *)

Module Py.

Definition truthy (s : string) : bool := negb (String.eqb s "").

(** [a or b] on strings. *)
Definition or_else (a b : string) : string := if truthy a then a else b.

(** [s.split(sep)] for a one-character separator. *)
Fixpoint split (sep : ascii) (s : string) : list string :=
  match s with
  | EmptyString => [""]
  | String c s' =>
      if Ascii.eqb c sep then "" :: split sep s'
      else match split sep s' with
           | [] => [String c ""]
           | w :: ws => String c w :: ws
           end
  end.

(** [sep.join(l)]. *)
Fixpoint join (sep : string) (l : list string) : string :=
  match l with
  | [] => ""
  | [x] => x
  | x :: (_ :: _) as tl => x +:+ sep +:+ join sep tl
  end.

Fixpoint count_char (c : ascii) (s : string) : nat :=
  match s with
  | EmptyString => 0
  | String d s' => (if Ascii.eqb d c then 1 else 0) + count_char c s'
  end.

Fixpoint mem_char (c : ascii) (set : string) : bool :=
  match set with
  | EmptyString => false
  | String d set' => Ascii.eqb c d || mem_char c set'
  end.

Fixpoint lstrip (set : string) (s : string) : string :=
  match s with
  | EmptyString => ""
  | String c s' => if mem_char c set then lstrip set s' else s
  end.

Fixpoint rstrip (set : string) (s : string) : string :=
  match s with
  | EmptyString => ""
  | String c s' =>
      match rstrip set s' with
      | EmptyString => if mem_char c set then "" else String c ""
      | r => String c r
      end
  end.

(** [s.strip(set)]. *)
Definition strip (set : string) (s : string) : string :=
  rstrip set (lstrip set s).

Fixpoint strip_prefix (p s : string) : option string :=
  match p, s with
  | EmptyString, _ => Some s
  | String a p', String b s' =>
      if Ascii.eqb a b then strip_prefix p' s' else None
  | String _ _, EmptyString => None
  end.

Definition startswith (p s : string) : bool :=
  match strip_prefix p s with Some _ => true | None => false end.


Fixpoint last_char (s : string) : option ascii :=
  match s with
  | EmptyString => None
  | String c s' =>
      match last_char s' with
      | Some d => Some d
      | None => Some c
      end
  end.

(** Line boundaries of [str.splitlines] among the first 256 code points. *)
Definition is_linebreak (c : ascii) : bool :=
  let n := nat_of_ascii c in
  (n =? 10) || (n =? 13) || (n =? 11) || (n =? 12)
  || (n =? 28) || (n =? 29) || (n =? 30) || (n =? 133).

Fixpoint splitlines_go (acc : string) (s : string) : list string :=
  match s with
  | EmptyString =>
      match acc with EmptyString => [] | _ => [String.rev acc] end
  | String c s' =>
      if is_linebreak c then
        match s' with
        | String d s'' =>
            if (nat_of_ascii c =? 13) && (nat_of_ascii d =? 10)
            then String.rev acc :: splitlines_go "" s''
            else String.rev acc :: splitlines_go "" s'
        | EmptyString => String.rev acc :: splitlines_go "" s'
        end
      else splitlines_go (String c acc) s'
  end.

(** [s.splitlines()]. *)
Definition splitlines (s : string) : list string := splitlines_go "" s.

(** White space of the argument-less [str.split()]. *)
Definition is_space (c : ascii) : bool :=
  let n := nat_of_ascii c in
  (n =? 32) || ((9 <=? n) && (n <=? 13)) || ((28 <=? n) && (n <=? 31))
  || (n =? 133) || (n =? 160).

Fixpoint split_ws_go (acc : string) (s : string) : list string :=
  match s with
  | EmptyString =>
      match acc with EmptyString => [] | _ => [String.rev acc] end
  | String c s' =>
      if is_space c then
        match acc with
        | EmptyString => split_ws_go "" s'
        | _ => String.rev acc :: split_ws_go "" s'
        end
      else split_ws_go (String c acc) s'
  end.

(** [s.split()]. *)
Definition split_ws (s : string) : list string := split_ws_go "" s.

Definition digit_of (c : ascii) : option Z :=
  let n := nat_of_ascii c in
  if (48 <=? n) && (n <=? 57) then Some (Z.of_nat (n - 48)) else None.

(** Digits with single underscores between them; [prev] tells whether the
    previous character was a digit. *)
Fixpoint int_digits (acc : Z) (prev : bool) (s : string) : option Z :=
  match s with
  | EmptyString => if prev then Some acc else None
  | String c s' =>
      match digit_of c with
      | Some d => int_digits (acc * 10 + d)%Z true s'
      | None =>
          if Ascii.eqb c "_" && prev then int_digits acc false s' else None
      end
  end.

Fixpoint lstrip_space (s : string) : string :=
  match s with
  | EmptyString => ""
  | String c s' => if is_space c then lstrip_space s' else s
  end.

Fixpoint rstrip_space (s : string) : string :=
  match s with
  | EmptyString => ""
  | String c s' =>
      match rstrip_space s' with
      | EmptyString => if is_space c then "" else String c ""
      | r => String c r
      end
  end.

(** [int(s)] on a decimal literal, white space around it allowed; [None]
    stands for [ValueError]. *)
Definition int (s : string) : option Z :=
  match rstrip_space (lstrip_space s) with
  | String "-" ds => Z.opp <$> int_digits 0%Z false ds
  | String "+" ds => int_digits 0%Z false ds
  | ds => int_digits 0%Z false ds
  end.

End Py.

(** ** Results of a Python call *)

Inductive exn : Type :=
  | ValueError
  | IndexError
  | KeyError (key : string)
  | CalledProcessError
  | ConnectionError
  | FileNotFoundError (path : string)
  | JSONDecodeError
  | ReadError.

Inductive result (A : Type) : Type :=
  | Ok (a : A)
  | Raise (e : exn).
Arguments Ok {A} a.
Arguments Raise {A} e.

(** ** The platform tables *)

Definition PLATFORM_IDS : list (string * list (string * string)) :=
  [ ("installer_id", [ ("Linux", "linux-deb-x64"); ("Windows", "win32-x64-user") ]);
    ("server_id",    [ ("Linux", "linux-x64");     ("Windows", "win32-x64") ]);
    ("extension_id", [ ("Linux", "linux-x64");     ("Windows", "win32-x64") ]) ].

Fixpoint assoc {A : Type} (k : string) (l : list (string * A)) : option A :=
  match l with
  | [] => None
  | (k', v) :: tl => if String.eqb k k' then Some v else assoc k tl
  end.

Definition keys {A : Type} (l : list (string * A)) : list string := map fst l.

(** [PLATFORM_IDS[cls]]; the three classes used by the program exist. *)
Definition platform_ids (cls : string) : list (string * string) :=
  default [] (assoc cls PLATFORM_IDS).

(** ** Extension descriptor parser *)

Definition ParseExtensionString (ext_str : string)
  : result (string * string * string) :=
  match Py.split "@" ext_str with
  | [uid; version] =>
      match Py.split "." uid with
      | [publisher; package] => Ok (publisher, package, version)
      | _ => Raise ValueError
      end
  | _ => Raise ValueError
  end.

(** ** Artifact locator *)

Definition InstallerURL (version platform_id : string) : string :=
  "https://update.code.visualstudio.com/" +:+ version +:+ "/" +:+ platform_id +:+ "/stable".

Definition ServerURL (commit_id platform_id : string) : string :=
  "https://update.code.visualstudio.com/commit:" +:+ commit_id +:+ "/server-"
    +:+ platform_id +:+ "/stable".

(** Truthiness of an optional string argument ([None] and [""] are falsy). *)
Definition opt_truthy (o : option string) : bool :=
  match o with
  | Some s => Py.truthy s
  | None => false
  end.

Definition ExtensionURL (publisher package version : string)
    (platform_id : option string) (backup_api : bool) : string :=
  let query_params :=
    if opt_truthy platform_id
    then "?targetPlatform=" +:+ default "" platform_id
    else "" in
  if negb backup_api then
    "https://marketplace.visualstudio.com/_apis/public/gallery/publishers/"
      +:+ publisher +:+ "/vsextensions/" +:+ package +:+ "/" +:+ version
      +:+ "/vspackage" +:+ query_params
  else
    "https://" +:+ publisher +:+ ".gallery.vsassets.io/_apis/public/gallery/publisher/"
      +:+ publisher +:+ "/extension/" +:+ package +:+ "/" +:+ version
      +:+ "/assetbyname/Microsoft.VisualStudio.Services.VSIXPackage" +:+ query_params.

Definition ExtensionFilename (publisher package version : string)
    (platform_id : option string) : string :=
  if negb (opt_truthy platform_id) then
    publisher +:+ "." +:+ package +:+ "-" +:+ version +:+ ".vsix"
  else
    publisher +:+ "." +:+ package +:+ "-" +:+ version +:+ "@"
      +:+ default "" platform_id +:+ ".vsix".

(** ** File name offered by the server *)

Fixpoint take_not_semicolon (s : string) : string :=
  match s with
  | EmptyString => ""
  | String c s' => if Ascii.eqb c ";" then "" else String c (take_not_semicolon s')
  end.

(** [re.search(r"filename=([^;]+)", s)], returning group 1: the leftmost
    position where [filename=] is followed by at least one character
    other than [;], and the longest run of such characters there. *)
Fixpoint search_filename (s : string) : option string :=
  match s with
  | EmptyString => None
  | String _ s' =>
      match Py.strip_prefix "filename=" s with
      | Some rest =>
          match take_not_semicolon rest with
          | EmptyString => search_filename s'
          | g => Some g
          end
      | None => search_filename s'
      end
  end.

(** The header dictionary of a response, keys in lower case. *)
Definition headers_get (headers : list (string * string)) (k : string)
  : option string := assoc k headers.

(** The two quote characters removed around the file name. *)
Definition quote_chars : string :=
  String "'" (String (ascii_of_nat 34) EmptyString).

Definition GetFilenameFromHeaders (headers : list (string * string)) : string :=
  let disposition := default "" (headers_get headers "content-disposition") in
  if negb (Py.truthy disposition) then ""
  else
    match search_filename disposition with
    | None => ""
    | Some g => Py.strip quote_chars g
    end.

(** ** POSIX paths *)

Module Path.

Definition isabs (p : string) : bool := Py.startswith "/" p.

Definition endswith_slash (p : string) : bool :=
  match Py.last_char p with
  | Some c => Ascii.eqb c "/"
  | None => false
  end.

Definition join (a b : string) : string :=
  if isabs b then b
  else if negb (Py.truthy a) || endswith_slash a then a +:+ b
  else a +:+ "/" +:+ b.

Fixpoint normpath_comps (initial_slashes : nat) (comps new_comps : list string)
  : list string :=
  match comps with
  | [] => rev new_comps
  | comp :: rest =>
      if String.eqb comp "" || String.eqb comp "." then
        normpath_comps initial_slashes rest new_comps
      else if negb (String.eqb comp "..")
              || ((initial_slashes =? 0) && match new_comps with [] => true | _ => false end)
              || match new_comps with top :: _ => String.eqb top ".." | [] => false end
      then normpath_comps initial_slashes rest (comp :: new_comps)
      else normpath_comps initial_slashes rest (tail new_comps)
  end.

Definition normpath (path : string) : string :=
  if negb (Py.truthy path) then "."
  else
    let initial_slashes :=
      if Py.startswith "/" path then
        if Py.startswith "//" path && negb (Py.startswith "///" path) then 2 else 1
      else 0 in
    let comps := normpath_comps initial_slashes (Py.split "/" path) [] in
    let body := Py.join "/" comps in
    let res := match initial_slashes with
               | 0 => body
               | 1 => "/" +:+ body
               | _ => "//" +:+ body
               end in
    Py.or_else res ".".

Definition abspath (cwd path : string) : string :=
  normpath (if isabs path then path else join cwd path).

Definition basename (p : string) : string :=
  List.last (Py.split "/" p) "".

(** [expanduser] for the current user's home; a [~name] prefix is left as
    it is. *)
Definition expanduser (home path : string) : string :=
  match path with
  | String "~" rest =>
      match rest with
      | EmptyString | String "/" _ => Py.or_else (Py.rstrip "/" home +:+ rest) "/"
      | _ => path
      end
  | _ => path
  end.

End Path.

(** ** Manifest, files and the world *)

Record Manifest : Type := {
  m_version : string;
  m_commit_id : string;
  m_installer : gmap string string;
  m_server : gmap string string;
  m_extensions : gmap string (gmap string string);
}.

Definition set_installer (f : gmap string string -> gmap string string)
    (m : Manifest) : Manifest :=
  {| m_version := m_version m; m_commit_id := m_commit_id m;
     m_installer := f (m_installer m); m_server := m_server m;
     m_extensions := m_extensions m |}.

Definition set_server (f : gmap string string -> gmap string string)
    (m : Manifest) : Manifest :=
  {| m_version := m_version m; m_commit_id := m_commit_id m;
     m_installer := m_installer m; m_server := f (m_server m);
     m_extensions := m_extensions m |}.

Definition set_extensions
    (f : gmap string (gmap string string) -> gmap string (gmap string string))
    (m : Manifest) : Manifest :=
  {| m_version := m_version m; m_commit_id := m_commit_id m;
     m_installer := m_installer m; m_server := m_server m;
     m_extensions := f (m_extensions m) |}.

(** A file holds raw bytes, or the JSON document of a manifest (the text
    produced by [json.dump] and read back by [json.loads] is not spelled out). *)
Inductive File : Type :=
  | FBytes (data : string)
  | FJson (m : Manifest).

(** An HTTP response as the program reads it. *)
Record Response : Type := {
  ok : bool;
  headers : list (string * string);
  iter_content : list string;
}.

(** The state the program acts on.  [clock] counts the interactions with
    the outside; [http_log] and [cmd_log] record the responses received and
    the commands launched, oldest first. *)
Record World : Type := {
  clock : nat;
  cwd : string;
  files : gmap string File;
  stdout : list string;
  http_log : list (string * bool);
  cmd_log : list (list string);
}.

(** What the outside answers.  Answers may change from one interaction to
    the next: they are indexed by the clock. *)
Record Env : Type := {
  check_output : nat -> string -> option string;
  requests_get : nat -> string -> option Response;
  uuid4 : nat -> N;
  platform_system : string;
  popen : nat -> list string -> gmap string File
          -> option (list string * Z * gmap string File);
  getuser : string;
  home : string;
  mkdtemp : nat -> string;
  archive_members : string -> option File -> result (list (string * string));
}.

Definition tick (w : World) : World :=
  {| clock := S (clock w); cwd := cwd w; files := files w; stdout := stdout w;
     http_log := http_log w; cmd_log := cmd_log w |}.

Definition with_cwd (d : string) (w : World) : World :=
  {| clock := clock w; cwd := d; files := files w; stdout := stdout w;
     http_log := http_log w; cmd_log := cmd_log w |}.

Definition with_files (f : gmap string File) (w : World) : World :=
  {| clock := clock w; cwd := cwd w; files := f; stdout := stdout w;
     http_log := http_log w; cmd_log := cmd_log w |}.

Definition with_stdout (o : list string) (w : World) : World :=
  {| clock := clock w; cwd := cwd w; files := files w; stdout := o;
     http_log := http_log w; cmd_log := cmd_log w |}.

Definition with_http_log (l : list (string * bool)) (w : World) : World :=
  {| clock := clock w; cwd := cwd w; files := files w; stdout := stdout w;
     http_log := l; cmd_log := cmd_log w |}.

Definition with_cmd_log (l : list (list string)) (w : World) : World :=
  {| clock := clock w; cwd := cwd w; files := files w; stdout := stdout w;
     http_log := http_log w; cmd_log := l |}.

(** ** The state-and-error monad *)

Definition M (A : Type) : Type := World -> result A * World.

Definition ret {A : Type} (a : A) : M A := fun w => (Ok a, w).

Definition raise {A : Type} (e : exn) : M A := fun w => (Raise e, w).

Definition bind {A B : Type} (m : M A) (f : A -> M B) : M B :=
  fun w =>
    match m w with
    | (Ok a, w') => f a w'
    | (Raise e, w') => (Raise e, w')
    end.

Notation "'let*' x ':=' m 'in' k" := (bind m (fun x => k))
  (at level 10, x pattern, m at level 100, k at level 200).
Notation "m ';;' k" := (bind m (fun _ => k))
  (at level 100, k at level 200, right associativity).

(** A call that does not touch the world. *)
Definition lift {A : Type} (r : result A) : M A := fun w => (r, w).

(** Outcome of a loop body whose enclosing function may [return] early. *)
Inductive ctl (A : Type) : Type :=
  | Next (a : A)
  | Return (b : bool).
Arguments Next {A} a.
Arguments Return {A} b.

Definition newline : string := String (ascii_of_nat 10) EmptyString.

(** [print(s)] and [print(s, end="")]. *)
Definition print (s : string) : M unit :=
  fun w => (Ok tt, with_stdout (stdout w ++ [s +:+ newline]) w).

Definition print_raw (s : string) : M unit :=
  fun w => (Ok tt, with_stdout (stdout w ++ [s]) w).

Definition getcwd : M string := fun w => (Ok (cwd w), w).

(** [os.chdir(dir)]. *)
Definition chdir (dir : string) : M unit :=
  fun w => (Ok tt, with_cwd (Path.abspath (cwd w) dir) w).

(** [d[k]] on a dictionary. *)
Definition dict_get (d : gmap string string) (k : string) : M string :=
  match d !! k with
  | Some v => ret v
  | None => raise (KeyError k)
  end.

(** [d[k]] on a constant table. *)
Definition table_get (d : list (string * string)) (k : string) : M string :=
  match assoc k d with
  | Some v => ret v
  | None => raise (KeyError k)
  end.

(** [{p : "" for p in ks}]. *)
Definition dict_fromkeys (ks : list string) : gmap string string :=
  list_to_map (map (fun p => (p, "")) ks).

(** [open(path, mode)] followed by writing [f] and closing. *)
Definition write_file (path : string) (f : File) : M unit :=
  fun w => (Ok tt, with_files (<[Path.abspath (cwd w) path := f]> (files w)) w).

(** ** The program *)

Section Program.

Variable env : Env.

(** [subprocess.check_output(cmd, shell=True, text=True)]. *)
Definition subprocess_check_output (cmd : string) : M string :=
  fun w =>
    match check_output env (clock w) cmd with
    | Some out => (Ok out, tick w)
    | None => (Raise CalledProcessError, tick w)
    end.

(** [l[i]] on a list. *)
Definition list_get (l : list string) (i : nat) : M string :=
  match l !! i with
  | Some x => ret x
  | None => raise IndexError
  end.

Definition CurVSCodeVersion : M string :=
  let* output := subprocess_check_output "code --version" in
  list_get (Py.splitlines output) 0.

Definition CurVSCodeCommitID : M string :=
  let* output := subprocess_check_output "code --version" in
  list_get (Py.splitlines output) 1.

Definition CurVSCodeExtensions : M (list string) :=
  let* output := subprocess_check_output "code --list-extensions --show-versions" in
  ret (Py.splitlines output).

(** [requests.get(url, stream=True)]; a received response is logged. *)
Definition http_get (url : string) : M Response :=
  fun w =>
    match requests_get env (clock w) url with
    | Some r => (Ok r, with_http_log (http_log w ++ [(url, ok r)]) (tick w))
    | None => (Raise ConnectionError, tick w)
    end.

Definition hex_digit (d : N) : ascii :=
  nth (N.to_nat d)
    ["0"; "1"; "2"; "3"; "4"; "5"; "6"; "7"; "8"; "9"; "a"; "b"; "c"; "d"; "e"; "f"]%char
    "0"%char.

Fixpoint hex_go (k : nat) (n : N) (acc : string) : string :=
  match k with
  | 0 => acc
  | S k' => hex_go k' (N.div n 16) (String (hex_digit (N.modulo n 16)) acc)
  end.

(** [uuid.uuid4().hex]: the 32 hexadecimal digits of a 128-bit number. *)
Definition uuid4_hex : M string :=
  fun w => (Ok (hex_go 32 (uuid4 env (clock w)) ""), tick w).

(** [a or b] where [b] is only evaluated when [a] is empty. *)
Definition or_else_lazy (a : string) (b : M string) : M string :=
  if Py.truthy a then ret a else b.

(** [int(response.headers.get("content-length", 0))]. *)
Definition content_length (r : Response) : M Z :=
  match headers_get (headers r) "content-length" with
  | None => ret 0%Z
  | Some s =>
      match Py.int s with
      | Some n => ret n
      | None => raise ValueError
      end
  end.

(** The progress bar only draws on the terminal and is left out: its label
    [display_name] and its total [file_size] are computed as in the source. *)
Definition Download (url : string) (path : string) : M string :=
  let* response := http_get url in
  if negb (ok response) then ret ""
  else
    let header_name := GetFilenameFromHeaders (headers response) in
    let display_name :=
      Py.or_else (Path.basename path) (Py.or_else header_name url) in
    let* final_path := or_else_lazy (Py.or_else path header_name) uuid4_hex in
    let* file_size := content_length response in
    write_file final_path (FBytes (String.concat "" (iter_content response))) ;;
    ret final_path.

(** Lines 123-131: the installer loop. *)
Fixpoint clone_installers (platforms : list string) (manifest : Manifest)
  : M (ctl Manifest) :=
  match platforms with
  | [] => ret (Next manifest)
  | platform :: rest =>
      let* id := table_get (platform_ids "installer_id") platform in
      let* version := CurVSCodeVersion in
      let url := InstallerURL version id in
      let* path := Download url "" in
      if Py.truthy path then
        clone_installers rest (set_installer (<[platform := path]>) manifest)
      else
        print ("Error: Failed to get installer for " +:+ id) ;;
        ret (Return false)
  end.

(** Lines 134-142: the server loop. *)
Fixpoint clone_servers (platforms : list string) (manifest : Manifest)
  : M (ctl Manifest) :=
  match platforms with
  | [] => ret (Next manifest)
  | platform :: rest =>
      let* id := table_get (platform_ids "server_id") platform in
      let* commit := CurVSCodeCommitID in
      let url := ServerURL commit id in
      let* path := Download url "" in
      if Py.truthy path then
        clone_servers rest (set_server (<[platform := path]>) manifest)
      else
        print ("Error: Failed to get server for " +:+ id) ;;
        ret (Return false)
  end.

(** [manifest["extensions"][ext_str][slot] = path]. *)
Definition set_extension_path (ext_str slot path : string) (m : Manifest)
  : Manifest :=
  set_extensions
    (fun exts => <[ext_str := <[slot := path]> (default ∅ (exts !! ext_str))]> exts) m.

(** Lines 153-160: the platform-specific attempts for one extension; the
    flag [got_all_platforms] travels with the manifest. *)
Fixpoint clone_extension_platforms (ext_str publisher package version : string)
    (platforms : list string) (manifest : Manifest) (got_all_platforms : bool)
  : M (Manifest * bool) :=
  match platforms with
  | [] => ret (manifest, got_all_platforms)
  | platform :: rest =>
      let* id := table_get (platform_ids "extension_id") platform in
      let url := ExtensionURL publisher package version (Some id) true in
      let* path := Download url (ExtensionFilename publisher package version (Some id)) in
      if Py.truthy path then
        clone_extension_platforms ext_str publisher package version rest
          (set_extension_path ext_str platform path manifest) got_all_platforms
      else
        clone_extension_platforms ext_str publisher package version rest
          manifest false
  end.

(** Lines 147-170: the body of the extension loop. *)
Definition clone_extension (ext_str : string) (manifest : Manifest)
  : M (ctl Manifest) :=
  let* parsed := lift (ParseExtensionString ext_str) in
  let '(publisher, package, version) := parsed in
  let got_all_platforms := true in
  let manifest :=
    set_extensions
      (<[ext_str := <["Generic" := ""]>
                      (dict_fromkeys (keys (platform_ids "extension_id")))]>)
      manifest in
  let* looped :=
    clone_extension_platforms ext_str publisher package version
      (keys (platform_ids "extension_id")) manifest got_all_platforms in
  let '(manifest, got_all_platforms) := looped in
  if negb got_all_platforms then
    let url := ExtensionURL publisher package version None true in
    let* path := Download url (ExtensionFilename publisher package version None) in
    if Py.truthy path then
      ret (Next (set_extension_path ext_str "Generic" path manifest))
    else
      print ("Error: Failed to get extension " +:+ ext_str) ;;
      ret (Return false)
  else ret (Next manifest).

(** Lines 145-170: the extension loop. *)
Fixpoint clone_extensions (exts : list string) (manifest : Manifest)
  : M (ctl Manifest) :=
  match exts with
  | [] => ret (Next manifest)
  | ext_str :: rest =>
      let* r := clone_extension ext_str manifest in
      match r with
      | Next manifest => clone_extensions rest manifest
      | Return b => ret (Return b)
      end
  end.

Definition Clone (dir : string) : M bool :=
  chdir dir ;;
  let* version := CurVSCodeVersion in
  let* commit := CurVSCodeCommitID in
  let manifest :=
    {| m_version := version;
       m_commit_id := commit;
       m_installer := dict_fromkeys (keys (platform_ids "installer_id"));
       m_server := dict_fromkeys (keys (platform_ids "server_id"));
       m_extensions := ∅ |} in
  let* r := clone_installers (keys (platform_ids "installer_id")) manifest in
  match r with
  | Return b => ret b
  | Next manifest =>
  let* r := clone_servers (keys (platform_ids "server_id")) manifest in
  match r with
  | Return b => ret b
  | Next manifest =>
  let* exts := CurVSCodeExtensions in
  let* r := clone_extensions exts manifest in
  match r with
  | Return b => ret b
  | Next manifest =>
  write_file "manifest.json" (FJson manifest) ;;
  ret true
  end end end.

(** ** Apply phase *)

(** [subprocess.Popen(cmd)] run to completion: the text it prints, its
    return code, and what it did to the files. *)
Definition run_process (cmd : list string) : M (list string * Z) :=
  fun w =>
    match popen env (clock w) cmd (files w) with
    | Some (texts, returncode, files') =>
        (Ok (texts, returncode),
         with_files files' (with_cmd_log (cmd_log w ++ [cmd]) (tick w)))
    | None => (Raise (FileNotFoundError (hd "" cmd)), tick w)
    end.

Fixpoint print_all (texts : list string) : M unit :=
  match texts with
  | [] => ret tt
  | text :: rest => print_raw text ;; print_all rest
  end.

Definition ExecuteCommandArgv (cmd : list string) : M Z :=
  print (Py.join " " cmd) ;;
  let* r := run_process cmd in
  let '(texts, returncode) := r in
  print_all texts ;;
  ret returncode.

Definition ExecuteCommandStr (cmd : string) : M Z :=
  ExecuteCommandArgv (Py.split_ws cmd).

(** [open("manifest.json", "r")] and [json.loads]. *)
Definition load_manifest (path : string) : M Manifest :=
  fun w =>
    match files w !! Path.abspath (cwd w) path with
    | Some (FJson m) => (Ok m, w)
    | Some (FBytes _) => (Raise JSONDecodeError, w)
    | None => (Raise (FileNotFoundError path), w)
    end.

(** The part of a key below directory [d], if it lies there. *)
Definition under (d k : string) : option string :=
  Py.strip_prefix (d +:+ "/") k.

(** [shutil.rmtree(d, ignore_errors=True)]. *)
Definition rmtree (d : string) : M unit :=
  fun w =>
    let d' := Path.abspath (cwd w) d in
    (Ok tt,
     with_files
       (filter (fun kv : string * File => kv.1 ≠ d' ∧ under d' kv.1 = None) (files w))
       w).

Definition relocate (src dst : string) (kv : string * File)
  : option (string * File) :=
  match under src kv.1 with
  | Some rel => Some (dst +:+ "/" +:+ rel, kv.2)
  | None => None
  end.

(** [shutil.copytree(src, dst, dirs_exist_ok=True)]; a directory exists
    when some file lies below it. *)
Definition copytree (src dst : string) : M unit :=
  fun w =>
    let copies :=
      omap (relocate (Path.abspath (cwd w) src) (Path.abspath (cwd w) dst))
           (map_to_list (files w)) in
    match copies with
    | [] => (Raise (FileNotFoundError src), w)
    | _ => (Ok tt, with_files (list_to_map copies ∪ files w) w)
    end.

(** [shutil.unpack_archive(archive, extract_dir)]. *)
Definition unpack_archive (archive extract_dir : string) : M unit :=
  fun w =>
    match archive_members env archive (files w !! Path.abspath (cwd w) archive) with
    | Ok members =>
        let placed :=
          map (fun member : string * string =>
                 (Path.abspath (cwd w) (Path.join extract_dir member.1),
                  FBytes member.2)) members in
        (Ok tt, with_files (list_to_map placed ∪ files w) w)
    | Raise e => (Raise e, w)
    end.

(** [with tempfile.TemporaryDirectory() as temp_dir: body]: the directory
    is removed when the block is left, also by an exception. *)
Definition with_TemporaryDirectory {A : Type} (body : string -> M A) : M A :=
  fun w =>
    let temp_dir := mkdtemp env (clock w) in
    match body temp_dir (tick w) with
    | (r, w') => (r, snd (rmtree temp_dir w'))
    end.

(** Lines 198-204: the editor installation. *)
Definition install_editor (system installer : string) : M (ctl unit) :=
  if String.eqb system "Linux" then
    let* rc := ExecuteCommandStr ("sudo apt-get install -y " +:+ installer) in
    if negb (Z.eqb rc 0) then ret (Return false) else ret (Next tt)
  else if String.eqb system "Windows" then
    let* rc := ExecuteCommandStr installer in
    if negb (Z.eqb rc 0) then ret (Return false) else ret (Next tt)
  else
    print ("Error: Installation not currently supported on " +:+ system) ;;
    ret (Return false).

(** Lines 208-217: the choice of one package per extension. *)
Fixpoint collect_extensions (system : string)
    (entries : list (string * gmap string string)) (to_install : list string)
  : M (ctl (list string)) :=
  match entries with
  | [] => ret (Next to_install)
  | (ext_str, entry) :: rest =>
      let* platform_vsix := dict_get entry system in
      let* generic_vsix := dict_get entry "Generic" in
      if Py.truthy platform_vsix then
        collect_extensions system rest (to_install ++ [platform_vsix])
      else if Py.truthy generic_vsix then
        collect_extensions system rest (to_install ++ [generic_vsix])
      else
        print ("Error: No compatible VSIX found for " +:+ ext_str
               +:+ " on your platform.") ;;
        ret (Return false)
  end.

Definition dquote : string := String (ascii_of_nat 34) EmptyString.

(** Lines 219-249: what follows the choice of packages. *)
Definition install_collected (system : string) (manifest : Manifest)
    (to_install : list string) : M bool :=
  let local_dir := Path.expanduser (home env) "~/.vscode" in
  let local_extensions_dir := Path.join local_dir "extensions" in
  let server_dir := Path.expanduser (home env) "~/.vscode-server" in
  let server_extensions_dir := Path.join server_dir "extensions" in
  let server_core_dir :=
    Path.join (Path.join server_dir "bin") (m_commit_id manifest) in
  rmtree local_extensions_dir ;;
  rmtree server_dir ;;
  let* here := getcwd in
  let extension_args :=
    flat_map (fun vsix => ["--install-extension"; vsix])
             (map (Path.abspath here) to_install) in
  let cmd :=
    if String.eqb system "Windows" then
      let code_path :=
        dquote +:+ "C:\Users\" +:+ getuser env
          +:+ "\AppData\Local\Programs\Microsoft VS Code\bin\code" +:+ dquote in
      ["powershell"; "Start-Process"; "-verb"; "runas"; code_path;
       dquote +:+ Py.join " " extension_args +:+ dquote]
    else "code" :: extension_args in
  let* rc := ExecuteCommandArgv cmd in
  if negb (Z.eqb rc 0) then ret false
  else
    let* archive := dict_get (m_server manifest) system in
    with_TemporaryDirectory (fun temp_dir =>
      unpack_archive archive temp_dir ;;
      let archive_payload :=
        Path.join temp_dir (hd "" (Py.split "." archive)) in
      copytree archive_payload server_core_dir) ;;
    copytree local_extensions_dir server_extensions_dir ;;
    ret true.

Definition Install (dir : string) : M bool :=
  chdir dir ;;
  let* manifest := load_manifest "manifest.json" in
  let system := platform_system env in
  let* installer_rel := dict_get (m_installer manifest) system in
  let* here := getcwd in
  let installer := Path.abspath here installer_rel in
  let* r := install_editor system installer in
  match r with
  | Return b => ret b
  | Next _ =>
  let* r := collect_extensions system (map_to_list (m_extensions manifest)) [] in
  match r with
  | Return b => ret b
  | Next to_install => install_collected system manifest to_install
  end end.

End Program.

(** ** Command line *)

(** What [parse_args] hands over: the two options exclude each other and
    one of them is required. *)
Inductive Args : Type :=
  | Capture (output_dir : string)
  | Apply (input_dir : string).

(** The directory queries of [os] and [os.path] that [main] makes. *)
Record Os : Type := {
  os_path_exists : World -> string -> bool;
  os_path_isfile : World -> string -> bool;
  os_path_isdir : World -> string -> bool;
  os_mkdir : World -> string -> option exn;
}.

(** How [main] ends: it returns an exit code, lets an exception of a
    phase escape, or reads the variable [success] that neither branch has
    set. *)
Inductive Ending : Type :=
  | Exit (code : Z)
  | Uncaught (e : exn)
  | UnboundLocalError.

(** Lines 296-300: the end of [main], given what the phase returned. *)
Definition main_finish (r : result bool * World) : Ending * World :=
  match r with
  | (Ok success, w) =>
      if negb success then
        (Exit (-1),
         (print "Error: Something went wrong. Installation failed." w).2)
      else (Exit 0, w)
  | (Raise e, w) => (Uncaught e, w)
  end.

Definition main (env : Env) (os : Os) (args : Args) (w : World)
  : Ending * World :=
  match args with
  | Capture output_dir =>
      if Py.truthy output_dir then
        if negb (os_path_exists os w output_dir) then
          match os_mkdir os w output_dir with
          | Some e => (Uncaught e, w)
          | None => main_finish (Clone env output_dir w)
          end
        else if os_path_isfile os w output_dir then
          (Exit (-1),
           (print ("Error: " +:+ output_dir +:+ " is not a directory") w).2)
        else main_finish (Clone env output_dir w)
      else (UnboundLocalError, w)
  | Apply input_dir =>
      if Py.truthy input_dir then
        if negb (os_path_isdir os w input_dir) then
          (Exit (-1),
           (print ("Error: " +:+ input_dir +:+ " is not a directory") w).2)
        else main_finish (Install env input_dir w)
      else (UnboundLocalError, w)
  end.

(** * Vocabulary of the properties *)

(** The platform argument as the two functions read it: an empty
    identifier counts as none. *)
Definition effective_platform (o : option string) : option string :=
  match o with
  | Some s => if Py.truthy s then Some s else None
  | None => None
  end.

(** No manifest document appears that was not there before. *)
Definition no_new_manifest (w w' : World) : Prop :=
  forall p m, files w' !! p = Some (FJson m) -> files w !! p = Some (FJson m).

(** [w'] is reached from [w] by receiving the responses [l], without
    changing directory, launching a command or writing a manifest. *)
Record extends (w w' : World) (l : list (string * bool)) : Prop := {
  ext_cwd : cwd w' = cwd w;
  ext_log : http_log w' = http_log w ++ l;
  ext_cmd : cmd_log w' = cmd_log w;
  ext_files : no_new_manifest w w';
}.

(** The name [Download] gives to the file of response [resp]. *)
Definition chosen_name (env : Env) (resp : Response) (path final : string) : Prop :=
  if Py.truthy path then final = path
  else if Py.truthy (GetFilenameFromHeaders (headers resp))
       then final = GetFilenameFromHeaders (headers resp)
       else exists n, final = hex_go 32 n "".

(** The installer request for some supported platform and for a version
    the editor reported. *)
Definition installer_request (env : Env) (u : string) : Prop :=
  exists n out version platform id,
    check_output env n "code --version" = Some out
    /\ Py.splitlines out !! 0 = Some version
    /\ assoc platform (platform_ids "installer_id") = Some id
    /\ u = InstallerURL version id.

(** The server request for some supported platform and for a commit
    identifier the editor reported. *)
Definition server_request (env : Env) (u : string) : Prop :=
  exists n out commit platform id,
    check_output env n "code --version" = Some out
    /\ Py.splitlines out !! 1 = Some commit
    /\ assoc platform (platform_ids "server_id") = Some id
    /\ u = ServerURL commit id.

(** The platform-specific request for extension token [e]. *)
Definition specific_request (e u : string) : Prop :=
  exists publisher package version platform id,
    ParseExtensionString e = Ok (publisher, package, version)
    /\ assoc platform (platform_ids "extension_id") = Some id
    /\ u = ExtensionURL publisher package version (Some id) true.

(** The platform-agnostic request for extension token [e]. *)
Definition generic_request (e u : string) : Prop :=
  exists publisher package version,
    ParseExtensionString e = Ok (publisher, package, version)
    /\ u = ExtensionURL publisher package version None true.

(** A path that [Download] chose itself for some response. *)
Definition self_named (env : Env) (path : string) : Prop :=
  Py.truthy path = true
  /\ exists n u resp, requests_get env n u = Some resp
                      /\ chosen_name env resp "" path.

Definition all_ok (l : list (string * bool)) : Prop :=
  Forall (fun ub : string * bool => ub.2 = true) l.

(** The entry of an extension whose three slots hold the given paths. *)
Definition fetched_entry (linux windows generic : string) : gmap string string :=
  list_to_map [("Linux", linux); ("Windows", windows); ("Generic", generic)].

(** What the body of the extension loop requests, in order, and what it
    leaves in the manifest, for a token that parses as
    [(publisher, package, version)]. *)
Definition step_outcome (e publisher package version : string) (m : Manifest)
    (r : result (ctl Manifest)) (l : list (string * bool)) : Prop :=
  let urlL := ExtensionURL publisher package version (Some "linux-x64") true in
  let urlW := ExtensionURL publisher package version (Some "win32-x64") true in
  let urlG := ExtensionURL publisher package version None true in
  let fnL := ExtensionFilename publisher package version (Some "linux-x64") in
  let fnW := ExtensionFilename publisher package version (Some "win32-x64") in
  let fnG := ExtensionFilename publisher package version None in
  match r with
  | Ok (Next m') =>
      exists okL okW,
        l = (urlL, okL) :: (urlW, okW)
              :: (if okL && okW then [] else [(urlG, true)])
        /\ m' = set_extensions
                  (<[e := fetched_entry (if okL then fnL else "")
                                        (if okW then fnW else "")
                                        (if okL && okW then "" else fnG)]>) m
  | Ok (Return b) =>
      b = false
      /\ exists okL okW,
           okL && okW = false
           /\ l = [(urlL, okL); (urlW, okW); (urlG, false)]
  | Raise _ =>
      exists okL okW l',
        l ++ l' = [(urlL, okL); (urlW, okW); (urlG, true)]
  end.

(** Entry [entry] of token [e] is the one determined by the answers to the
    requests of [e] that appear, in a row, in the responses [l]. *)
Definition entry_from_responses (e : string) (l : list (string * bool))
    (entry : gmap string string) : Prop :=
  exists publisher package version okL okW lpre lpost,
    ParseExtensionString e = Ok (publisher, package, version)
    /\ l = lpre
           ++ ((ExtensionURL publisher package version (Some "linux-x64") true, okL)
               :: (ExtensionURL publisher package version (Some "win32-x64") true, okW)
               :: (if okL && okW then []
                   else [(ExtensionURL publisher package version None true, true)]))
           ++ lpost
    /\ entry = fetched_entry
                 (if okL then ExtensionFilename publisher package version (Some "linux-x64")
                  else "")
                 (if okW then ExtensionFilename publisher package version (Some "win32-x64")
                  else "")
                 (if okL && okW then ""
                  else ExtensionFilename publisher package version None).

(** A request made for one of the tokens [exts]. *)
Definition extension_request (exts : list string) (u : string) : Prop :=
  exists e, In e exts /\ (specific_request e u \/ generic_request e u).

(** Every failed response in [l] answers a platform-specific request. *)
Definition only_specific_failures (exts : list string) (l : list (string * bool))
  : Prop :=
  forall u, In (u, false) l -> exists e, In e exts /\ specific_request e u.

(** A request that [Clone] may make. *)
Definition clone_request (env : Env) (u : string) : Prop :=
  installer_request env u
  \/ server_request env u
  \/ exists n out,
       check_output env n "code --list-extensions --show-versions" = Some out
       /\ extension_request (Py.splitlines out) u.

(** Manifest [m] is complete for the responses [l]: every supported
    platform has an installer and a server, and the extension entries are
    those of the installed extensions, each as its requests were answered. *)
Definition manifest_complete (env : Env) (l : list (string * bool))
    (m : Manifest) : Prop :=
  (exists n out, check_output env n "code --version" = Some out
                 /\ Py.splitlines out !! 0 = Some (m_version m))
  /\ (exists n out, check_output env n "code --version" = Some out
                    /\ Py.splitlines out !! 1 = Some (m_commit_id m))
  /\ (forall pl, In pl (keys (platform_ids "installer_id")) ->
        exists path, m_installer m !! pl = Some path /\ self_named env path)
  /\ (forall pl, ~ In pl (keys (platform_ids "installer_id")) ->
        m_installer m !! pl = None)
  /\ (forall pl, In pl (keys (platform_ids "server_id")) ->
        exists path, m_server m !! pl = Some path /\ self_named env path)
  /\ (forall pl, ~ In pl (keys (platform_ids "server_id")) ->
        m_server m !! pl = None)
  /\ exists n out,
       check_output env n "code --list-extensions --show-versions" = Some out
       /\ (forall e, In e (Py.splitlines out) ->
             exists entry, m_extensions m !! e = Some entry
                           /\ entry_from_responses e l entry)
       /\ (forall e, ~ In e (Py.splitlines out) -> m_extensions m !! e = None).

(** The choice of the specification for one entry: the path of the running
    platform when it is not empty, else the generic path when that is not
    empty, else nothing. *)
Definition choose_artifact (system : string) (entry : gmap string string)
  : option string :=
  match entry !! system with
  | Some platform_vsix =>
      if Py.truthy platform_vsix then Some platform_vsix
      else match entry !! "Generic" with
           | Some generic_vsix =>
               if Py.truthy generic_vsix then Some generic_vsix else None
           | None => None
           end
  | None => None
  end.

(** The choices for a list of entries, or the first token without one. *)
Fixpoint choose_all (system : string) (entries : list (string * gmap string string))
  : string + list string :=
  match entries with
  | [] => inr []
  | (ext_str, entry) :: rest =>
      match choose_artifact system entry with
      | None => inl ext_str
      | Some path =>
          match choose_all system rest with
          | inl bad => inl bad
          | inr paths => inr (path :: paths)
          end
      end
  end.

(** An entry carries the slot of the running platform and the generic one. *)
Definition well_keyed (system : string) (entry : gmap string string) : Prop :=
  is_Some (entry !! system) /\ is_Some (entry !! "Generic").

Definition no_artifact_message (ext_str : string) : string :=
  "Error: No compatible VSIX found for " +:+ ext_str +:+ " on your platform."
  +:+ newline.


(** [s] consists of characters of [set] only. *)
Fixpoint only_chars (set : string) (s : string) : bool :=
  match s with
  | EmptyString => true
  | String c s' => Py.mem_char c set && only_chars set s'
  end.

(** [s] holds no character of [set]. *)
Fixpoint free_of (set : string) (s : string) : bool :=
  match s with
  | EmptyString => true
  | String c s' => negb (Py.mem_char c set) && free_of set s'
  end.

(** [path] stands in some slot of manifest [m]. *)
Definition recorded (m : Manifest) (path : string) : Prop :=
  (exists pl, m_installer m !! pl = Some path)
  \/ (exists pl, m_server m !! pl = Some path)
  \/ (exists e entry slot, m_extensions m !! e = Some entry
                           /\ entry !! slot = Some path).

(** Every file of [w] is still a file of [w']. *)
Definition keeps_files (w w' : World) : Prop :=
  forall k, is_Some (files w !! k) -> is_Some (files w' !! k).

(** Every non-empty path of [m] names a file of the current directory. *)
Definition backed (w : World) (m : Manifest) : Prop :=
  forall path, recorded m path -> path <> "" ->
               is_Some (files w !! Path.abspath (cwd w) path).


(** The command line of the editor installation (lines 198-201). *)
Definition editor_command (system installer : string) : list string :=
  if String.eqb system "Linux"
  then Py.split_ws ("sudo apt-get install -y " +:+ installer)
  else Py.split_ws installer.


(** The directory name of the command line. *)
Definition directory_of (args : Args) : string :=
  match args with
  | Capture output_dir => output_dir
  | Apply input_dir => input_dir
  end.

(** The phase the command line asks for. *)
Definition phase_of (env : Env) (args : Args) : M bool :=
  match args with
  | Capture output_dir => Clone env output_dir
  | Apply input_dir => Install env input_dir
  end.

(** The line a capture prints when it gives up on [what]. *)
Definition failure_line (what : string) : string :=
  ("Error: Failed to get " +:+ what) +:+ newline.

(** What a part of the capture prints: one failure line when it makes the
    capture return [False], nothing otherwise. *)
Definition reports {A : Type} (r : result (ctl A)) (w w' : World) : Prop :=
  match r with
  | Ok (Return b) =>
      b = false /\ exists what, stdout w' = stdout w ++ [failure_line what]
  | _ => stdout w' = stdout w
  end.

(** ** Sample runs *)

Definition sample_version_output : string :=
  "1.85.0" +:+ newline +:+ "abc123" +:+ newline +:+ "x64" +:+ newline.

Definition sample_extensions_output : string :=
  "ms.python@2024.1.0" +:+ newline.

Definition plain_response (okay : bool) : Response :=
  {| ok := okay; headers := []; iter_content := ["data"] |}.

(** A machine with one extension, on which every command succeeds and
    whose network answers as [net] says. *)
Definition sample_env (net : string -> option Response) (system : string) : Env :=
  {| check_output := fun _ cmd =>
       if String.eqb cmd "code --version" then Some sample_version_output
       else Some sample_extensions_output;
     requests_get := fun _ url => net url;
     uuid4 := fun n => N.of_nat n;
     platform_system := system;
     popen := fun _ _ fs => Some ([], 0%Z, fs);
     getuser := "user";
     home := "/home/user";
     mkdtemp := fun _ => "/tmp/tmpdir";
     archive_members := fun _ _ => Ok [] |}.

Definition net_all_ok (url : string) : option Response :=
  Some (plain_response true).

(** The package of the extension for Windows is missing. *)
Definition net_no_windows_package (url : string) : option Response :=
  Some (plain_response
          (negb (String.eqb url
                   (ExtensionURL "ms" "python" "2024.1.0" (Some "win32-x64") true)))).

(** The installer for Linux is missing. *)
Definition net_no_linux_installer (url : string) : option Response :=
  Some (plain_response
          (negb (String.eqb url (InstallerURL "1.85.0" "linux-deb-x64")))).


Definition sample_world : World :=
  {| clock := 0; cwd := "/home/user"; files := ∅; stdout := [];
     http_log := []; cmd_log := [] |}.

(** The manifest a run has left in its directory, if any. *)
Definition written_manifest (w : World) : option Manifest :=
  match files w !! Path.abspath (cwd w) "manifest.json" with
  | Some (FJson m) => Some m
  | _ => None
  end.

(** A manifest whose only extension has no package at all. *)
Definition manifest_without_package : Manifest :=
  {| m_version := "1.85.0";
     m_commit_id := "abc123";
     m_installer := list_to_map [("Linux", "code.deb"); ("Windows", "code.exe")];
     m_server := list_to_map [("Linux", "server.tar.gz"); ("Windows", "server.zip")];
     m_extensions := {[ "ms.python@2024.1.0" := fetched_entry "" "" "" ]} |}.

Definition world_without_package : World :=
  {| clock := 0; cwd := "/home/user";
     files := {[ "/home/user/out/manifest.json" := FJson manifest_without_package ]};
     stdout := []; http_log := []; cmd_log := [] |}.

(** Every answer carries a content length that is no number. *)
Definition net_bad_length (url : string) : option Response :=
  Some {| ok := true;
          headers := [("content-length", "unknown")];
          iter_content := ["data"] |}.

(** Environment [env] with another answer to the editor's commands. *)
Definition with_check_output (f : nat -> string -> option string) (env : Env)
  : Env :=
  {| check_output := f;
     requests_get := requests_get env;
     uuid4 := uuid4 env;
     platform_system := platform_system env;
     popen := popen env;
     getuser := getuser env;
     home := home env;
     mkdtemp := mkdtemp env;
     archive_members := archive_members env |}.


(** The editor prints its version and nothing more. *)
Definition env_short_version : Env :=
  with_check_output
    (fun _ cmd =>
       if String.eqb cmd "code --version" then Some ("1.85.0" +:+ newline)
       else Some sample_extensions_output)
    (sample_env net_all_ok "Linux").

(** A machine on which the installation of the editor fails. *)
Definition env_failing_installer : Env :=
  {| check_output := check_output (sample_env net_all_ok "Linux");
     requests_get := requests_get (sample_env net_all_ok "Linux");
     uuid4 := uuid4 (sample_env net_all_ok "Linux");
     platform_system := "Linux";
     popen := fun _ _ fs => Some (["E: Unable to locate package"], 100%Z, fs);
     getuser := "user";
     home := "/home/user";
     mkdtemp := fun _ => "/tmp/tmpdir";
     archive_members := fun _ _ => Ok [] |}.




(** A file system on which every name is an existing directory that can
    be created. *)
Definition os_directories : Os :=
  {| os_path_exists := fun _ _ => true;
     os_path_isfile := fun _ _ => false;
     os_path_isdir := fun _ _ => true;
     os_mkdir := fun _ _ => None |}.

(** A file system on which every name is an existing regular file. *)
Definition os_regular_files : Os :=
  {| os_path_exists := fun _ _ => true;
     os_path_isfile := fun _ _ => true;
     os_path_isdir := fun _ _ => false;
     os_mkdir := fun _ _ => Some (FileNotFoundError "") |}.



(** * Properties *)

(** ** Facts about strings *)

Section StringFacts.

Lemma append_nil_r (s : string) : s +:+ "" = s.
Proof. induction s as [|c s IH]; simpl; [reflexivity | now rewrite IH]. Qed.

Lemma append_assoc (a b c : string) : (a +:+ b) +:+ c = a +:+ (b +:+ c).
Proof. induction a as [|x a IH]; simpl; [reflexivity | now rewrite IH]. Qed.

Lemma length_append (a b : string) :
  String.length (a +:+ b) = String.length a + String.length b.
Proof. induction a as [|x a IH]; simpl; [reflexivity | now rewrite IH]. Qed.

Lemma append_inv_head (a b c : string) : a +:+ b = a +:+ c -> b = c.
Proof.
  induction a as [|x a IH]; simpl; intros H; [exact H |].
  injection H as H. now apply IH.
Qed.

Lemma append_inv_tail (a b s : string) : a +:+ s = b +:+ s -> a = b.
Proof.
  revert b. induction a as [|x a IH]; intros [|y b] H; simpl in H.
  - reflexivity.
  - apply (f_equal String.length) in H. simpl in H.
    rewrite length_append in H. lia.
  - apply (f_equal String.length) in H. simpl in H.
    rewrite length_append in H. lia.
  - injection H as -> H. f_equal. now apply IH.
Qed.

Lemma truthy_true (s : string) : Py.truthy s = true <-> s <> "".
Proof.
  unfold Py.truthy. destruct (String.eqb_spec s ""); simpl; split; congruence.
Qed.

Lemma truthy_false (s : string) : Py.truthy s = false <-> s = "".
Proof.
  unfold Py.truthy. destruct (String.eqb_spec s ""); simpl; split; congruence.
Qed.

Lemma last_char_append (a b : string) :
  Py.last_char (a +:+ b) =
  match Py.last_char b with
  | Some d => Some d
  | None => Py.last_char a
  end.
Proof.
  induction a as [|x a IH]; simpl.
  - now destruct (Py.last_char b).
  - rewrite IH. destruct (Py.last_char b); [reflexivity |].
    reflexivity.
Qed.

Lemma count_char_append (c : ascii) (a b : string) :
  Py.count_char c (a +:+ b) = Py.count_char c a + Py.count_char c b.
Proof. induction a as [|x a IH]; simpl; [reflexivity | rewrite IH; lia]. Qed.

Lemma split_nonempty (sep : ascii) (s : string) : Py.split sep s <> [].
Proof.
  induction s as [|c s IH]; simpl; [discriminate |].
  destruct (Ascii.eqb c sep); [discriminate |].
  destruct (Py.split sep s); discriminate.
Qed.

Lemma split_length (sep : ascii) (s : string) :
  length (Py.split sep s) = S (Py.count_char sep s).
Proof.
  induction s as [|c s IH]; simpl; [reflexivity |].
  destruct (Ascii.eqb c sep); simpl; [now rewrite IH |].
  destruct (Py.split sep s) eqn:E; simpl in *; [discriminate | exact IH].
Qed.

Lemma split_no_sep (sep : ascii) (s : string) :
  Py.count_char sep s = 0 -> Py.split sep s = [s].
Proof.
  induction s as [|c s IH]; simpl; [reflexivity |].
  destruct (Ascii.eqb c sep); simpl; [discriminate |].
  intros H. now rewrite (IH H).
Qed.

Lemma split_append_sep (sep : ascii) (a b : string) :
  Py.count_char sep a = 0 ->
  Py.split sep (a +:+ String sep b) = a :: Py.split sep b.
Proof.
  induction a as [|c a IH]; simpl.
  - intros _. now rewrite Ascii.eqb_refl.
  - destruct (Ascii.eqb c sep); simpl; [discriminate |].
    intros H. now rewrite (IH H).
Qed.

Lemma join_cons (sep x : string) (l : list string) :
  l <> [] -> Py.join sep (x :: l) = x +:+ sep +:+ Py.join sep l.
Proof. destruct l; [congruence | reflexivity]. Qed.

(** Joining the pieces of a split with the separator gives the string back. *)
Lemma join_split (sep : ascii) (s : string) :
  Py.join (String sep "") (Py.split sep s) = s.
Proof.
  induction s as [|c s IH]; [reflexivity |].
  pose proof (split_nonempty sep s) as Hn.
  cbn [Py.split].
  destruct (Ascii.eqb_spec c sep) as [->|Hne].
  - rewrite join_cons by assumption. rewrite IH. reflexivity.
  - destruct (Py.split sep s) as [|w ws] eqn:E; [congruence |].
    destruct ws as [|w' ws].
    + cbn in *. now rewrite IH.
    + rewrite join_cons by discriminate.
      rewrite join_cons in IH by discriminate.
      rewrite <- IH. reflexivity.
Qed.

(** A string is cut at the first occurrence of a character in one way only. *)
Lemma first_sep_unique (c : ascii) (a a' b b' : string) :
  Py.count_char c a = 0 -> Py.count_char c a' = 0 ->
  a +:+ String c b = a' +:+ String c b' -> a = a' /\ b = b'.
Proof.
  revert a'. induction a as [|x a IH]; intros [|y a']; simpl; intros Ha Ha' H.
  - injection H as H. now split.
  - injection H as <- H. rewrite Ascii.eqb_refl in Ha'. discriminate.
  - injection H as -> H. rewrite Ascii.eqb_refl in Ha. discriminate.
  - injection H as -> H.
    destruct (Ascii.eqb y c); [discriminate |]. simpl in Ha, Ha'.
    destruct (IH a' Ha Ha' H) as [-> ->]. now split.
Qed.

Lemma strip_prefix_append (p s : string) : Py.strip_prefix p (p +:+ s) = Some s.
Proof.
  induction p as [|x p IH]; simpl; [reflexivity |].
  now rewrite Ascii.eqb_refl.
Qed.



End StringFacts.

(** ** The descriptor parser *)

Section Descriptor.

(** A successful parse cuts the token at its only [@] and its prefix at
    its only dot. *)
Lemma ParseExtensionString_Ok (s publisher package version : string) :
  ParseExtensionString s = Ok (publisher, package, version) ->
  s = publisher +:+ "." +:+ package +:+ "@" +:+ version.
Proof.
  unfold ParseExtensionString. intros H.
  pose proof (join_split "@" s) as Hs.
  destruct (Py.split "@" s) as [|uid [|ver [|? ?]]]; try discriminate.
  pose proof (join_split "." uid) as Hu.
  destruct (Py.split "." uid) as [|pu [|pk [|? ?]]]; try discriminate.
  injection H as -> -> ->.
  cbn in Hs, Hu. subst s uid. now rewrite !append_assoc.
Qed.

Lemma ParseExtensionString_two_parts (s : string) :
  length (Py.split "@" s) <> 2 -> ParseExtensionString s = Raise ValueError.
Proof.
  unfold ParseExtensionString.
  destruct (Py.split "@" s) as [|uid [|ver [|? ?]]]; simpl; try reflexivity.
  intros H. now contradiction H.
Qed.

Lemma ParseExtensionString_uid (uid version : string) :
  Py.count_char "@" uid = 0 -> Py.count_char "@" version = 0 ->
  length (Py.split "." uid) <> 2 ->
  ParseExtensionString (uid +:+ "@" +:+ version) = Raise ValueError.
Proof.
  intros Hu Hv Hl. unfold ParseExtensionString.
  change (uid +:+ "@" +:+ version) with (uid +:+ String "@" version).
  rewrite (split_append_sep "@" uid version Hu), (split_no_sep "@" version Hv).
  destruct (Py.split "." uid) as [|pu [|pk [|? ?]]]; simpl in *; try reflexivity.
  now contradiction Hl.
Qed.

End Descriptor.

(** C4.  The parser maps [pub.pkg@1.2.3] to its three fields.  A token
    without [@] is refused (the [ValueError] of the failed unpacking is the
    malformed-token failure), and so is every token that reads
    [prefix @ rest] where the prefix does not hold exactly one dot. *)
Theorem ParseExtensionString_malformed :
  ParseExtensionString "pub.pkg@1.2.3" = Ok ("pub", "pkg", "1.2.3")
  /\ (forall s, Py.count_char "@" s = 0 ->
                ParseExtensionString s = Raise ValueError)
  /\ (forall prefix rest, Py.count_char "." prefix <> 1 ->
                ParseExtensionString (prefix +:+ "@" +:+ rest) = Raise ValueError).
Proof.
  split; [reflexivity |]. split.
  - intros s H. apply ParseExtensionString_two_parts.
    rewrite split_length, H. discriminate.
  - intros prefix rest H.
    destruct (Py.count_char "@" prefix) as [|n] eqn:Hp;
      [destruct (Py.count_char "@" rest) as [|n] eqn:Hr |].
    + apply ParseExtensionString_uid; try assumption.
      rewrite split_length. lia.
    + apply ParseExtensionString_two_parts.
      rewrite split_length.
      change (prefix +:+ "@" +:+ rest) with (prefix +:+ String "@" rest).
      rewrite count_char_append. simpl. rewrite Hr. lia.
    + apply ParseExtensionString_two_parts.
      rewrite split_length.
      change (prefix +:+ "@" +:+ rest) with (prefix +:+ String "@" rest).
      rewrite count_char_append. simpl. rewrite Hp. lia.
Qed.

(** The token of the specification that lacks a package. *)
Lemma ParseExtensionString_malformed_witness :
  Py.count_char "." "pub" <> 1
  /\ ParseExtensionString ("pub" +:+ "@" +:+ "1.2.3") = Raise ValueError
  /\ Py.count_char "@" "pub.pkg" = 0
  /\ ParseExtensionString "pub.pkg" = Raise ValueError.
Proof.
  split; [vm_compute; lia |]. split.
  - apply (proj2 (proj2 ParseExtensionString_malformed) "pub" "1.2.3").
    vm_compute; lia.
  - split; [reflexivity |].
    apply (proj1 (proj2 ParseExtensionString_malformed) "pub.pkg").
    reflexivity.
Defined.

(** ** The artifact locator *)

(** C10.  An empty platform identifier gives the same URL and the same file
    name as an absent one, and these are the forms without a platform. *)
Theorem empty_platform_is_absent (publisher package version : string)
    (backup_api : bool) :
  ExtensionURL publisher package version (Some "") backup_api
    = ExtensionURL publisher package version None backup_api
  /\ ExtensionFilename publisher package version (Some "")
    = ExtensionFilename publisher package version None
  /\ ExtensionFilename publisher package version (Some "")
    = publisher +:+ "." +:+ package +:+ "-" +:+ version +:+ ".vsix"
  /\ ExtensionURL publisher package version (Some "") true
    = "https://" +:+ publisher +:+ ".gallery.vsassets.io/_apis/public/gallery/publisher/"
      +:+ publisher +:+ "/extension/" +:+ package +:+ "/" +:+ version
      +:+ "/assetbyname/Microsoft.VisualStudio.Services.VSIXPackage"
  /\ ExtensionURL publisher package version (Some "") false
    = "https://marketplace.visualstudio.com/_apis/public/gallery/publishers/"
      +:+ publisher +:+ "/vsextensions/" +:+ package +:+ "/" +:+ version
      +:+ "/vspackage".
Proof.
  unfold ExtensionURL, ExtensionFilename. cbn [opt_truthy Py.truthy negb].
  change (String.eqb "" "") with true. cbn [negb].
  repeat split; now rewrite ?append_nil_r.
Qed.

Section Locator.

Lemma ExtensionFilename_form (publisher package version : string)
    (o : option string) :
  ExtensionFilename publisher package version o =
  publisher +:+ String "." (package +:+ String "-" (version +:+
    match effective_platform o with
    | Some id => String "@" (id +:+ ".vsix")
    | None => ".vsix"
    end)).
Proof.
  unfold ExtensionFilename, effective_platform, opt_truthy.
  destruct o as [s|]; [destruct (Py.truthy s) |]; reflexivity.
Qed.

Lemma platform_suffix_inj (o o' : option string) :
  match effective_platform o with
  | Some id => String "@" (id +:+ ".vsix")
  | None => ".vsix"
  end =
  match effective_platform o' with
  | Some id => String "@" (id +:+ ".vsix")
  | None => ".vsix"
  end ->
  effective_platform o = effective_platform o'.
Proof.
  destruct (effective_platform o) as [i|], (effective_platform o') as [i'|];
    intros H; try discriminate; [| reflexivity].
  injection H as H. apply append_inv_tail in H. now subst.
Qed.

End Locator.

(** C6, as the code has it.  The file name is a function of its four
    arguments, an empty platform identifier counting as an absent one.
    For a fixed publisher, package and version, two platform arguments give
    the same name only when they are the same platform.  Over all four
    components the name determines them when the publisher holds no dot,
    the package no hyphen and the version no [@]. *)
Theorem ExtensionFilename_injective :
  (forall publisher package version o o',
      ExtensionFilename publisher package version o
        = ExtensionFilename publisher package version o' ->
      effective_platform o = effective_platform o')
  /\ (forall publisher package version o publisher' package' version' o',
      Py.count_char "." publisher = 0 -> Py.count_char "." publisher' = 0 ->
      Py.count_char "-" package = 0 -> Py.count_char "-" package' = 0 ->
      Py.count_char "@" version = 0 -> Py.count_char "@" version' = 0 ->
      ExtensionFilename publisher package version o
        = ExtensionFilename publisher' package' version' o' ->
      publisher = publisher' /\ package = package' /\ version = version'
      /\ effective_platform o = effective_platform o').
Proof.
  split.
  - intros p k v o o'. rewrite !ExtensionFilename_form. intros H.
    apply append_inv_head in H. injection H as H.
    apply append_inv_head in H. injection H as H.
    apply append_inv_head in H. now apply platform_suffix_inj.
  - intros p k v o p' k' v' o' Hp Hp' Hk Hk' Hv Hv'.
    rewrite !ExtensionFilename_form. intros H.
    apply first_sep_unique in H as [-> H]; try assumption.
    apply first_sep_unique in H as [-> H]; try assumption.
    repeat (split; [reflexivity |]).
    destruct (effective_platform o) as [i|] eqn:Eo,
             (effective_platform o') as [i'|] eqn:Eo'.
    + apply first_sep_unique in H as [-> H]; try assumption.
      apply append_inv_tail in H. subst. now split.
    + exfalso.
      change (String "@" (i +:+ ".vsix")) with ("@" +:+ i +:+ ".vsix") in H.
      rewrite <- !append_assoc in H. apply append_inv_tail in H.
      subst v'. rewrite !count_char_append in Hv'. simpl in Hv'. lia.
    + exfalso.
      change (String "@" (i' +:+ ".vsix")) with ("@" +:+ i' +:+ ".vsix") in H.
      rewrite <- !append_assoc in H. apply append_inv_tail in H.
      subst v. rewrite !count_char_append in Hv. simpl in Hv. lia.
    + apply append_inv_tail in H. now split.
Qed.

Lemma ExtensionFilename_injective_witness :
  effective_platform (Some "linux-x64") = effective_platform (Some "linux-x64")
  /\ ("ms" = "ms" /\ "python" = "python" /\ "2024.1.0" = "2024.1.0"
      /\ effective_platform (Some "") = effective_platform None).
Proof.
  split.
  - apply (proj1 ExtensionFilename_injective "ms" "python" "2024.1.0").
    reflexivity.
  - apply (proj2 ExtensionFilename_injective
             "ms" "python" "2024.1.0" (Some "") "ms" "python" "2024.1.0" None);
      reflexivity.
Defined.

(** Two tokens the parser accepts, [ms.vscode@remote-1.0] and
    [ms.vscode-remote@1.0], share one file name: the name does not
    determine the package and the version. *)
Lemma ExtensionFilename_not_injective :
  ParseExtensionString "ms.vscode@remote-1.0" = Ok ("ms", "vscode", "remote-1.0")
  /\ ParseExtensionString "ms.vscode-remote@1.0" = Ok ("ms", "vscode-remote", "1.0")
  /\ ("ms", "vscode", "remote-1.0", @None string)
     <> ("ms", "vscode-remote", "1.0", @None string)
  /\ ExtensionFilename "ms" "vscode" "remote-1.0" None
     = ExtensionFilename "ms" "vscode-remote" "1.0" None.
Proof.
  split; [reflexivity |]. split; [reflexivity |].
  split; [discriminate | reflexivity].
Qed.

(** ** How a run changes the world *)

Section Effects.

Variable env : Env.

Lemma extends_refl (w : World) : extends w w [].
Proof. split; try reflexivity; [now rewrite app_nil_r | now intros p m H]. Qed.

Lemma extends_trans (w w1 w2 : World) (l1 l2 : list (string * bool)) :
  extends w w1 l1 -> extends w1 w2 l2 -> extends w w2 (l1 ++ l2).
Proof.
  intros [c1 g1 m1 f1] [c2 g2 m2 f2]. split.
  - congruence.
  - rewrite g2, g1. now rewrite app_assoc.
  - congruence.
  - intros p m H. auto.
Qed.

Lemma extends_tick (w : World) : extends w (tick w) [].
Proof. split; try reflexivity; [simpl; now rewrite app_nil_r | now intros p m H]. Qed.

Lemma extends_after_tick (w w' : World) (l : list (string * bool)) :
  extends (tick w) w' l -> extends w w' l.
Proof. intros H. apply (extends_trans w (tick w) w' [] l (extends_tick w) H). Qed.

Lemma extends_with_stdout (o : list string) (w w1 : World)
    (l : list (string * bool)) :
  extends w w1 l -> extends w (with_stdout o w1) l.
Proof. intros [c g m f]. split; assumption. Qed.

Lemma extends_cons (w w1 w2 : World) (u : string * bool) (l : list (string * bool)) :
  extends w w1 [u] -> extends w1 w2 l -> extends w w2 (u :: l).
Proof. intros H1 H2. apply (extends_trans w w1 w2 [u] l H1 H2). Qed.


Lemma hex_go_head (k : nat) (n : N) (acc : string) :
  exists d rest, hex_go (S k) n acc = String (hex_digit d) rest.
Proof.
  revert n acc. induction k as [|k IH]; intros n acc.
  - simpl. eauto.
  - change (hex_go (S (S k)) n acc)
      with (hex_go (S k) (N.div n 16) (String (hex_digit (N.modulo n 16)) acc)).
    apply IH.
Qed.


Lemma uuid_hex_truthy (n : N) : Py.truthy (hex_go 32 n "") = true.
Proof. destruct (hex_go_head 31 n "") as (d & rest & ->). reflexivity. Qed.


Lemma CurVSCodeVersion_spec (w : World) r w' :
  CurVSCodeVersion env w = (r, w') ->
  w' = tick w /\
  forall v, r = Ok v ->
    exists out, check_output env (clock w) "code --version" = Some out
                /\ Py.splitlines out !! 0 = Some v.
Proof.
  unfold CurVSCodeVersion, bind, subprocess_check_output, list_get, ret, raise.
  destruct (check_output env (clock w) "code --version") as [out|].
  - destruct (Py.splitlines out !! 0) as [v|] eqn:E; intros [= <- <-];
      (split; [reflexivity |]); intros v' [= <-]. eauto.
  - intros [= <- <-]. split; [reflexivity | discriminate].
Qed.

Lemma CurVSCodeCommitID_spec (w : World) r w' :
  CurVSCodeCommitID env w = (r, w') ->
  w' = tick w /\
  forall c, r = Ok c ->
    exists out, check_output env (clock w) "code --version" = Some out
                /\ Py.splitlines out !! 1 = Some c.
Proof.
  unfold CurVSCodeCommitID, bind, subprocess_check_output, list_get, ret, raise.
  destruct (check_output env (clock w) "code --version") as [out|].
  - destruct (Py.splitlines out !! 1) as [v|] eqn:E; intros [= <- <-];
      (split; [reflexivity |]); intros v' [= <-]. eauto.
  - intros [= <- <-]. split; [reflexivity | discriminate].
Qed.

Lemma CurVSCodeExtensions_spec (w : World) r w' :
  CurVSCodeExtensions env w = (r, w') ->
  w' = tick w /\
  forall exts, r = Ok exts ->
    exists out,
      check_output env (clock w) "code --list-extensions --show-versions" = Some out
      /\ exts = Py.splitlines out.
Proof.
  unfold CurVSCodeExtensions, bind, subprocess_check_output, ret.
  destruct (check_output env (clock w) _) as [out|]; intros [= <- <-];
    (split; [reflexivity |]); intros v' [= <-]. eauto.
Qed.

(** What one call of [Download] does. *)
Lemma Download_spec (url path : string) (w : World) r w' :
  Download env url path w = (r, w') ->
  (requests_get env (clock w) url = None
   /\ r = Raise ConnectionError /\ extends w w' [])
  \/ exists resp,
       requests_get env (clock w) url = Some resp
       /\ extends w w' [(url, ok resp)]
       /\ ((ok resp = false /\ r = Ok "" /\ files w' = files w)
           \/ (ok resp = true /\ r = Raise ValueError /\ files w' = files w)
           \/ (ok resp = true /\ exists final,
                 r = Ok final /\ Py.truthy final = true
                 /\ chosen_name env resp path final
                 /\ files w' =
                    <[Path.abspath (cwd w) final :=
                        FBytes (String.concat "" (iter_content resp))]> (files w))).
Proof.
  unfold Download, bind, http_get.
  destruct (requests_get env (clock w) url) as [resp|] eqn:Eg.
  2:{ intros [= <- <-]. left.
      split; [reflexivity | split; [reflexivity | apply extends_tick]]. }
  intros H. right. exists resp. split; [reflexivity |].
  destruct (ok resp) eqn:Eok; cbn [negb] in H.
  2:{ injection H as <- <-. split.
      - split; try reflexivity. now intros p m Hp.
      - left. split; [reflexivity | split; reflexivity]. }
  set (hn := GetFilenameFromHeaders (headers resp)) in *.
  assert (Hname : forall final w1,
    or_else_lazy (Py.or_else path hn) (uuid4_hex env)
      (with_http_log (http_log w ++ [(url, true)]) (tick w)) = (Ok final, w1) ->
    Py.truthy final = true /\ chosen_name env resp path final
    /\ cwd w1 = cwd w /\ files w1 = files w /\ cmd_log w1 = cmd_log w
    /\ http_log w1 = http_log w ++ [(url, true)]).
  { intros final w1. unfold or_else_lazy, Py.or_else, chosen_name, uuid4_hex, ret.
    fold hn.
    destruct (Py.truthy path) eqn:Ep.
    - rewrite ?Ep. intros [= <- <-]. now repeat split.
    - destruct (Py.truthy hn) eqn:Eh.
      + rewrite ?Eh. intros [= <- <-]. now repeat split.
      + rewrite ?Eh. intros [= <- <-].
        split; [apply uuid_hex_truthy |].
        split; [eauto |]. now repeat split. }
  destruct (or_else_lazy _ _ _) as [[final|e] w1] eqn:En.
  2:{ exfalso. revert En. unfold or_else_lazy, uuid4_hex, ret.
      destruct (Py.truthy _); discriminate. }
  destruct (Hname final w1 eq_refl) as (Ht & Hc & Hcwd & Hf & Hcmd & Hlog).
  assert (Hwritten : forall w2,
    w2 = with_files (<[Path.abspath (cwd w1) final :=
            FBytes (String.concat "" (iter_content resp))]> (files w1)) w1 ->
    extends w w2 [(url, true)]
    /\ files w2 = <[Path.abspath (cwd w) final :=
            FBytes (String.concat "" (iter_content resp))]> (files w)).
  { intros w2 ->. split.
    - split; simpl; try congruence.
      intros p m. simpl. rewrite lookup_insert.
      case_decide; [discriminate | now rewrite Hf].
    - simpl. now rewrite Hf, Hcwd. }
  unfold content_length, write_file, ret, raise in H.
  destruct (headers_get (headers resp) "content-length") as [cl|];
    [destruct (Py.int cl) as [n|] |].
  - injection H as <- <-. destruct (Hwritten _ eq_refl) as [He Hfs].
    split; [exact He |]. right. right. split; [reflexivity |].
    exists final. auto.
  - injection H as <- <-. split.
    + split; [congruence .. | intros p m; rewrite Hf; trivial].
    + right. left. auto.
  - injection H as <- <-. destruct (Hwritten _ eq_refl) as [He Hfs].
    split; [exact He |]. right. right. split; [reflexivity |].
    exists final. auto.
Qed.

End Effects.

(** ** The requests of a capture *)

Section Monad.

Lemma bind_inv {A B : Type} (c : M A) (f : A -> M B) (w : World) r w' :
  bind c f w = (r, w') ->
  (exists a w1, c w = (Ok a, w1) /\ f a w1 = (r, w'))
  \/ (exists e, c w = (Raise e, w') /\ r = Raise e).
Proof.
  unfold bind. destruct (c w) as [[a|e] w1]; intros H.
  - left. eauto.
  - right. injection H as <- <-. eauto.
Qed.

Lemma table_get_inv (d : list (string * string)) (k : string) (w : World) r w' :
  table_get d k w = (r, w') ->
  w' = w /\ (forall v, r = Ok v -> assoc k d = Some v).
Proof.
  unfold table_get, ret, raise. destruct (assoc k d); intros [= <- <-];
    (split; [reflexivity |]); intros v' [= <-]; reflexivity.
Qed.

End Monad.

Section InstallerLoop.

Variable env : Env.

(** The installer loop: what it requests and what it records. *)
Lemma clone_installers_spec (ps : list string) (m : Manifest) (w : World) r w' :
  clone_installers env ps m w = (r, w') ->
  exists l, extends w w' l
    /\ Forall (fun ub : string * bool => installer_request env ub.1) l
    /\ match r with
       | Ok (Next m') =>
           all_ok l
           /\ m_version m' = m_version m /\ m_commit_id m' = m_commit_id m
           /\ m_server m' = m_server m /\ m_extensions m' = m_extensions m
           /\ (forall pl, In pl ps ->
                 exists path, m_installer m' !! pl = Some path
                              /\ self_named env path)
           /\ (forall pl, ~ In pl ps -> m_installer m' !! pl = m_installer m !! pl)
       | Ok (Return b) => b = false
       | Raise _ => all_ok l
       end.
Proof.
  revert m w r w'. induction ps as [|pl ps IH]; intros m w r w' H.
  - injection H as <- <-. exists []. split; [apply extends_refl |].
    split; [constructor |]. split; [constructor |].
    repeat (split; [reflexivity |]). split; [now intros pl [] | reflexivity].
  - cbn [clone_installers] in H.
    apply bind_inv in H as [(id & w0 & Hid & H) | (e & Hid & ->)].
    2:{ apply table_get_inv in Hid as [-> _]. exists [].
        split; [apply extends_refl |]. split; constructor. }
    apply table_get_inv in Hid as [-> Hid]. specialize (Hid id eq_refl).
    apply bind_inv in H as [(version & w1 & Hv & H) | (e & Hv & ->)].
    2:{ apply (CurVSCodeVersion_spec env) in Hv as [-> _]. exists [].
        split; [apply extends_tick |]. split; constructor. }
    apply (CurVSCodeVersion_spec env) in Hv as [-> Hv].
    destruct (Hv version eq_refl) as (out & Hout & Hline).
    assert (Hreq : installer_request env (InstallerURL version id)).
    { exists (clock w), out, version, pl, id. auto. }
    apply bind_inv in H as [(path & w2 & Hd & H) | (e & Hd & ->)].
    2:{ apply (Download_spec env) in Hd
          as [(_ & _ & He) | (resp & Hg & He & [(_ & ? & _) | [(Hok & _ & _) | (_ & f & ? & _)]])];
          try discriminate.
        - exists []. split; [| split; constructor].
          apply extends_after_tick, He.
        - exists [(InstallerURL version id, ok resp)].
          split; [apply extends_after_tick, He |].
          split; repeat constructor; assumption. }
    apply (Download_spec env) in Hd
      as [(_ & ? & _) | (resp & Hg & He & [(Hok & [= ->] & _) | [(_ & ? & _) | (Hok & f & [= <-] & Ht & Hc & _)]])];
      try discriminate.
    + (* the download failed *)
      change (Py.truthy "") with false in H. cbv beta iota in H.
      apply bind_inv in H as [(? & w3 & Hp & H) | (e & Hp & ->)];
        [| discriminate].
      injection Hp as _ <-. injection H as <- <-.
      exists [(InstallerURL version id, ok resp)]. split.
      * apply extends_after_tick, extends_with_stdout, He.
      * split; [repeat constructor; assumption | reflexivity].
    + (* the download succeeded *)
      rewrite Ht in H.
      apply IH in H as (l & Hl & Hreqs & Hr).
      exists ((InstallerURL version id, ok resp) :: l). split.
      * apply extends_after_tick, (extends_cons _ _ _ _ _ He Hl).
      * split; [constructor; assumption |].
        destruct r as [[m' | b] | e]; [| exact Hr | constructor; assumption].
        destruct Hr as (Hall & Hver & Hcom & Hsrv & Hext & Hin & Hout').
        split; [constructor; assumption |].
        repeat (split; [assumption |]). split.
        -- intros pl' Hpl'. destruct (in_dec String.string_dec pl' ps) as [Hi | Hni].
           ++ now apply Hin.
           ++ destruct Hpl' as [<- | ?]; [| contradiction].
              rewrite (Hout' pl Hni). simpl. rewrite lookup_insert_eq.
              exists path. split; [reflexivity |]. split; [exact Ht |].
              exists (clock (tick w)), (InstallerURL version id), resp. auto.
        -- intros pl' Hpl'. rewrite Hout' by (intros ?; apply Hpl'; now right).
           simpl. apply lookup_insert_ne. intros ->. apply Hpl'. now left.
Qed.

End InstallerLoop.

Section ServerLoop.

Variable env : Env.

(** The server loop: what it requests and what it records. *)
Lemma clone_servers_spec (ps : list string) (m : Manifest) (w : World) r w' :
  clone_servers env ps m w = (r, w') ->
  exists l, extends w w' l
    /\ Forall (fun ub : string * bool => server_request env ub.1) l
    /\ match r with
       | Ok (Next m') =>
           all_ok l
           /\ m_version m' = m_version m /\ m_commit_id m' = m_commit_id m
           /\ m_installer m' = m_installer m /\ m_extensions m' = m_extensions m
           /\ (forall pl, In pl ps ->
                 exists path, m_server m' !! pl = Some path
                              /\ self_named env path)
           /\ (forall pl, ~ In pl ps -> m_server m' !! pl = m_server m !! pl)
       | Ok (Return b) => b = false
       | Raise _ => all_ok l
       end.
Proof.
  revert m w r w'. induction ps as [|pl ps IH]; intros m w r w' H.
  - injection H as <- <-. exists []. split; [apply extends_refl |].
    split; [constructor |]. split; [constructor |].
    repeat (split; [reflexivity |]). split; [now intros pl [] | reflexivity].
  - cbn [clone_servers] in H.
    apply bind_inv in H as [(id & w0 & Hid & H) | (e & Hid & ->)].
    2:{ apply table_get_inv in Hid as [-> _]. exists [].
        split; [apply extends_refl |]. split; constructor. }
    apply table_get_inv in Hid as [-> Hid]. specialize (Hid id eq_refl).
    apply bind_inv in H as [(commit & w1 & Hv & H) | (e & Hv & ->)].
    2:{ apply (CurVSCodeCommitID_spec env) in Hv as [-> _]. exists [].
        split; [apply extends_tick |]. split; constructor. }
    apply (CurVSCodeCommitID_spec env) in Hv as [-> Hv].
    destruct (Hv commit eq_refl) as (out & Hout & Hline).
    assert (Hreq : server_request env (ServerURL commit id)).
    { exists (clock w), out, commit, pl, id. auto. }
    apply bind_inv in H as [(path & w2 & Hd & H) | (e & Hd & ->)].
    2:{ apply (Download_spec env) in Hd
          as [(_ & _ & He) | (resp & Hg & He & [(_ & ? & _) | [(Hok & _ & _) | (_ & f & ? & _)]])];
          try discriminate.
        - exists []. split; [| split; constructor].
          apply extends_after_tick, He.
        - exists [(ServerURL commit id, ok resp)].
          split; [apply extends_after_tick, He |].
          split; repeat constructor; assumption. }
    apply (Download_spec env) in Hd
      as [(_ & ? & _) | (resp & Hg & He & [(Hok & [= ->] & _) | [(_ & ? & _) | (Hok & f & [= <-] & Ht & Hc & _)]])];
      try discriminate.
    + (* the download failed *)
      change (Py.truthy "") with false in H. cbv beta iota in H.
      apply bind_inv in H as [(? & w3 & Hp & H) | (e & Hp & ->)];
        [| discriminate].
      injection Hp as _ <-. injection H as <- <-.
      exists [(ServerURL commit id, ok resp)]. split.
      * apply extends_after_tick, extends_with_stdout, He.
      * split; [repeat constructor; assumption | reflexivity].
    + (* the download succeeded *)
      rewrite Ht in H.
      apply IH in H as (l & Hl & Hreqs & Hr).
      exists ((ServerURL commit id, ok resp) :: l). split.
      * apply extends_after_tick, (extends_cons _ _ _ _ _ He Hl).
      * split; [constructor; assumption |].
        destruct r as [[m' | b] | e]; [| exact Hr | constructor; assumption].
        destruct Hr as (Hall & Hver & Hcom & Hsrv & Hext & Hin & Hout').
        split; [constructor; assumption |].
        repeat (split; [assumption |]). split.
        -- intros pl' Hpl'. destruct (in_dec String.string_dec pl' ps) as [Hi | Hni].
           ++ now apply Hin.
           ++ destruct Hpl' as [<- | ?]; [| contradiction].
              rewrite (Hout' pl Hni). simpl. rewrite lookup_insert_eq.
              exists path. split; [reflexivity |]. split; [exact Ht |].
              exists (clock (tick w)), (ServerURL commit id), resp. auto.
        -- intros pl' Hpl'. rewrite Hout' by (intros ?; apply Hpl'; now right).
           simpl. apply lookup_insert_ne. intros ->. apply Hpl'. now left.
Qed.

End ServerLoop.

(** ** One extension *)

Section ExtensionStep.

Variable env : Env.

Lemma truthy_append_cons (a : string) (c : ascii) (b : string) :
  Py.truthy (a +:+ String c b) = true.
Proof. destruct a; reflexivity. Qed.

Lemma ExtensionFilename_truthy (publisher package version : string)
    (o : option string) :
  Py.truthy (ExtensionFilename publisher package version o) = true.
Proof. rewrite ExtensionFilename_form. apply truthy_append_cons. Qed.

(** A download under a name given by the caller. *)
Lemma Download_named (url path : string) (w : World) r w' :
  Py.truthy path = true ->
  Download env url path w = (r, w') ->
  (r = Raise ConnectionError /\ extends w w' [])
  \/ exists b, extends w w' [(url, b)]
       /\ ((b = false /\ r = Ok "")
           \/ (b = true /\ r = Raise ValueError)
           \/ (b = true /\ r = Ok path)).
Proof.
  intros Hp H.
  apply (Download_spec env) in H
    as [(_ & -> & He) | (resp & _ & He & [(Hok & -> & _) | [(Hok & -> & _) | (Hok & f & -> & _ & Hc & _)]])].
  - now left.
  - right. exists (ok resp). split; [exact He |]. left. now split.
  - right. exists (ok resp). split; [exact He |]. right. left. now split.
  - right. exists (ok resp). split; [exact He |]. right. right.
    unfold chosen_name in Hc. rewrite Hp in Hc. subst f. now split.
Qed.

Lemma set_path_after_reset (e slot path : string) (entry : gmap string string)
    (m : Manifest) :
  set_extension_path e slot path (set_extensions (<[e := entry]>) m)
  = set_extensions (<[e := <[slot := path]> entry]>) m.
Proof.
  unfold set_extension_path, set_extensions. destruct m; simpl. f_equal.
  rewrite lookup_insert_eq. simpl. apply insert_insert_eq.
Qed.

End ExtensionStep.

Section ExtensionStepSpec.

Variable env : Env.

Lemma clone_extension_spec (e : string) (m : Manifest) (w : World) r w' :
  clone_extension env e m w = (r, w') ->
  (ParseExtensionString e = Raise ValueError /\ r = Raise ValueError /\ w' = w)
  \/ exists publisher package version,
       ParseExtensionString e = Ok (publisher, package, version)
       /\ exists l, extends w w' l
                    /\ step_outcome e publisher package version m r l.
Proof.
  unfold clone_extension. intros H.
  apply bind_inv in H as [(parsed & w0 & Hparse & H) | (ex & Hparse & ->)].
  2:{ left. unfold lift in Hparse. injection Hparse as Hparse <-.
      assert (ex = ValueError) as ->.
      { revert Hparse. unfold ParseExtensionString.
        destruct (Py.split "@" e) as [|? [|? [|? ?]]]; try congruence.
        destruct (Py.split "." s) as [|? [|? [|? ?]]]; congruence. }
      auto. }
  unfold lift in Hparse. injection Hparse as Hparse <-.
  destruct parsed as [[p k] v].
  right. exists p, k, v. split; [exact Hparse |].
  set (entry0 := <["Generic" := ""]> (dict_fromkeys (keys (platform_ids "extension_id")))) in *.
  change (keys (platform_ids "extension_id")) with ["Linux"; "Windows"] in H.
  cbn [clone_extension_platforms] in H.
  set (urlL := ExtensionURL p k v (Some "linux-x64") true) in *.
  set (urlW := ExtensionURL p k v (Some "win32-x64") true) in *.
  set (urlG := ExtensionURL p k v None true) in *.
  set (fnL := ExtensionFilename p k v (Some "linux-x64")) in *.
  set (fnW := ExtensionFilename p k v (Some "win32-x64")) in *.
  set (fnG := ExtensionFilename p k v None) in *.
  unfold step_outcome. fold urlL urlW urlG fnL fnW fnG.
  assert (HtL : Py.truthy fnL = true) by apply ExtensionFilename_truthy.
  assert (HtW : Py.truthy fnW = true) by apply ExtensionFilename_truthy.
  assert (HtG : Py.truthy fnG = true) by apply ExtensionFilename_truthy.
  assert (Hgeneric : forall m1 w2 okL okW,
    okL && okW = false ->
    extends w w2 [(urlL, okL); (urlW, okW)] ->
    m1 = set_extensions
           (<[e := <["Generic" := ""]>
                     (fetched_entry (if okL then fnL else "")
                                    (if okW then fnW else "") "")]>) m ->
    (let* path := Download env urlG fnG
     in if Py.truthy path
        then ret (Next (set_extension_path e "Generic" path m1))
        else print ("Error: Failed to get extension " +:+ e);; ret (Return false))
      w2 = (r, w') ->
    exists l, extends w w' l /\
      match r with
      | Ok (Next m') =>
          exists okL okW,
            l = (urlL, okL) :: (urlW, okW)
                  :: (if okL && okW then [] else [(urlG, true)])
            /\ m' = set_extensions
                      (<[e := fetched_entry (if okL then fnL else "")
                                            (if okW then fnW else "")
                                            (if okL && okW then "" else fnG)]>) m
      | Ok (Return b) =>
          b = false
          /\ exists okL okW,
               okL && okW = false
               /\ l = [(urlL, okL); (urlW, okW); (urlG, false)]
      | Raise _ =>
          exists okL okW l',
            l ++ l' = [(urlL, okL); (urlW, okW); (urlG, true)]
      end).
  { intros m1 w2 okL okW Hnot He -> Hg.
    apply bind_inv in Hg as [(path & w3 & Hd & Hg) | (ex & Hd & ->)].
    - apply (Download_named env) in Hd
        as [(? & _) | (b & He3 & [(-> & Hp) | [(_ & ?) | (-> & Hp)]])];
        try discriminate; try assumption; injection Hp as ->.
      + change (Py.truthy "") with false in Hg. cbv beta iota in Hg.
        apply bind_inv in Hg as [(? & w4 & Hpr & Hg) | (ex & Hpr & _)];
          [| discriminate].
        injection Hpr as _ <-. injection Hg as <- <-.
        exists [(urlL, okL); (urlW, okW); (urlG, false)]. split.
        * apply extends_with_stdout.
          apply (extends_trans _ _ _ _ _ He He3).
        * split; [reflexivity |]. exists okL, okW. auto.
      + rewrite HtG in Hg. injection Hg as <- <-.
        exists [(urlL, okL); (urlW, okW); (urlG, true)]. split.
        * apply (extends_trans _ _ _ _ _ He He3).
        * exists okL, okW. rewrite Hnot. split; [reflexivity |].
          rewrite set_path_after_reset. reflexivity.
    - apply (Download_named env) in Hd
        as [(_ & He3) | (b & He3 & [(_ & ?) | [(-> & _) | (_ & ?)]])];
        try discriminate; try assumption.
      + exists [(urlL, okL); (urlW, okW)]. split.
        * rewrite <- (app_nil_r [_; _]).
          apply (extends_trans _ _ _ _ _ He He3).
        * exists okL, okW, [(urlG, true)]. reflexivity.
      + exists [(urlL, okL); (urlW, okW); (urlG, true)]. split.
        * apply (extends_trans _ _ _ _ _ He He3).
        * exists okL, okW, []. reflexivity. }
  apply bind_inv in H as [([m1 g] & w2 & Hloop & H) | (ex & Hloop & ->)].
  - (* both platform-specific attempts returned *)
    assert (Hinner : exists okL okW,
      extends w w2 [(urlL, okL); (urlW, okW)] /\ g = okL && okW
      /\ m1 = set_extensions
                (<[e := <["Generic" := ""]>
                          (fetched_entry (if okL then fnL else "")
                                         (if okW then fnW else "") "")]>) m).
    { apply bind_inv in Hloop as [(id & w0 & Hid & Hloop) | (ex & Hid & ?)];
        [| discriminate].
      injection Hid as <- <-. fold urlL fnL in Hloop.
      apply bind_inv in Hloop as [(pathL & w1 & HdL & Hloop) | (ex & HdL & ?)];
        [| discriminate].
      apply (Download_named env) in HdL
        as [(? & _) | (okL & HeL & [(-> & Hp) | [(_ & ?) | (-> & Hp)]])];
        try discriminate; try assumption; injection Hp as ->.
      - change (Py.truthy "") with false in Hloop. cbv beta iota in Hloop.
        apply bind_inv in Hloop as [(id & w0 & Hid & Hloop) | (ex & Hid & ?)];
          [| discriminate].
        injection Hid as <- <-. fold urlW fnW in Hloop.
        apply bind_inv in Hloop as [(pathW & w3 & HdW & Hloop) | (ex & HdW & ?)];
          [| discriminate].
        apply (Download_named env) in HdW
          as [(? & _) | (okW & HeW & [(-> & Hp) | [(_ & ?) | (-> & Hp)]])];
          try discriminate; try assumption; injection Hp as ->.
        + injection Hloop as <- <- <-. exists false, false.
          split; [apply (extends_trans _ _ _ _ _ HeL HeW) |].
          split; reflexivity.
        + rewrite HtW in Hloop. injection Hloop as <- <- <-. exists false, true.
          split; [apply (extends_trans _ _ _ _ _ HeL HeW) |].
          split; [reflexivity |]. rewrite !set_path_after_reset. reflexivity.
      - rewrite HtL in Hloop.
        apply bind_inv in Hloop as [(id & w0 & Hid & Hloop) | (ex & Hid & ?)];
          [| discriminate].
        injection Hid as <- <-. fold urlW fnW in Hloop.
        apply bind_inv in Hloop as [(pathW & w3 & HdW & Hloop) | (ex & HdW & ?)];
          [| discriminate].
        apply (Download_named env) in HdW
          as [(? & _) | (okW & HeW & [(-> & Hp) | [(_ & ?) | (-> & Hp)]])];
          try discriminate; try assumption; injection Hp as ->.
        + injection Hloop as <- <- <-. exists true, false.
          split; [apply (extends_trans _ _ _ _ _ HeL HeW) |].
          split; [reflexivity |]. rewrite !set_path_after_reset. reflexivity.
        + rewrite HtW in Hloop. injection Hloop as <- <- <-. exists true, true.
          split; [apply (extends_trans _ _ _ _ _ HeL HeW) |].
          split; [reflexivity |]. rewrite !set_path_after_reset. reflexivity. }
    destruct Hinner as (okL & okW & He & -> & Hm1).
    destruct (okL && okW) eqn:Hboth; cbn [negb] in H.
    + injection H as <- <-. exists [(urlL, okL); (urlW, okW)].
      split; [exact He |]. exists okL, okW. rewrite Hboth.
      split; [reflexivity |]. subst m1.
      apply andb_true_iff in Hboth as [-> ->]. reflexivity.
    + apply (Hgeneric m1 w2 okL okW Hboth He Hm1 H).
  - (* a platform-specific attempt raised *)
    assert (Hinner : exists l okL okW l',
      extends w w' l /\ l ++ l' = [(urlL, okL); (urlW, okW); (urlG, true)]).
    { apply bind_inv in Hloop as [(id & w0 & Hid & Hloop) | (ex' & Hid & ?)];
        [| discriminate].
      injection Hid as <- <-. fold urlL fnL in Hloop.
      apply bind_inv in Hloop as [(pathL & w1 & HdL & Hloop) | (ex' & HdL & _)].
      2:{ apply (Download_named env) in HdL
            as [(_ & HeL) | (okL & HeL & [(_ & ?) | [(-> & _) | (_ & ?)]])];
            try discriminate; try assumption.
          - exists [], true, true, [(urlL, true); (urlW, true); (urlG, true)]. auto.
          - exists [(urlL, true)], true, true, [(urlW, true); (urlG, true)]. auto. }
      assert (Hsecond : forall okL w1 (rest : string -> M (Manifest * bool)),
        extends w w1 [(urlL, okL)] ->
        (let* id0 := table_get (platform_ids "extension_id") "Windows"
         in let* path0 := Download env (ExtensionURL p k v (Some id0) true)
                            (ExtensionFilename p k v (Some id0))
            in rest path0) w1 = (Raise ex, w') ->
        (forall path0 w3, exists x, rest path0 w3 = (Ok x, w3)) ->
        exists l okL okW l',
          extends w w' l /\ l ++ l' = [(urlL, okL); (urlW, okW); (urlG, true)]).
      { intros okL w3 rest HeL Hrest Hret.
        apply bind_inv in Hrest as [(id & w0 & Hid & Hrest) | (ex' & Hid & ?)];
          [| discriminate].
        injection Hid as <- <-. fold urlW fnW in Hrest.
        apply bind_inv in Hrest as [(pathW & w4 & HdW & Hrest) | (ex' & HdW & _)].
        { destruct (Hret pathW w4) as [x Hx]. congruence. }
        apply (Download_named env) in HdW
          as [(_ & HeW) | (okW & HeW & [(_ & ?) | [(-> & _) | (_ & ?)]])];
          try discriminate; try assumption.
        - exists [(urlL, okL)], okL, true, [(urlW, true); (urlG, true)].
          split; [| reflexivity]. rewrite <- (app_nil_r [_]).
          apply (extends_trans _ _ _ _ _ HeL HeW).
        - exists [(urlL, okL); (urlW, true)], okL, true, [(urlG, true)].
          split; [| reflexivity]. apply (extends_trans _ _ _ _ _ HeL HeW). }
      apply (Download_named env) in HdL
        as [(? & _) | (okL & HeL & [(-> & Hp) | [(_ & ?) | (-> & Hp)]])];
        try discriminate; try assumption; injection Hp as ->.
      - change (Py.truthy "") with false in Hloop. cbv beta iota in Hloop.
        eapply (Hsecond false w1 _ HeL Hloop).
        intros path0 w3. destruct (Py.truthy path0); eexists; reflexivity.
      - rewrite HtL in Hloop.
        eapply (Hsecond true w1 _ HeL Hloop).
        intros path0 w3. destruct (Py.truthy path0); eexists; reflexivity. }
    destruct Hinner as (l & okL & okW & l' & He & Hl).
    exists l. split; [exact He |]. exists okL, okW, l'. exact Hl.
Qed.

End ExtensionStepSpec.

(** ** The extension loop *)

Ltac forall_list :=
  repeat first [apply List.Forall_nil | apply List.Forall_cons; [simpl; auto |]].

Section ExtensionLoop.

Variable env : Env.

Lemma specific_request_linux (e p k v : string) :
  ParseExtensionString e = Ok (p, k, v) ->
  specific_request e (ExtensionURL p k v (Some "linux-x64") true).
Proof. intros H. exists p, k, v, "Linux", "linux-x64". auto. Qed.

Lemma specific_request_windows (e p k v : string) :
  ParseExtensionString e = Ok (p, k, v) ->
  specific_request e (ExtensionURL p k v (Some "win32-x64") true).
Proof. intros H. exists p, k, v, "Windows", "win32-x64". auto. Qed.

Lemma generic_request_intro (e p k v : string) :
  ParseExtensionString e = Ok (p, k, v) ->
  generic_request e (ExtensionURL p k v None true).
Proof. intros H. exists p, k, v. auto. Qed.

Lemma step_outcome_requests (e p k v : string) (m : Manifest) r l :
  ParseExtensionString e = Ok (p, k, v) ->
  step_outcome e p k v m r l ->
  Forall (fun ub : string * bool =>
            specific_request e ub.1 \/ generic_request e ub.1) l
  /\ (r <> Ok (Return false) ->
      forall u, In (u, false) l -> specific_request e u)
  /\ (forall b, r = Ok (Return b) -> b = false).
Proof.
  intros Hp Ho.
  pose proof (specific_request_linux e p k v Hp) as HL.
  pose proof (specific_request_windows e p k v Hp) as HW.
  pose proof (generic_request_intro e p k v Hp) as HG.
  unfold step_outcome in Ho. destruct r as [[m' | b] | ex].
  - destruct Ho as (okL & okW & -> & _). split; [| split].
    + destruct (okL && okW); forall_list.
    + intros _ u Hu.
      destruct (okL && okW); simpl in Hu;
        repeat (destruct Hu as [[= <- _] | Hu]; [assumption |]);
        try contradiction.
      destruct Hu as [[= _ ?] | []].
    + discriminate.
  - destruct Ho as (-> & okL & okW & _ & ->). split; [| split].
    + forall_list.
    + intros Hne. now contradiction Hne.
    + now intros b [= <-].
  - destruct Ho as (okL & okW & l' & Hl). split; [| split].
    + assert (Hall : Forall (fun ub : string * bool =>
                specific_request e ub.1 \/ generic_request e ub.1) (l ++ l')).
      { rewrite Hl. forall_list. }
      now apply Forall_app in Hall as [Hall _].
    + intros _ u Hu.
      assert (Hin : In (u, false) (l ++ l')) by (apply in_or_app; now left).
      rewrite Hl in Hin. simpl in Hin.
      destruct Hin as [[= <- _] | [[= <- _] | [[= _ ?] | []]]]; assumption.
    + discriminate.
Qed.

Lemma clone_extensions_spec (exts : list string) (m : Manifest) (w : World) r w' :
  clone_extensions env exts m w = (r, w') ->
  exists l, extends w w' l
    /\ Forall (fun ub : string * bool => extension_request exts ub.1) l
    /\ (r <> Ok (Return false) -> only_specific_failures exts l)
    /\ match r with
       | Ok (Next m') =>
           m_version m' = m_version m /\ m_commit_id m' = m_commit_id m
           /\ m_installer m' = m_installer m /\ m_server m' = m_server m
           /\ (forall e, In e exts ->
                 exists entry, m_extensions m' !! e = Some entry
                               /\ entry_from_responses e l entry)
           /\ (forall e, ~ In e exts -> m_extensions m' !! e = m_extensions m !! e)
       | Ok (Return b) => b = false
       | Raise _ => True
       end.
Proof.
  revert m w r w'. induction exts as [|e exts IH]; intros m w r w' H.
  - injection H as <- <-. exists []. split; [apply extends_refl |].
    split; [constructor |]. split; [intros _ u [] |].
    repeat (split; [reflexivity |]). split; [now intros e [] | reflexivity].
  - cbn [clone_extensions] in H.
    apply bind_inv in H as [(r1 & w1 & Hstep & H) | (ex & Hstep & ->)].
    + apply (clone_extension_spec env) in Hstep
        as [(_ & ? & _) | (p & k & v & Hp & l1 & He1 & Ho)]; [discriminate |].
      destruct (step_outcome_requests e p k v m _ l1 Hp Ho) as (Hreq & Hfail & Hret).
      assert (Hreq1 : Forall (fun ub : string * bool =>
                extension_request (e :: exts) ub.1) l1).
      { eapply List.Forall_impl; [| exact Hreq]. intros ub Hub. exists e. split; [now left | exact Hub]. }
      destruct r1 as [m1 | b].
      * apply IH in H as (l2 & He2 & Hreq2 & Hfail2 & Hr).
        exists (l1 ++ l2). split; [apply (extends_trans _ _ _ _ _ He1 He2) |].
        split; [| split].
        -- apply Forall_app. split; [exact Hreq1 |].
           eapply List.Forall_impl; [| exact Hreq2].
           intros ub (e' & Hin & Hub). exists e'. split; [now right | exact Hub].
        -- intros Hne u Hu. apply in_app_or in Hu as [Hu | Hu].
           ++ exists e. split; [now left |]. apply Hfail; [discriminate | exact Hu].
           ++ destruct (Hfail2 Hne u Hu) as (e' & Hin & Hs).
              exists e'. split; [now right | exact Hs].
        -- destruct r as [[m' | b] | ex]; [| exact Hr | exact I].
           destruct Hr as (Hver & Hcom & Hins & Hsrv & Hin & Hout).
           destruct Ho as (okL & okW & Hl1 & Hm1). subst m1. simpl in *.
           repeat (split; [assumption |]). split.
           ++ intros e' He'.
              destruct (in_dec String.string_dec e' exts) as [Hi | Hni].
              ** destruct (Hin e' Hi) as (entry & Hlook & Hentry).
                 exists entry. split; [exact Hlook |].
                 destruct Hentry as (p' & k' & v' & oL & oW & lpre & lpost & Hp' & -> & ->).
                 exists p', k', v', oL, oW, (l1 ++ lpre), lpost.
                 split; [exact Hp' |]. split; [now rewrite <- app_assoc | reflexivity].
              ** destruct He' as [<- | ?]; [| contradiction].
                 rewrite (Hout e Hni), lookup_insert_eq.
                 eexists. split; [reflexivity |].
                 exists p, k, v, okL, okW, [], l2.
                 split; [exact Hp |]. split; [| reflexivity].
                 rewrite Hl1. simpl. reflexivity.
           ++ intros e' He'. rewrite Hout by (intros ?; apply He'; now right).
              apply lookup_insert_ne. intros ->. apply He'. now left.
      * injection H as <- <-. exists l1. split; [exact He1 |].
        split; [exact Hreq1 |]. split.
        -- intros Hne. contradiction Hne. now rewrite (Hret b eq_refl).
        -- now apply Hret.
    + apply (clone_extension_spec env) in Hstep
        as [(Hp & _ & ->) | (p & k & v & Hp & l1 & He1 & Ho)].
      * exists []. split; [apply extends_refl |].
        split; [constructor |]. split; [intros _ u [] | exact I].
      * destruct (step_outcome_requests e p k v m _ l1 Hp Ho) as (Hreq & Hfail & Hret).
        exists l1. split; [exact He1 |]. split; [| split; [| exact I]].
        -- eapply List.Forall_impl; [| exact Hreq].
           intros ub Hub. exists e. split; [now left | exact Hub].
        -- intros _ u Hu. exists e. split; [now left |].
           apply Hfail; [discriminate | exact Hu].
Qed.

End ExtensionLoop.

(** ** The whole capture *)

Section CloneSpec.

Variable env : Env.

Lemma dict_fromkeys_absent (ks : list string) (k : string) :
  ~ In k ks -> dict_fromkeys ks !! k = None.
Proof.
  intros H. unfold dict_fromkeys. apply not_elem_of_list_to_map_1.
  rewrite <- list_fmap_compose. intros Hin.
  apply list_elem_of_fmap in Hin as (k' & -> & Hin).
  apply H. now apply list_elem_of_In.
Qed.

Lemma entry_from_responses_mono (e : string) (l0 l : list (string * bool))
    (entry : gmap string string) :
  entry_from_responses e l entry -> entry_from_responses e (l0 ++ l) entry.
Proof.
  intros (p & k & v & oL & oW & lpre & lpost & Hp & -> & ->).
  exists p, k, v, oL, oW, (l0 ++ lpre), lpost.
  split; [exact Hp |]. split; [now rewrite <- app_assoc | reflexivity].
Qed.

Lemma all_ok_no_failure (l : list (string * bool)) (u : string) :
  all_ok l -> ~ In (u, false) l.
Proof.
  intros Hall Hin. unfold all_ok in Hall.
  rewrite List.Forall_forall in Hall. specialize (Hall _ Hin). discriminate.
Qed.

(** The capture as a whole: what it requests, what may fail without
    stopping it, and when a manifest is written. *)
Lemma Clone_spec (dir : string) (w : World) r w' :
  Clone env dir w = (r, w') ->
  exists l,
    http_log w' = http_log w ++ l
    /\ cmd_log w' = cmd_log w
    /\ cwd w' = Path.abspath (cwd w) dir
    /\ Forall (fun ub : string * bool => clone_request env ub.1) l
    /\ (r <> Ok false ->
        forall u, In (u, false) l -> exists e, specific_request e u)
    /\ match r with
       | Ok true =>
           exists m,
             files w' !! Path.abspath (cwd w') "manifest.json" = Some (FJson m)
             /\ (forall p m', p <> Path.abspath (cwd w') "manifest.json" ->
                   files w' !! p = Some (FJson m') ->
                   files w !! p = Some (FJson m'))
             /\ manifest_complete env l m
       | _ => no_new_manifest w w'
       end.
Proof.
  unfold Clone. intros H.
  apply bind_inv in H as [([] & w0 & Hcd & H) | (ex & Hcd & ?)]; [| discriminate].
  injection Hcd as <-.
  set (w0 := with_cwd (Path.abspath (cwd w) dir) w) in *.
  assert (Hstart : forall w1 l, extends w0 w1 l ->
            http_log w1 = http_log w ++ l /\ cmd_log w1 = cmd_log w
            /\ cwd w1 = Path.abspath (cwd w) dir /\ no_new_manifest w w1).
  { intros w1 l [c g cm f]. repeat split; assumption. }
  assert (Hraise : forall w1 l (ex : exn), extends w0 w1 l ->
            Forall (fun ub : string * bool => clone_request env ub.1) l ->
            (forall u, In (u, false) l -> exists e, specific_request e u) ->
            exists l,
              http_log w1 = http_log w ++ l /\ cmd_log w1 = cmd_log w
              /\ cwd w1 = Path.abspath (cwd w) dir
              /\ Forall (fun ub : string * bool => clone_request env ub.1) l
              /\ (@Raise bool ex <> Ok false ->
                  forall u, In (u, false) l -> exists e, specific_request e u)
              /\ no_new_manifest w w1).
  { intros w1 l ex He Hreq Hfail.
    destruct (Hstart w1 l He) as (Hl & Hc & Hd & Hn).
    exists l. repeat (split; [assumption |]). split; [auto | exact Hn]. }
  assert (Hfalse : forall w1 l, extends w0 w1 l ->
            Forall (fun ub : string * bool => clone_request env ub.1) l ->
            exists l,
              http_log w1 = http_log w ++ l /\ cmd_log w1 = cmd_log w
              /\ cwd w1 = Path.abspath (cwd w) dir
              /\ Forall (fun ub : string * bool => clone_request env ub.1) l
              /\ (Ok false <> Ok false ->
                  forall u, In (u, false) l -> exists e, specific_request e u)
              /\ no_new_manifest w w1).
  { intros w1 l He Hreq.
    destruct (Hstart w1 l He) as (Hl & Hc & Hd & Hn).
    exists l. repeat (split; [assumption |]). split; [congruence | exact Hn]. }
  (* the version and the commit identifier *)
  apply bind_inv in H as [(version & w1 & Hv & H) | (ex & Hv & ->)].
  2:{ apply (CurVSCodeVersion_spec env) in Hv as [-> _].
      apply (Hraise _ [] ex (extends_tick w0)); [constructor | intros u []]. }
  apply (CurVSCodeVersion_spec env) in Hv as [-> Hv].
  specialize (Hv version eq_refl).
  apply bind_inv in H as [(commit & w1 & Hc & H) | (ex & Hc & ->)].
  2:{ apply (CurVSCodeCommitID_spec env) in Hc as [-> _].
      apply (Hraise _ [] ex); [| constructor | intros u []].
      apply extends_after_tick, extends_tick. }
  apply (CurVSCodeCommitID_spec env) in Hc as [-> Hc].
  specialize (Hc commit eq_refl).
  assert (He0 : extends w0 (tick (tick w0)) [])
    by apply extends_after_tick, extends_tick.
  (* the installers *)
  apply bind_inv in H as [(r1 & w1 & Hi & H) | (ex & Hi & ->)].
  2:{ apply (clone_installers_spec env) in Hi as (l1 & He1 & Hreq1 & Hall1).
      apply (Hraise _ l1 ex (extends_trans _ _ _ _ _ He0 He1)).
      - eapply List.Forall_impl; [| exact Hreq1]. intros ub Hub. now left.
      - intros u Hu. now apply (all_ok_no_failure _ u) in Hall1. }
  apply (clone_installers_spec env) in Hi as (l1 & He1 & Hreq1 & Hr1).
  assert (Hreq1' : Forall (fun ub : string * bool => clone_request env ub.1) l1).
  { eapply List.Forall_impl; [| exact Hreq1]. intros ub Hub. now left. }
  destruct r1 as [m1 | b1].
  2:{ subst b1. injection H as <- <-.
      apply (Hfalse _ l1 (extends_trans _ _ _ _ _ He0 He1) Hreq1'). }
  destruct Hr1 as (Hall1 & Hver1 & Hcom1 & Hsrv1 & Hext1 & Hin1 & Hout1).
  simpl in Hver1, Hcom1, Hsrv1, Hext1, Hout1.
  pose proof (extends_trans _ _ _ _ _ He0 He1) as He01. simpl in He01.
  (* the servers *)
  apply bind_inv in H as [(r2 & w2 & Hs & H) | (ex & Hs & ->)].
  2:{ apply (clone_servers_spec env) in Hs as (l2 & He2 & Hreq2 & Hall2).
      apply (Hraise _ (l1 ++ l2) ex (extends_trans _ _ _ _ _ He01 He2)).
      - apply Forall_app. split; [exact Hreq1' |].
        eapply List.Forall_impl; [| exact Hreq2]. intros ub Hub. right. now left.
      - intros u Hu. apply in_app_or in Hu as [Hu | Hu].
        + now apply (all_ok_no_failure _ u) in Hall1.
        + now apply (all_ok_no_failure _ u) in Hall2. }
  apply (clone_servers_spec env) in Hs as (l2 & He2 & Hreq2 & Hr2).
  assert (Hreq2' : Forall (fun ub : string * bool => clone_request env ub.1) (l1 ++ l2)).
  { apply Forall_app. split; [exact Hreq1' |].
    eapply List.Forall_impl; [| exact Hreq2]. intros ub Hub. right. now left. }
  pose proof (extends_trans _ _ _ _ _ He01 He2) as He02.
  destruct r2 as [m2 | b2].
  2:{ subst b2. injection H as <- <-. apply (Hfalse _ (l1 ++ l2) He02 Hreq2'). }
  destruct Hr2 as (Hall2 & Hver2 & Hcom2 & Hins2 & Hext2 & Hin2 & Hout2).
  assert (Hok12 : forall u, ~ In (u, false) (l1 ++ l2)).
  { intros u Hu. apply in_app_or in Hu as [Hu | Hu].
    - now apply (all_ok_no_failure _ u) in Hall1.
    - now apply (all_ok_no_failure _ u) in Hall2. }
  (* the extensions *)
  apply bind_inv in H as [(exts & w3 & Hx & H) | (ex & Hx & ->)].
  2:{ apply (CurVSCodeExtensions_spec env) in Hx as [-> _].
      apply (Hraise _ (l1 ++ l2) ex); [| exact Hreq2' |].
      - rewrite <- (app_nil_r (l1 ++ l2)).
        apply (extends_trans _ _ _ _ _ He02 (extends_tick w2)).
      - intros u Hu. now apply Hok12 in Hu. }
  apply (CurVSCodeExtensions_spec env) in Hx as [-> Hx].
  destruct (Hx exts eq_refl) as (xout & Hxout & ->).
  apply bind_inv in H as [(r3 & w3 & Hl & H) | (ex & Hl & ->)].
  - apply (clone_extensions_spec env) in Hl as (l3 & He3 & Hreq3 & Hfail3 & Hr3).
    pose proof (extends_trans _ _ _ _ _ He02
                  (extends_after_tick _ _ _ He3)) as He03.
    assert (Hreq3' : Forall (fun ub : string * bool => clone_request env ub.1)
                       ((l1 ++ l2) ++ l3)).
    { apply Forall_app. split; [exact Hreq2' |].
      eapply List.Forall_impl; [| exact Hreq3].
      intros ub Hub. right. right. exists (clock w2), xout. auto. }
    destruct r3 as [m3 | b3].
    2:{ subst b3. injection H as <- <-. apply (Hfalse _ _ He03 Hreq3'). }
    (* the manifest is written *)
    injection H as <- <-.
    destruct (Hstart _ _ He03) as (Hlog & Hcmd & Hcwd & Hnew).
    exists ((l1 ++ l2) ++ l3). simpl.
    repeat (split; [assumption |]). split.
    { intros _ u Hu. apply in_app_or in Hu as [Hu | Hu].
      - now apply Hok12 in Hu.
      - destruct (Hfail3 ltac:(discriminate) u Hu) as (e & _ & Hs). eauto. }
    exists m3. split; [apply lookup_insert_eq |]. split.
    { intros p m' Hne. rewrite lookup_insert_ne by congruence. apply Hnew. }
    destruct Hr3 as (Hver3 & Hcom3 & Hins3 & Hsrv3 & Hin3 & Hout3).
    unfold manifest_complete.
    rewrite Hver3, Hver2, Hver1, Hcom3, Hcom2, Hcom1, Hins3, Hins2, Hsrv3.
    destruct Hv as (vout & Hvout & Hvline). destruct Hc as (cout & Hcout & Hcline).
    split; [eauto |]. split; [eauto |].
    split; [exact Hin1 |]. split.
    { intros pl Hpl. rewrite (Hout1 pl Hpl). now apply dict_fromkeys_absent. }
    split; [exact Hin2 |]. split.
    { intros pl Hpl. rewrite (Hout2 pl Hpl), Hsrv1. now apply dict_fromkeys_absent. }
    exists (clock w2), xout. split; [exact Hxout |]. split.
    + intros e Hin. destruct (Hin3 e Hin) as (entry & Hlook & Hentry).
      exists entry. split; [exact Hlook |]. now apply entry_from_responses_mono.
    + intros e Hin. rewrite (Hout3 e Hin), Hext2, Hext1. apply lookup_empty.
  - apply (clone_extensions_spec env) in Hl as (l3 & He3 & Hreq3 & Hfail3 & _).
    pose proof (extends_trans _ _ _ _ _ He02
                  (extends_after_tick _ _ _ He3)) as He03.
    apply (Hraise _ _ ex He03).
    + apply Forall_app. split; [exact Hreq2' |].
      eapply List.Forall_impl; [| exact Hreq3].
      intros ub Hub. right. right. exists (clock w2), xout. auto.
    + intros u Hu. apply in_app_or in Hu as [Hu | Hu].
      * now apply Hok12 in Hu.
      * destruct (Hfail3 ltac:(discriminate) u Hu) as (e & _ & Hs). eauto.
Qed.

End CloneSpec.

(** ** The apply phase *)

Section Apply.

Variable env : Env.

Lemma collect_extensions_choose (system : string)
    (entries : list (string * gmap string string)) (acc : list string) (w : World) :
  Forall (fun kv : string * gmap string string => well_keyed system kv.2) entries ->
  collect_extensions system entries acc w =
  match choose_all system entries with
  | inr paths => (Ok (Next (acc ++ paths)), w)
  | inl bad =>
      (Ok (Return false), with_stdout (stdout w ++ [no_artifact_message bad]) w)
  end.
Proof.
  revert acc. induction entries as [|[e entry] rest IH]; intros acc Hk.
  - simpl. now rewrite app_nil_r.
  - apply List.Forall_cons_iff in Hk as [[[p Hp] [g Hg]] Hrest]. simpl in Hp, Hg.
    cbn [collect_extensions choose_all]. unfold bind, dict_get, choose_artifact.
    rewrite Hp, Hg. unfold ret.
    destruct (Py.truthy p).
    + rewrite (IH _ Hrest). destruct (choose_all system rest); [reflexivity |].
      now rewrite <- app_assoc.
    + destruct (Py.truthy g).
      * rewrite (IH _ Hrest). destruct (choose_all system rest); [reflexivity |].
        now rewrite <- app_assoc.
      * unfold print, no_artifact_message. simpl.
        now rewrite !append_assoc.
Qed.

Lemma choose_all_bad (system : string)
    (entries : list (string * gmap string string)) :
  Exists (fun kv : string * gmap string string =>
            choose_artifact system kv.2 = None) entries ->
  exists bad entry, choose_all system entries = inl bad
                    /\ In (bad, entry) entries
                    /\ choose_artifact system entry = None.
Proof.
  induction entries as [|[e entry] rest IH]; intros H.
  - inversion H.
  - simpl. destruct (choose_artifact system entry) as [path|] eqn:Ec.
    + apply List.Exists_cons in H as [H | H]; [simpl in H; congruence |].
      destruct (IH H) as (bad & entry' & -> & Hin & Hc).
      exists bad, entry'. auto.
    + exists e, entry. auto.
Qed.

Lemma choose_all_good (system : string)
    (entries : list (string * gmap string string)) (paths : list string) :
  choose_all system entries = inr paths ->
  Forall2 (fun (kv : string * gmap string string) path =>
             choose_artifact system kv.2 = Some path) entries paths.
Proof.
  revert paths. induction entries as [|[e entry] rest IH]; intros paths H.
  - injection H as <-. constructor.
  - simpl in H. destruct (choose_artifact system entry) as [path|] eqn:Ec;
      [| discriminate].
    destruct (choose_all system rest) as [bad | ps]; [discriminate |].
    injection H as <-. constructor; [exact Ec | now apply IH].
Qed.


End Apply.



(** C7.  The loop of the apply phase picks, for every entry, the path of
    the running platform when it is not empty, else the generic path when
    that is not empty; at the first entry with neither it prints the
    diagnostic and makes [Install] return failure.  When that happens
    after the editor was installed, the world is left as the editor
    installation left it, but for the diagnostic line: nothing was removed
    and no extension was installed. *)
Theorem extension_resolution :
  (forall system entries acc w,
      Forall (fun kv : string * gmap string string => well_keyed system kv.2) entries ->
      collect_extensions system entries acc w =
      match choose_all system entries with
      | inr paths => (Ok (Next (acc ++ paths)), w)
      | inl bad =>
          (Ok (Return false), with_stdout (stdout w ++ [no_artifact_message bad]) w)
      end)
  /\ (forall env dir w m installer_rel w1,
      let w0 := with_cwd (Path.abspath (cwd w) dir) w in
      files w0 !! Path.abspath (cwd w0) "manifest.json" = Some (FJson m) ->
      m_installer m !! platform_system env = Some installer_rel ->
      install_editor env (platform_system env)
        (Path.abspath (cwd w0) installer_rel) w0 = (Ok (Next tt), w1) ->
      (forall e entry, m_extensions m !! e = Some entry ->
                       well_keyed (platform_system env) entry) ->
      (exists e entry, m_extensions m !! e = Some entry
                       /\ choose_artifact (platform_system env) entry = None) ->
      exists bad entry,
        m_extensions m !! bad = Some entry
        /\ choose_artifact (platform_system env) entry = None
        /\ Install env dir w =
           (Ok false, with_stdout (stdout w1 ++ [no_artifact_message bad]) w1)).
Proof.
  split; [apply collect_extensions_choose |].
  intros env dir w m installer_rel w1 w0 Hload Hinst Hed Hkeys (e & entry & He & Hc).
  assert (Hall : Forall (fun kv : string * gmap string string =>
                           well_keyed (platform_system env) kv.2)
                   (map_to_list (m_extensions m))).
  { apply List.Forall_forall. intros [e' entry'] Hin.
    apply list_elem_of_In, elem_of_map_to_list in Hin. now apply (Hkeys e'). }
  assert (Hex : Exists (fun kv : string * gmap string string =>
                          choose_artifact (platform_system env) kv.2 = None)
                  (map_to_list (m_extensions m))).
  { apply List.Exists_exists. exists (e, entry). split; [| exact Hc].
    apply list_elem_of_In, elem_of_map_to_list. exact He. }
  destruct (choose_all_bad _ _ Hex) as (bad & entry' & Hbad & Hin & Hnone).
  exists bad, entry'. split.
  { apply list_elem_of_In, elem_of_map_to_list in Hin. exact Hin. }
  split; [exact Hnone |].
  unfold Install, bind, chdir, load_manifest, dict_get, getcwd.
  fold w0. rewrite Hload. rewrite Hinst. unfold ret at 1. cbv beta iota.
  rewrite Hed. rewrite (collect_extensions_choose _ _ _ _ Hall), Hbad.
  reflexivity.
Qed.

Lemma extension_resolution_witness :
  exists bad entry,
    m_extensions manifest_without_package !! bad = Some entry
    /\ choose_artifact "Linux" entry = None
    /\ exists w1,
         Install (sample_env net_all_ok "Linux") "out" world_without_package =
         (Ok false, with_stdout (stdout w1 ++ [no_artifact_message bad]) w1)
         /\ files w1 = files world_without_package.
Proof.
  pose (env := sample_env net_all_ok "Linux").
  pose (w0 := with_cwd (Path.abspath (cwd world_without_package) "out")
                world_without_package).
  pose (ed := install_editor env "Linux" (Path.abspath (cwd w0) "code.deb") w0).
  destruct (proj2 extension_resolution env "out" world_without_package
              manifest_without_package "code.deb" ed.2)
    as (bad & entry & H1 & H2 & H3).
  - reflexivity.
  - reflexivity.
  - reflexivity.
  - intros e entry H.
    assert (entry = fetched_entry "" "" "") as ->.
    { change (m_extensions manifest_without_package)
        with ({[ "ms.python@2024.1.0" := fetched_entry "" "" "" ]}
                : gmap string (gmap string string)) in H.
      apply lookup_singleton_Some in H as [_ H]. now symmetry. }
    split; eexists; reflexivity.
  - exists "ms.python@2024.1.0", (fetched_entry "" "" ""). split; reflexivity.
  - exists bad, entry. split; [exact H1 |]. split; [exact H2 |].
    exists ed.2. split; [exact H3 | reflexivity].
Defined.

(** ** Consequences for the manifest *)

Section ManifestFacts.


Lemma entry_from_responses_nonempty (e : string) (l : list (string * bool))
    (entry : gmap string string) :
  entry_from_responses e l entry ->
  exists slot path,
    In slot ["Linux"; "Windows"; "Generic"]
    /\ entry !! slot = Some path /\ path <> "".
Proof.
  intros (p & k & v & okL & okW & _ & _ & _ & _ & ->).
  destruct okL.
  - exists "Linux", (ExtensionFilename p k v (Some "linux-x64")).
    split; [simpl; auto |]. split; [reflexivity |].
    apply truthy_true, ExtensionFilename_truthy.
  - exists "Generic", (ExtensionFilename p k v None).
    split; [simpl; auto |]. split; [reflexivity |].
    apply truthy_true, ExtensionFilename_truthy.
Qed.





Lemma generic_request_last (e u : string) :
  generic_request e u -> Py.last_char u = Some "e"%char.
Proof.
  intros (p & k & v & _ & ->).
  unfold ExtensionURL. cbn [opt_truthy negb]. now rewrite !last_char_append.
Qed.

Lemma specific_request_last (e u : string) :
  specific_request e u -> Py.last_char u = Some "4"%char.
Proof.
  intros (p & k & v & pl & id & _ & Hid & ->).
  assert (id = "linux-x64" \/ id = "win32-x64") as [-> | ->].
  { revert Hid. unfold platform_ids. simpl.
    destruct (String.eqb pl "Linux"); [intros [= <-]; now left |].
    destruct (String.eqb pl "Windows"); [intros [= <-]; now right | discriminate]. }
  - unfold ExtensionURL. cbn [opt_truthy negb Py.truthy].
    change (Py.truthy "linux-x64") with true. cbv iota.
    now rewrite !last_char_append.
  - unfold ExtensionURL. cbn [opt_truthy negb Py.truthy].
    change (Py.truthy "win32-x64") with true. cbv iota.
    now rewrite !last_char_append.
Qed.

(** Among the three answers for one extension, a failed one to the generic
    request can only be the last. *)
Lemma generic_failure_last (e p k v : string) (okL okW : bool)
    (l : list (string * bool)) :
  ParseExtensionString e = Ok (p, k, v) ->
  In (ExtensionURL p k v None true, false) l ->
  incl l [(ExtensionURL p k v (Some "linux-x64") true, okL);
          (ExtensionURL p k v (Some "win32-x64") true, okW);
          (ExtensionURL p k v None true, true)] ->
  False.
Proof.
  intros Hp Hin Hincl.
  pose proof (generic_request_last e _ (generic_request_intro e p k v Hp)) as HG.
  pose proof (specific_request_last e _ (specific_request_linux e p k v Hp)) as HL.
  pose proof (specific_request_last e _ (specific_request_windows e p k v Hp)) as HW.
  set (urlG := ExtensionURL p k v None true) in *.
  set (urlL := ExtensionURL p k v (Some "linux-x64") true) in *.
  set (urlW := ExtensionURL p k v (Some "win32-x64") true) in *.
  apply Hincl in Hin. destruct Hin as [H | [H | [H | []]]].
  - apply (f_equal fst) in H. cbn [fst] in H. congruence.
  - apply (f_equal fst) in H. cbn [fst] in H. congruence.
  - apply (f_equal snd) in H. discriminate.
Qed.

End ManifestFacts.



(** C3.  A manifest document found among the files after a capture was
    either there before, or is the manifest of a successful capture, and
    then each of its extension entries has a non-empty path in one of its
    three slots.  In the body of the extension loop a failed generic
    request, the only way to an entry without any path, ends the capture
    with failure. *)
Theorem persisted_entries_nonempty :
  (forall env dir w r w' path m,
      Clone env dir w = (r, w') ->
      files w' !! path = Some (FJson m) ->
      files w !! path = Some (FJson m)
      \/ (r = Ok true
          /\ path = Path.abspath (cwd w') "manifest.json"
          /\ forall e entry,
               m_extensions m !! e = Some entry ->
               exists slot p,
                 In slot ["Linux"; "Windows"; "Generic"]
                 /\ entry !! slot = Some p /\ p <> ""))
  /\ (forall env e publisher package version m w r w',
      ParseExtensionString e = Ok (publisher, package, version) ->
      clone_extension env e m w = (r, w') ->
      exists l,
        http_log w' = http_log w ++ l
        /\ (In (ExtensionURL publisher package version None true, false) l ->
            r = Ok (Return false))).
Proof.
  split.
  - intros env dir w r w' path m H Hfile.
    apply Clone_spec in H as (l & _ & _ & _ & _ & _ & Hr).
    destruct r as [[|] |ex]; [| left; now apply Hr ..].
    destruct Hr as (m0 & Hm0 & Hother & Hc).
    destruct (decide (path = Path.abspath (cwd w') "manifest.json")) as [-> | Hne].
    + right. split; [reflexivity |]. split; [reflexivity |].
      rewrite Hm0 in Hfile. injection Hfile as <-.
      destruct Hc as (_ & _ & _ & _ & _ & _ & n & out & _ & Hin & Hout).
      intros e entry He.
      destruct (in_dec String.string_dec e (Py.splitlines out)) as [Hi | Hni].
      * destruct (Hin e Hi) as (entry' & He' & Hfrom).
        rewrite He in He'. injection He' as <-.
        apply (entry_from_responses_nonempty e l entry Hfrom).
      * rewrite (Hout e Hni) in He. discriminate.
    + left. now apply (Hother path m).
  - intros env e p k v m w r w' Hp H.
    apply clone_extension_spec in H
      as [(Hp' & _) | (p' & k' & v' & Hp' & l & He & Ho)]; [congruence |].
    rewrite Hp in Hp'. injection Hp' as <- <- <-.
    exists l. split; [apply (ext_log _ _ _ He) |].
    intros Hin.
    unfold step_outcome in Ho. destruct r as [[m' | b] | ex].
    + exfalso. destruct Ho as (okL & okW & -> & _).
      apply (generic_failure_last e p k v okL okW _ Hp Hin).
      destruct (okL && okW); intros x Hx; simpl in Hx |- *; tauto.
    + destruct Ho as (-> & _). reflexivity.
    + exfalso. destruct Ho as (okL & okW & l' & Hl).
      apply (generic_failure_last e p k v okL okW _ Hp Hin).
      rewrite <- Hl. now apply incl_appl, incl_refl.
Qed.

Lemma persisted_entries_nonempty_witness :
  let run := Clone (sample_env net_no_windows_package "Linux") "out" sample_world in
  exists m,
    files run.2 !! "/home/user/out/manifest.json" = Some (FJson m)
    /\ (files sample_world !! "/home/user/out/manifest.json" = Some (FJson m)
        \/ (run.1 = Ok true
            /\ "/home/user/out/manifest.json"
               = Path.abspath (cwd run.2) "manifest.json"
            /\ forall e entry,
                 m_extensions m !! e = Some entry ->
                 exists slot p,
                   In slot ["Linux"; "Windows"; "Generic"]
                   /\ entry !! slot = Some p /\ p <> "")).
Proof.
  intros run.
  exists (default manifest_without_package (written_manifest run.2)).
  assert (Hfile : files run.2 !! "/home/user/out/manifest.json"
                  = Some (FJson (default manifest_without_package
                                   (written_manifest run.2))))
    by (vm_compute; reflexivity).
  split; [exact Hfile |].
  apply (proj1 persisted_entries_nonempty
           (sample_env net_no_windows_package "Linux") "out" sample_world
           run.1 run.2 "/home/user/out/manifest.json" _).
  - apply surjective_pairing.
  - exact Hfile.
Defined.






Section Templates.





End Templates.





(** ** The scenarios of the specification, run *)

(** One extension, every download succeeds: both platform slots are
    filled and the generic slot stays empty. *)
Example capture_end_to_end :
  let run := Clone (sample_env net_all_ok "Linux") "out" sample_world in
  run.1 = Ok true
  /\ (m_version <$> written_manifest run.2) = Some "1.85.0"
  /\ (m_commit_id <$> written_manifest run.2) = Some "abc123"
  /\ (written_manifest run.2 ≫= fun m => m_extensions m !! "ms.python@2024.1.0")
     = Some (fetched_entry "ms.python-2024.1.0@linux-x64.vsix"
                           "ms.python-2024.1.0@win32-x64.vsix" "")
  /\ length (http_log run.2) = 6.
Proof.
  intros run.
  split; [vm_compute; reflexivity |]. split; [vm_compute; reflexivity |].
  split; [vm_compute; reflexivity |]. split; vm_compute; reflexivity.
Qed.

(** The package for Windows is missing: its slot is empty and the generic
    package fills the generic slot. *)
Example capture_with_fallback :
  let run := Clone (sample_env net_no_windows_package "Linux") "out" sample_world in
  run.1 = Ok true
  /\ (written_manifest run.2 ≫= fun m => m_extensions m !! "ms.python@2024.1.0")
     = Some (fetched_entry "ms.python-2024.1.0@linux-x64.vsix" ""
                           "ms.python-2024.1.0.vsix")
  /\ length (http_log run.2) = 7.
Proof.
  intros run.
  split; [vm_compute; reflexivity |]. split; vm_compute; reflexivity.
Qed.

(** The first installer is missing: the capture stops at once, prints the
    diagnostic and leaves no manifest. *)
Example capture_without_installer :
  let run := Clone (sample_env net_no_linux_installer "Linux") "out" sample_world in
  run.1 = Ok false
  /\ written_manifest run.2 = None
  /\ stdout run.2 = ["Error: Failed to get installer for linux-deb-x64" +:+ newline]
  /\ http_log run.2 = [(InstallerURL "1.85.0" "linux-deb-x64", false)].
Proof.
  intros run.
  split; [vm_compute; reflexivity |]. split; [vm_compute; reflexivity |].
  split; vm_compute; reflexivity.
Qed.

(** A capture followed by an apply on the same machine: the editor is
    installed from the recorded installer, then the extension from its
    platform package. *)
Example capture_then_apply_commands :
  let captured := Clone (sample_env net_all_ok "Linux") "out" sample_world in
  let applied := Install (sample_env net_all_ok "Linux") "." captured.2 in
  cmd_log applied.2
  = [ ["sudo"; "apt-get"; "install"; "-y";
       "/home/user/out/00000000000000000000000000000004"];
      ["code"; "--install-extension";
       "/home/user/out/ms.python-2024.1.0@linux-x64.vsix"] ].
Proof. intros captured applied. vm_compute. reflexivity. Qed.

(** * Further properties *)

(** ** The parser and the offered file name *)

Section MoreStrings.

Lemma split_pieces (sep : ascii) (s : string) :
  Forall (fun w => Py.count_char sep w = 0) (Py.split sep s).
Proof.
  induction s as [|c s IH]; simpl.
  - apply List.Forall_cons; [reflexivity | apply List.Forall_nil].
  - destruct (Ascii.eqb c sep) eqn:Ec.
    + apply List.Forall_cons; [reflexivity | exact IH].
    + destruct (Py.split sep s) as [|w ws]; simpl.
      * apply List.Forall_cons; [simpl; now rewrite Ec | apply List.Forall_nil].
      * apply List.Forall_cons_iff in IH as [Hw Hws].
        apply List.Forall_cons; [simpl; now rewrite Ec | exact Hws].
Qed.

Lemma take_not_semicolon_free (s : string) :
  Py.count_char ";" (take_not_semicolon s) = 0.
Proof.
  induction s as [|c s IH]; [reflexivity |]. simpl.
  destruct (Ascii.eqb c ";") eqn:E; [reflexivity |]. simpl. now rewrite E.
Qed.

Lemma take_not_semicolon_append (g tail : string) :
  Py.count_char ";" g = 0 ->
  tail = "" \/ Py.startswith ";" tail = true ->
  take_not_semicolon (g +:+ tail) = g.
Proof.
  intros Hg Ht. induction g as [|c g IH].
  - destruct Ht as [-> | Ht]; [reflexivity |].
    destruct tail as [|d tail]; [reflexivity |].
    unfold Py.startswith in Ht. cbn [Py.strip_prefix] in Ht.
    simpl. rewrite Ascii.eqb_sym. destruct (Ascii.eqb ";" d); [reflexivity | discriminate].
  - simpl in Hg |- *. destruct (Ascii.eqb c ";"); [discriminate |].
    now rewrite IH.
Qed.

Lemma lstrip_count (set : string) (c : ascii) (s : string) :
  Py.count_char c (Py.lstrip set s) <= Py.count_char c s.
Proof.
  induction s as [|d s IH]; [reflexivity |]. cbn [Py.lstrip].
  destruct (Py.mem_char d set); [simpl; lia | reflexivity].
Qed.

Lemma rstrip_count (set : string) (c : ascii) (s : string) :
  Py.count_char c (Py.rstrip set s) <= Py.count_char c s.
Proof.
  induction s as [|d s IH]; [reflexivity |]. cbn [Py.rstrip].
  destruct (Py.rstrip set s) as [|e r].
  - destruct (Py.mem_char d set); simpl in *; lia.
  - simpl in *. lia.
Qed.

Lemma lstrip_head (set : string) (s : string) (c : ascii) (r : string) :
  Py.lstrip set s = String c r -> Py.mem_char c set = false.
Proof.
  induction s as [|d s IH]; [discriminate |]. cbn [Py.lstrip].
  destruct (Py.mem_char d set) eqn:E; [exact IH |].
  intros [= <- _]. exact E.
Qed.

Lemma rstrip_head (set : string) (c : ascii) (s : string) :
  Py.rstrip set (String c s) = ""
  \/ exists r, Py.rstrip set (String c s) = String c r.
Proof.
  cbn [Py.rstrip]. destruct (Py.rstrip set s).
  - destruct (Py.mem_char c set); eauto.
  - eauto.
Qed.

Lemma rstrip_last (set : string) (s : string) (c : ascii) :
  Py.last_char (Py.rstrip set s) = Some c -> Py.mem_char c set = false.
Proof.
  induction s as [|d s IH]; [discriminate |]. cbn [Py.rstrip].
  destruct (Py.rstrip set s) as [|e r] eqn:E.
  - destruct (Py.mem_char d set) eqn:Ed; [discriminate |].
    intros [= <-]. exact Ed.
  - intros H. apply IH.
    change (Py.last_char (String d (String e r)))
      with (match Py.last_char (String e r) with
            | Some x => Some x
            | None => Some d
            end) in H.
    destruct (Py.last_char (String e r)) eqn:El; [exact H |].
    cbn [Py.last_char] in El. destruct (Py.last_char r); discriminate.
Qed.

End MoreStrings.

Section OfferedName.

Lemma search_filename_free (s g : string) :
  search_filename s = Some g -> Py.count_char ";" g = 0 /\ g <> "".
Proof.
  induction s as [|c s IH]; [discriminate |].
  cbn [search_filename].
  destruct (Py.strip_prefix "filename=" (String c s)) as [rest|]; [| exact IH].
  pose proof (take_not_semicolon_free rest) as Hfree.
  destruct (take_not_semicolon rest) as [|d g'] eqn:E; [exact IH |].
  intros [= <-]. split; [exact Hfree | discriminate].
Qed.

Lemma search_filename_skip (pre s : string) :
  Py.count_char "f" pre = 0 ->
  search_filename (pre +:+ s) = search_filename s.
Proof.
  induction pre as [|c pre IH]; [reflexivity |].
  cbn [Py.count_char]. destruct (Ascii.eqb c "f") eqn:E; [discriminate |].
  intros H. cbn [String.append search_filename Py.strip_prefix].
  rewrite Ascii.eqb_sym, E. now apply IH.
Qed.

Lemma search_filename_here (g tail : string) :
  g <> "" -> Py.count_char ";" g = 0 ->
  tail = "" \/ Py.startswith ";" tail = true ->
  search_filename ("filename=" +:+ g +:+ tail) = Some g.
Proof.
  intros Hne Hg Ht.
  change ("filename=" +:+ g +:+ tail)
    with (String "f" ("ilename=" +:+ g +:+ tail)).
  cbn [search_filename].
  change (String "f" ("ilename=" +:+ g +:+ tail))
    with ("filename=" +:+ g +:+ tail).
  rewrite strip_prefix_append, (take_not_semicolon_append g tail Hg Ht).
  destruct g; [now contradiction Hne | reflexivity].
Qed.

Lemma only_chars_count (set q : string) (c : ascii) :
  only_chars set q = true -> Py.mem_char c set = false ->
  Py.count_char c q = 0.
Proof.
  intros Hq Hc. induction q as [|d q IH]; [reflexivity |].
  simpl in Hq |- *. apply andb_true_iff in Hq as [Hd Hq].
  destruct (Ascii.eqb_spec d c) as [-> | _]; [congruence | now apply IH].
Qed.

Lemma lstrip_only (set q x : string) :
  only_chars set q = true -> Py.lstrip set (q +:+ x) = Py.lstrip set x.
Proof.
  induction q as [|d q IH]; [reflexivity |]. simpl.
  intros H. apply andb_true_iff in H as [Hd Hq]. rewrite Hd. now apply IH.
Qed.

Lemma rstrip_only_nil (set q : string) :
  only_chars set q = true -> Py.rstrip set q = "".
Proof.
  induction q as [|d q IH]; [reflexivity |]. simpl.
  intros H. apply andb_true_iff in H as [Hd Hq]. now rewrite (IH Hq), Hd.
Qed.

Lemma rstrip_only (set a q : string) :
  only_chars set q = true -> Py.rstrip set (a +:+ q) = Py.rstrip set a.
Proof.
  intros Hq. induction a as [|c a IH]; [now apply rstrip_only_nil |].
  cbn [String.append Py.rstrip]. now rewrite IH.
Qed.

Lemma rstrip_free (set a : string) :
  free_of set a = true -> Py.rstrip set a = a.
Proof.
  induction a as [|c a IH]; [reflexivity |]. simpl.
  intros H. apply andb_true_iff in H as [Hc Ha]. rewrite (IH Ha).
  destruct a; [| reflexivity].
  apply negb_true_iff in Hc. now rewrite Hc.
Qed.

Lemma strip_quoted (set q1 name q2 : string) :
  only_chars set q1 = true -> only_chars set q2 = true ->
  free_of set name = true ->
  Py.strip set (q1 +:+ name +:+ q2) = name.
Proof.
  intros H1 H2 Hn. unfold Py.strip. rewrite (lstrip_only set q1 _ H1).
  destruct name as [|c name].
  - cbn [String.append].
    assert (Hl : forall q, only_chars set q = true -> Py.lstrip set q = "").
    { induction q as [|d q IH]; [reflexivity |]. simpl. intros H.
      apply andb_true_iff in H as [Hd Hq]. rewrite Hd. now apply IH. }
    now rewrite (Hl q2 H2).
  - pose proof Hn as Hn'. simpl in Hn'. apply andb_true_iff in Hn' as [Hc _].
    apply negb_true_iff in Hc.
    cbn [String.append Py.lstrip]. rewrite Hc.
    change (String c (name +:+ q2)) with (String c name +:+ q2).
    rewrite (rstrip_only set _ q2 H2). now apply rstrip_free.
Qed.

End OfferedName.

(** X1.  The parser accepts exactly the tokens [publisher.package@version]
    whose three fields hold no [@] and whose publisher and package hold no
    dot, and returns these fields: formatting a triple and parsing it back
    is the identity, and any accepted token is the formatting of its
    result. *)
Theorem ParseExtensionString_iff (s publisher package version : string) :
  ParseExtensionString s = Ok (publisher, package, version)
  <-> s = publisher +:+ "." +:+ package +:+ "@" +:+ version
      /\ Py.count_char "@" publisher = 0 /\ Py.count_char "@" package = 0
      /\ Py.count_char "@" version = 0
      /\ Py.count_char "." publisher = 0 /\ Py.count_char "." package = 0.
Proof.
  split.
  - intros H. split; [now apply ParseExtensionString_Ok |].
    unfold ParseExtensionString in H.
    pose proof (split_pieces "@" s) as Hat.
    pose proof (join_split "@" s) as Hs.
    destruct (Py.split "@" s) as [|uid [|ver [|? ?]]]; try discriminate.
    pose proof (split_pieces "." uid) as Hdot.
    pose proof (join_split "." uid) as Hu.
    destruct (Py.split "." uid) as [|pu [|pk [|? ?]]]; try discriminate.
    injection H as -> -> ->.
    apply List.Forall_cons_iff in Hat as [Huid Hat].
    apply List.Forall_cons_iff in Hat as [Hver _].
    apply List.Forall_cons_iff in Hdot as [Hp Hdot].
    apply List.Forall_cons_iff in Hdot as [Hk _].
    cbn in Hu. subst uid.
    rewrite !count_char_append in Huid. simpl in Huid.
    repeat split; try assumption; lia.
  - intros (-> & Hp & Hk & Hv & Hp' & Hk').
    unfold ParseExtensionString.
    assert (E : publisher +:+ "." +:+ package +:+ "@" +:+ version
                = (publisher +:+ String "." package) +:+ String "@" version)
      by (rewrite append_assoc; reflexivity).
    rewrite E, split_append_sep, (split_no_sep "@" version Hv).
    + now rewrite (split_append_sep "." _ _ Hp'), (split_no_sep "." package Hk').
    + rewrite !count_char_append. simpl. lia.
Qed.

(** X2.  Whatever the headers are, the file name read from them holds no
    semicolon and neither begins nor ends with a quote character; without
    a content-disposition header it is empty. *)
Theorem offered_name_clean (headers : list (string * string)) :
  Py.count_char ";" (GetFilenameFromHeaders headers) = 0
  /\ (forall c rest, GetFilenameFromHeaders headers = String c rest ->
                     Py.mem_char c quote_chars = false)
  /\ (forall c, Py.last_char (GetFilenameFromHeaders headers) = Some c ->
                Py.mem_char c quote_chars = false)
  /\ (headers_get headers "content-disposition" = None ->
      GetFilenameFromHeaders headers = "").
Proof.
  unfold GetFilenameFromHeaders.
  destruct (headers_get headers "content-disposition") as [d|];
    cbn [default from_option id].
  2:{ cbn. repeat split; easy. }
  destruct (Py.truthy d); cbn [negb].
  2:{ repeat split; easy. }
  destruct (search_filename d) as [g|] eqn:Es.
  2:{ repeat split; easy. }
  apply search_filename_free in Es as [Hfree _].
  split; [| split; [| split; [| discriminate]]].
  - unfold Py.strip.
    pose proof (rstrip_count quote_chars ";" (Py.lstrip quote_chars g)).
    pose proof (lstrip_count quote_chars ";" g). lia.
  - intros c rest. unfold Py.strip.
    destruct (Py.lstrip quote_chars g) as [|c' r'] eqn:El; [discriminate |].
    apply lstrip_head in El.
    destruct (rstrip_head quote_chars c' r') as [-> | (r & ->)];
      [discriminate | intros [= <- _]; exact El].
  - intros c. unfold Py.strip. apply rstrip_last.
Qed.

(** X3.  From a content-disposition value that reads: anything without the
    letter f, then [filename=], then a name between quote characters
    (or bare), then nothing or a semicolon and more, the name is
    recovered, provided it is free of quotes and semicolons. *)
Theorem offered_name_quoted (headers : list (string * string))
    (pre q1 name q2 tail : string) :
  headers_get headers "content-disposition"
    = Some (pre +:+ "filename=" +:+ (q1 +:+ name +:+ q2) +:+ tail) ->
  Py.count_char "f" pre = 0 ->
  only_chars quote_chars q1 = true -> only_chars quote_chars q2 = true ->
  name <> "" ->
  free_of quote_chars name = true -> Py.count_char ";" name = 0 ->
  tail = "" \/ Py.startswith ";" tail = true ->
  GetFilenameFromHeaders headers = name.
Proof.
  intros Hh Hpre H1 H2 Hne Hfree Hsemi Htail.
  unfold GetFilenameFromHeaders. rewrite Hh. cbn [default from_option id].
  assert (Htruthy : Py.truthy (pre +:+ "filename=" +:+ (q1 +:+ name +:+ q2) +:+ tail)
                    = true).
  { change ("filename=" +:+ (q1 +:+ name +:+ q2) +:+ tail)
      with (String "f" ("ilename=" +:+ (q1 +:+ name +:+ q2) +:+ tail)).
    apply truthy_append_cons. }
  rewrite Htruthy. cbn [negb].
  rewrite (search_filename_skip pre _ Hpre).
  rewrite search_filename_here.
  - now apply strip_quoted.
  - destruct q1; [destruct name; [now contradiction Hne | discriminate] | discriminate].
  - rewrite !count_char_append, Hsemi.
    rewrite (only_chars_count quote_chars q1 ";" H1 eq_refl).
    now rewrite (only_chars_count quote_chars q2 ";" H2 eq_refl).
  - exact Htail.
Qed.

Lemma offered_name_quoted_witness :
  GetFilenameFromHeaders
    [("content-disposition",
      "attachment; " +:+ "filename=" +:+ (dquote +:+ "code.deb" +:+ dquote)
        +:+ "; size=3")]
  = "code.deb".
Proof.
  apply (offered_name_quoted _ "attachment; " dquote "code.deb" dquote "; size=3");
    try reflexivity.
  - discriminate.
  - now right.
Defined.

(** ** Downloads *)

(** X4.  [Download] returns the empty path exactly when a response came
    whose status is not a success; the world is then as before but for the
    clock and the logged response: no file is written. *)
Theorem Download_empty_iff (env : Env) (url path : string) (w w' : World) :
  Download env url path w = (Ok "", w')
  <-> exists resp,
        requests_get env (clock w) url = Some resp
        /\ ok resp = false
        /\ w' = with_http_log (http_log w ++ [(url, false)]) (tick w).
Proof.
  split.
  - intros H. pose proof H as H'.
    apply Download_spec in H'
      as [(_ & ? & _) | (resp & Hg & _ & [(Hok & _ & _) | [(_ & ? & _) | (_ & f & [= <-] & Ht & _)]])];
      try discriminate.
    exists resp. split; [exact Hg |]. split; [exact Hok |].
    revert H. unfold Download, bind, http_get. rewrite Hg, Hok. cbn [negb].
    now intros [= <-].
  - intros (resp & Hg & Hok & ->).
    unfold Download, bind, http_get. rewrite Hg, Hok. reflexivity.
Qed.

(** X5.  When [Download] returns a path, the response was a success, the
    file of that path in the current directory holds the chunks of the body
    in order, and every other file is as before. *)
Theorem Download_stores_content (env : Env) (url path : string) (w : World)
    (final : string) (w' : World) :
  Download env url path w = (Ok final, w') ->
  final <> "" ->
  exists resp,
    requests_get env (clock w) url = Some resp
    /\ ok resp = true
    /\ files w' !! Path.abspath (cwd w) final
       = Some (FBytes (String.concat "" (iter_content resp)))
    /\ (forall k, k <> Path.abspath (cwd w) final ->
                  files w' !! k = files w !! k)
    /\ cwd w' = cwd w.
Proof.
  intros H Hne. pose proof H as H'.
  apply Download_spec in H'
    as [(_ & ? & _) | (resp & Hg & He & [(_ & [= ->] & _) | [(_ & ? & _) | (Hok & f & [= <-] & _ & _ & Hf)]])];
    try discriminate; [now contradiction Hne |].
  exists resp. split; [exact Hg |]. split; [exact Hok |].
  rewrite Hf. split; [apply lookup_insert_eq |].
  split; [intros k Hk; now apply lookup_insert_ne |].
  apply (ext_cwd _ _ _ He).
Qed.

Lemma Download_stores_content_witness :
  let run := Download (sample_env net_all_ok "Linux")
               (InstallerURL "1.85.0" "linux-deb-x64") "code.deb" sample_world in
  exists resp,
    net_all_ok (InstallerURL "1.85.0" "linux-deb-x64") = Some resp
    /\ ok resp = true
    /\ files run.2 !! Path.abspath "/home/user" "code.deb"
       = Some (FBytes (String.concat "" (iter_content resp)))
    /\ (forall k, k <> Path.abspath "/home/user" "code.deb" ->
                  files run.2 !! k = files sample_world !! k)
    /\ cwd run.2 = "/home/user".
Proof.
  intros run.
  apply (Download_stores_content (sample_env net_all_ok "Linux")
           (InstallerURL "1.85.0" "linux-deb-x64") "code.deb" sample_world
           "code.deb" run.2).
  - reflexivity.
  - discriminate.
Defined.

(** X6.  A successful response whose content-length header is not a
    decimal number makes [Download] raise [ValueError]: the response is
    logged and no file is written. *)
Theorem Download_bad_length (env : Env) (url path : string) (w : World)
    (resp : Response) (cl : string) :
  requests_get env (clock w) url = Some resp ->
  ok resp = true ->
  headers_get (headers resp) "content-length" = Some cl ->
  Py.int cl = None ->
  exists w',
    Download env url path w = (Raise ValueError, w')
    /\ files w' = files w
    /\ http_log w' = http_log w ++ [(url, true)].
Proof.
  intros Hg Hok Hcl Hint.
  unfold Download, bind, http_get. rewrite Hg, Hok. cbn [negb].
  unfold or_else_lazy, uuid4_hex, content_length, ret, raise.
  rewrite Hcl, Hint.
  destruct (Py.truthy _); eexists; (split; [reflexivity |]); split; reflexivity.
Qed.

Lemma Download_bad_length_witness :
  exists w',
    Download (sample_env net_bad_length "Linux")
      (InstallerURL "1.85.0" "linux-deb-x64") "" sample_world
    = (Raise ValueError, w')
    /\ files w' = files sample_world
    /\ http_log w'
       = http_log sample_world ++ [(InstallerURL "1.85.0" "linux-deb-x64", true)].
Proof.
  apply (Download_bad_length (sample_env net_bad_length "Linux") _ "" sample_world
           {| ok := true; headers := [("content-length", "unknown")];
              iter_content := ["data"] |} "unknown"); reflexivity.
Defined.

(** ** Files of a capture *)

Section Backed.

Variable env : Env.

Lemma keeps_files_refl (w : World) : keeps_files w w.
Proof. intros k H. exact H. Qed.

Lemma keeps_files_same (w w' : World) : files w' = files w -> keeps_files w w'.
Proof. intros H k Hk. now rewrite H. Qed.

Lemma keeps_files_trans (w w1 w2 : World) :
  keeps_files w w1 -> keeps_files w1 w2 -> keeps_files w w2.
Proof. intros H1 H2 k H. auto. Qed.

Lemma backed_keeps (w w' : World) (m : Manifest) :
  cwd w' = cwd w -> keeps_files w w' -> backed w m -> backed w' m.
Proof. intros Hc Hk Hb path Hr Hne. rewrite Hc. apply Hk. now apply Hb. Qed.

Ltac cwd_chain :=
  solve [repeat first [eassumption | reflexivity | etransitivity; [eassumption |]]].

Lemma Download_files (url path : string) (w : World) r w' :
  Download env url path w = (r, w') ->
  cwd w' = cwd w
  /\ ((files w' = files w /\ forall final, r = Ok final -> final = "")
      \/ exists final data,
           r = Ok final
           /\ files w' = <[Path.abspath (cwd w) final := FBytes data]> (files w)).
Proof.
  unfold Download, bind, http_get.
  destruct (requests_get env (clock w) url) as [resp|].
  2:{ intros [= <- <-]. split; [reflexivity |]. left.
      split; [reflexivity | discriminate]. }
  destruct (ok resp); cbn [negb].
  2:{ intros [= <- <-]. split; [reflexivity |]. left.
      split; [reflexivity |]. now intros final [= <-]. }
  assert (Hname : forall r1 w1,
    or_else_lazy (Py.or_else path (GetFilenameFromHeaders (headers resp)))
      (uuid4_hex env)
      (with_http_log (http_log w ++ [(url, true)]) (tick w)) = (r1, w1) ->
    files w1 = files w /\ cwd w1 = cwd w /\ exists final, r1 = Ok final).
  { intros r1 w1. unfold or_else_lazy, uuid4_hex, ret.
    destruct (Py.truthy _); intros [= <- <-];
      (split; [reflexivity |]); (split; [reflexivity |]); eauto. }
  destruct (or_else_lazy _ _ _) as [r1 w1].
  destruct (Hname r1 w1 eq_refl) as (Hf & Hc & final & ->).
  unfold content_length, write_file, ret, raise.
  destruct (headers_get (headers resp) "content-length") as [cl|];
    [destruct (Py.int cl) |]; intros [= <- <-]; cbn [cwd files with_files].
  - split; [exact Hc |]. right. exists final. eexists.
    split; [reflexivity |]. now rewrite Hf, Hc.
  - split; [exact Hc |]. left. split; [exact Hf | discriminate].
  - split; [exact Hc |]. right. exists final. eexists.
    split; [reflexivity |]. now rewrite Hf, Hc.
Qed.

Lemma Download_keeps (url path : string) (w : World) r w' :
  Download env url path w = (r, w') ->
  cwd w' = cwd w /\ keeps_files w w'
  /\ (forall final, r = Ok final -> final <> "" ->
        is_Some (files w' !! Path.abspath (cwd w) final)).
Proof.
  intros H.
  apply Download_files in H
    as (Hc & [(Hf & Hempty) | (final & data & -> & Hf)]).
  - split; [exact Hc |]. split; [now apply keeps_files_same |].
    intros final Hr Hne. now apply Hempty in Hr.
  - split; [exact Hc |]. split.
    + intros k Hk. rewrite Hf, lookup_insert. case_decide; eauto.
    + intros final' [= <-] _. rewrite Hf, lookup_insert_eq. eauto.
Qed.

Lemma recorded_set_installer (pl path q : string) (m : Manifest) :
  recorded (set_installer (<[pl := path]>) m) q -> recorded m q \/ q = path.
Proof.
  intros [(pl' & H) | [H | H]].
  - simpl in H. rewrite lookup_insert in H. case_decide.
    + injection H as <-. now right.
    + left. left. eauto.
  - left. right. left. exact H.
  - left. right. right. exact H.
Qed.

Lemma recorded_set_server (pl path q : string) (m : Manifest) :
  recorded (set_server (<[pl := path]>) m) q -> recorded m q \/ q = path.
Proof.
  intros [H | [(pl' & H) | H]].
  - left. left. exact H.
  - simpl in H. rewrite lookup_insert in H. case_decide.
    + injection H as <-. now right.
    + left. right. left. eauto.
  - left. right. right. exact H.
Qed.

Lemma recorded_set_extension_path (e slot path q : string) (m : Manifest) :
  recorded (set_extension_path e slot path m) q -> recorded m q \/ q = path.
Proof.
  intros [H | [H | (e' & entry & slot' & He & Hs)]].
  - left. left. exact H.
  - left. right. left. exact H.
  - simpl in He. rewrite lookup_insert in He. case_decide.
    + injection He as <-. rewrite lookup_insert in Hs. case_decide.
      * injection Hs as <-. now right.
      * left. right. right.
        destruct (m_extensions m !! e) as [entry0|] eqn:E0; simpl in Hs.
        -- exists e, entry0, slot'. auto.
        -- rewrite lookup_empty in Hs. discriminate.
    + left. right. right. exists e', entry, slot'. auto.
Qed.

Lemma dict_fromkeys_value (ks : list string) (k q : string) :
  dict_fromkeys ks !! k = Some q -> q = "".
Proof.
  unfold dict_fromkeys. intros H. apply elem_of_list_to_map_2 in H.
  apply list_elem_of_fmap in H as (p & [= _ ->] & _). reflexivity.
Qed.

Lemma recorded_reset_extension (e q : string) (m : Manifest) :
  recorded
    (set_extensions
       (<[e := <["Generic" := ""]>
                 (dict_fromkeys (keys (platform_ids "extension_id")))]>) m) q ->
  recorded m q \/ q = "".
Proof.
  intros [H | [H | (e' & entry & slot' & He & Hs)]].
  - left. left. exact H.
  - left. right. left. exact H.
  - simpl in He. rewrite lookup_insert in He. case_decide.
    + injection He as <-. right. rewrite lookup_insert in Hs. case_decide.
      * now injection Hs as <-.
      * now apply dict_fromkeys_value in Hs.
    + left. right. right. exists e', entry, slot'. auto.
Qed.

Lemma backed_extend (w w' : World) (m m' : Manifest) (path : string) :
  cwd w' = cwd w -> keeps_files w w' -> backed w m ->
  (forall q, recorded m' q -> recorded m q \/ q = path) ->
  (path <> "" -> is_Some (files w' !! Path.abspath (cwd w) path)) ->
  backed w' m'.
Proof.
  intros Hc Hk Hb Hrec Hpath q Hq Hne. rewrite Hc.
  destruct (Hrec q Hq) as [Hold | ->].
  - apply Hk. now apply Hb.
  - now apply Hpath.
Qed.

Lemma clone_installers_backed (ps : list string) (m : Manifest) (w : World) r w' :
  clone_installers env ps m w = (r, w') ->
  cwd w' = cwd w /\ keeps_files w w'
  /\ (forall m', r = Ok (Next m') -> backed w m -> backed w' m').
Proof.
  revert m w r w'. induction ps as [|pl ps IH]; intros m w r w' H.
  - injection H as <- <-. split; [reflexivity |].
    split; [now apply keeps_files_same |]. now intros m' [= <-].
  - cbn [clone_installers] in H.
    apply bind_inv in H as [(id & w0 & Hid & H) | (e & Hid & ->)].
    2:{ apply table_get_inv in Hid as [-> _]. split; [reflexivity |].
        split; [now apply keeps_files_same | discriminate]. }
    apply table_get_inv in Hid as [-> _].
    apply bind_inv in H as [(version & w1 & Hv & H) | (e & Hv & ->)].
    2:{ apply (CurVSCodeVersion_spec env) in Hv as [-> _]. split; [reflexivity |].
        split; [now apply keeps_files_same | discriminate]. }
    apply (CurVSCodeVersion_spec env) in Hv as [-> _].
    apply bind_inv in H as [(path & w2 & Hd & H) | (e & Hd & ->)].
    2:{ apply Download_keeps in Hd as (Hc & Hk & _).
        split; [exact Hc |]. split; [exact Hk | discriminate]. }
    apply Download_keeps in Hd as (Hc & Hk & Hfile).
    destruct (Py.truthy path) eqn:Ep.
    + apply IH in H as (Hc' & Hk' & Hnext).
      split; [cwd_chain |]. split; [exact (keeps_files_trans _ _ _ Hk Hk') |].
      intros m' Hr Hb. apply (Hnext m' Hr).
      apply (backed_extend (tick w) w2 m _ path Hc Hk Hb).
      * intros q; apply recorded_set_installer.
      * intros Hne. now apply Hfile.
    + apply bind_inv in H as [(? & w3 & Hp & H) | (e & Hp & ->)];
        [| discriminate].
      injection Hp as _ <-. injection H as <- <-.
      split; [exact Hc |]. split; [exact Hk | discriminate].
Qed.

Lemma clone_servers_backed (ps : list string) (m : Manifest) (w : World) r w' :
  clone_servers env ps m w = (r, w') ->
  cwd w' = cwd w /\ keeps_files w w'
  /\ (forall m', r = Ok (Next m') -> backed w m -> backed w' m').
Proof.
  revert m w r w'. induction ps as [|pl ps IH]; intros m w r w' H.
  - injection H as <- <-. split; [reflexivity |].
    split; [now apply keeps_files_same |]. now intros m' [= <-].
  - cbn [clone_servers] in H.
    apply bind_inv in H as [(id & w0 & Hid & H) | (e & Hid & ->)].
    2:{ apply table_get_inv in Hid as [-> _]. split; [reflexivity |].
        split; [now apply keeps_files_same | discriminate]. }
    apply table_get_inv in Hid as [-> _].
    apply bind_inv in H as [(commit & w1 & Hv & H) | (e & Hv & ->)].
    2:{ apply (CurVSCodeCommitID_spec env) in Hv as [-> _]. split; [reflexivity |].
        split; [now apply keeps_files_same | discriminate]. }
    apply (CurVSCodeCommitID_spec env) in Hv as [-> _].
    apply bind_inv in H as [(path & w2 & Hd & H) | (e & Hd & ->)].
    2:{ apply Download_keeps in Hd as (Hc & Hk & _).
        split; [exact Hc |]. split; [exact Hk | discriminate]. }
    apply Download_keeps in Hd as (Hc & Hk & Hfile).
    destruct (Py.truthy path) eqn:Ep.
    + apply IH in H as (Hc' & Hk' & Hnext).
      split; [cwd_chain |]. split; [exact (keeps_files_trans _ _ _ Hk Hk') |].
      intros m' Hr Hb. apply (Hnext m' Hr).
      apply (backed_extend (tick w) w2 m _ path Hc Hk Hb).
      * intros q; apply recorded_set_server.
      * intros Hne. now apply Hfile.
    + apply bind_inv in H as [(? & w3 & Hp & H) | (e & Hp & ->)];
        [| discriminate].
      injection Hp as _ <-. injection H as <- <-.
      split; [exact Hc |]. split; [exact Hk | discriminate].
Qed.

Lemma clone_extension_platforms_backed (e p k v : string) (ps : list string)
    (m : Manifest) (g : bool) (w : World) r w' :
  clone_extension_platforms env e p k v ps m g w = (r, w') ->
  cwd w' = cwd w /\ keeps_files w w'
  /\ (forall m' g', r = Ok (m', g') -> backed w m -> backed w' m').
Proof.
  revert m g w r w'. induction ps as [|pl ps IH]; intros m g w r w' H.
  - injection H as <- <-. split; [reflexivity |].
    split; [now apply keeps_files_same |]. now intros m' g' [= <- _].
  - cbn [clone_extension_platforms] in H.
    apply bind_inv in H as [(id & w0 & Hid & H) | (ex & Hid & ->)].
    2:{ apply table_get_inv in Hid as [-> _]. split; [reflexivity |].
        split; [now apply keeps_files_same | discriminate]. }
    apply table_get_inv in Hid as [-> _].
    apply bind_inv in H as [(path & w2 & Hd & H) | (ex & Hd & ->)].
    2:{ apply Download_keeps in Hd as (Hc & Hk & _).
        split; [exact Hc |]. split; [exact Hk | discriminate]. }
    apply Download_keeps in Hd as (Hc & Hk & Hfile).
    destruct (Py.truthy path) eqn:Ep.
    + apply IH in H as (Hc' & Hk' & Hnext).
      split; [cwd_chain |]. split; [exact (keeps_files_trans _ _ _ Hk Hk') |].
      intros m' g' Hr Hb. apply (Hnext m' g' Hr).
      apply (backed_extend w w2 m _ path Hc Hk Hb).
      * intros q; apply recorded_set_extension_path.
      * intros Hne. now apply Hfile.
    + apply IH in H as (Hc' & Hk' & Hnext).
      split; [cwd_chain |]. split; [exact (keeps_files_trans _ _ _ Hk Hk') |].
      intros m' g' Hr Hb. apply (Hnext m' g' Hr).
      now apply (backed_keeps w w2 m Hc Hk).
Qed.

Lemma clone_extension_backed (e : string) (m : Manifest) (w : World) r w' :
  clone_extension env e m w = (r, w') ->
  cwd w' = cwd w /\ keeps_files w w'
  /\ (forall m', r = Ok (Next m') -> backed w m -> backed w' m').
Proof.
  unfold clone_extension. intros H.
  apply bind_inv in H as [([[p k] v] & w0 & Hparse & H) | (ex & Hparse & ->)].
  2:{ unfold lift in Hparse. injection Hparse as _ <-. split; [reflexivity |].
      split; [now apply keeps_files_same | discriminate]. }
  unfold lift in Hparse. injection Hparse as _ <-.
  apply bind_inv in H as [([m1 g] & w1 & Hloop & H) | (ex & Hloop & ->)].
  2:{ apply clone_extension_platforms_backed in Hloop as (Hc & Hk & _).
      split; [exact Hc |]. split; [exact Hk | discriminate]. }
  apply clone_extension_platforms_backed in Hloop as (Hc & Hk & Hnext).
  assert (Hb1 : backed w m -> backed w1 m1).
  { intros Hb. apply (Hnext m1 g eq_refl).
    apply (backed_extend w w m _ "" eq_refl (keeps_files_refl w) Hb).
    - intros q; apply recorded_reset_extension.
    - intros Hne. now contradiction Hne. }
  destruct g; cbn [negb] in H.
  - injection H as <- <-. split; [exact Hc |]. split; [exact Hk |].
    intros m' [= <-]. exact Hb1.
  - apply bind_inv in H as [(path & w2 & Hd & H) | (ex & Hd & ->)].
    2:{ apply Download_keeps in Hd as (Hc2 & Hk2 & _).
        split; [cwd_chain |].
        split; [exact (keeps_files_trans _ _ _ Hk Hk2) | discriminate]. }
    apply Download_keeps in Hd as (Hc2 & Hk2 & Hfile).
    destruct (Py.truthy path) eqn:Ep.
    + injection H as <- <-. split; [cwd_chain |].
      split; [exact (keeps_files_trans _ _ _ Hk Hk2) |].
      intros m' [= <-] Hb.
      apply (backed_extend w1 w2 m1 _ path Hc2 Hk2 (Hb1 Hb)).
      * intros q; apply recorded_set_extension_path.
      * intros Hne. now apply Hfile.
    + apply bind_inv in H as [(? & w3 & Hp & H) | (ex & Hp & ->)];
        [| discriminate].
      injection Hp as _ <-. injection H as <- <-.
      split; [cwd_chain |].
      split; [exact (keeps_files_trans _ _ _ Hk Hk2) | discriminate].
Qed.

Lemma clone_extensions_backed (exts : list string) (m : Manifest) (w : World) r w' :
  clone_extensions env exts m w = (r, w') ->
  cwd w' = cwd w /\ keeps_files w w'
  /\ (forall m', r = Ok (Next m') -> backed w m -> backed w' m').
Proof.
  revert m w r w'. induction exts as [|e exts IH]; intros m w r w' H.
  - injection H as <- <-. split; [reflexivity |].
    split; [now apply keeps_files_same |]. now intros m' [= <-].
  - cbn [clone_extensions] in H.
    apply bind_inv in H as [(r1 & w1 & Hstep & H) | (ex & Hstep & ->)].
    2:{ apply clone_extension_backed in Hstep as (Hc & Hk & _).
        split; [exact Hc |]. split; [exact Hk | discriminate]. }
    apply clone_extension_backed in Hstep as (Hc & Hk & Hnext).
    destruct r1 as [m1 | b].
    + apply IH in H as (Hc' & Hk' & Hnext').
      split; [cwd_chain |]. split; [exact (keeps_files_trans _ _ _ Hk Hk') |].
      intros m' Hr Hb. apply (Hnext' m' Hr). now apply (Hnext m1).
    + injection H as <- <-. split; [exact Hc |]. split; [exact Hk | discriminate].
Qed.

Lemma initial_manifest_backed (w : World) (version commit : string) :
  backed w
    {| m_version := version; m_commit_id := commit;
       m_installer := dict_fromkeys (keys (platform_ids "installer_id"));
       m_server := dict_fromkeys (keys (platform_ids "server_id"));
       m_extensions := ∅ |}.
Proof.
  intros path [(pl & H) | [(pl & H) | (e & entry & slot & H & _)]] Hne; simpl in H.
  - apply dict_fromkeys_value in H. contradiction.
  - apply dict_fromkeys_value in H. contradiction.
  - rewrite lookup_empty in H. discriminate.
Qed.

Lemma Clone_backed (dir : string) (w : World) r w' :
  Clone env dir w = (r, w') ->
  keeps_files w w'
  /\ (r = Ok true ->
      exists m, written_manifest w' = Some m /\ backed w' m).
Proof.
  unfold Clone. intros H.
  apply bind_inv in H as [([] & w0 & Hcd & H) | (ex & Hcd & ?)]; [| discriminate].
  injection Hcd as <-.
  set (w0 := with_cwd (Path.abspath (cwd w) dir) w) in *.
  apply bind_inv in H as [(version & w1 & Hv & H) | (ex & Hv & ->)].
  2:{ apply (CurVSCodeVersion_spec env) in Hv as [-> _].
      split; [intros k Hk; exact Hk | discriminate]. }
  apply (CurVSCodeVersion_spec env) in Hv as [-> _].
  apply bind_inv in H as [(commit & w1 & Hc & H) | (ex & Hc & ->)].
  2:{ apply (CurVSCodeCommitID_spec env) in Hc as [-> _].
      split; [intros k Hk; exact Hk | discriminate]. }
  apply (CurVSCodeCommitID_spec env) in Hc as [-> _].
  pose proof (initial_manifest_backed (tick (tick w0)) version commit) as Hb0.
  (* the installers *)
  apply bind_inv in H as [(r1 & w1 & Hi & H) | (ex & Hi & ->)].
  2:{ apply clone_installers_backed in Hi as (_ & Hk & _).
      split; [exact Hk | discriminate]. }
  pose proof (clone_installers_spec env _ _ _ _ _ Hi) as (l1 & _ & _ & Hr1).
  apply clone_installers_backed in Hi as (Hc1 & Hk1 & Hn1).
  destruct r1 as [m1 | b1].
  2:{ subst b1. injection H as <- <-. split; [exact Hk1 | discriminate]. }
  pose proof (Hn1 m1 eq_refl Hb0) as Hb1.
  (* the servers *)
  apply bind_inv in H as [(r2 & w2 & Hs & H) | (ex & Hs & ->)].
  2:{ apply clone_servers_backed in Hs as (_ & Hk & _).
      split; [exact (keeps_files_trans _ _ _ Hk1 Hk) | discriminate]. }
  pose proof (clone_servers_spec env _ _ _ _ _ Hs) as (l2 & _ & _ & Hr2).
  apply clone_servers_backed in Hs as (Hc2 & Hk2 & Hn2).
  pose proof (keeps_files_trans _ _ _ Hk1 Hk2) as Hk12.
  destruct r2 as [m2 | b2].
  2:{ subst b2. injection H as <- <-. split; [exact Hk12 | discriminate]. }
  pose proof (Hn2 m2 eq_refl Hb1) as Hb2.
  (* the extensions *)
  apply bind_inv in H as [(exts & w3 & Hx & H) | (ex & Hx & ->)].
  2:{ apply (CurVSCodeExtensions_spec env) in Hx as [-> _].
      split; [exact Hk12 | discriminate]. }
  apply (CurVSCodeExtensions_spec env) in Hx as [-> _].
  apply bind_inv in H as [(r3 & w3 & Hl & H) | (ex & Hl & ->)].
  2:{ apply clone_extensions_backed in Hl as (_ & Hk & _).
      split; [exact (keeps_files_trans _ _ _ Hk12 Hk) | discriminate]. }
  pose proof (clone_extensions_spec env _ _ _ _ _ Hl) as (l3 & _ & _ & _ & Hr3).
  apply clone_extensions_backed in Hl as (Hc3 & Hk3 & Hn3).
  pose proof (keeps_files_trans _ _ _ Hk12 Hk3) as Hk123.
  destruct r3 as [m3 | b3].
  2:{ subst b3. injection H as <- <-. split; [exact Hk123 | discriminate]. }
  assert (Hb3 : backed w3 m3).
  { apply (Hn3 m3 eq_refl). exact (backed_keeps _ (tick w2) m2 eq_refl
                                     (keeps_files_refl _) Hb2). }
  injection H as <- <-. split.
  - intros k Hk. apply Hk123 in Hk. cbn.
    rewrite lookup_insert. case_decide; eauto.
  - intros _. exists m3. split.
    + unfold written_manifest. cbn. now rewrite lookup_insert_eq.
    + intros path Hrec Hne. cbn. specialize (Hb3 path Hrec Hne).
      rewrite lookup_insert. case_decide; eauto.
Qed.

End Backed.

(** X7.  After a successful capture every non-empty path that stands in
    the written manifest, in an installer, server or extension slot, names
    a file that exists in the capture directory. *)
Theorem capture_paths_exist (env : Env) (dir : string) (w w' : World) :
  Clone env dir w = (Ok true, w') ->
  exists m,
    written_manifest w' = Some m
    /\ forall path, recorded m path -> path <> "" ->
                    is_Some (files w' !! Path.abspath (cwd w') path).
Proof. intros H. apply Clone_backed in H as [_ H]. exact (H eq_refl). Qed.

Lemma capture_paths_exist_witness :
  let run := Clone (sample_env net_no_windows_package "Linux") "out" sample_world in
  exists m,
    written_manifest run.2 = Some m
    /\ forall path, recorded m path -> path <> "" ->
                    is_Some (files run.2 !! Path.abspath (cwd run.2) path).
Proof.
  intros run.
  apply (capture_paths_exist (sample_env net_no_windows_package "Linux") "out"
           sample_world run.2).
  assert (H1 : run.1 = Ok true) by (vm_compute; reflexivity).
  rewrite <- H1. apply surjective_pairing.
Defined.

(** X8.  A capture never removes a file: whatever its outcome, success,
    failure or exception, every file that existed before it still exists
    after it. *)
Theorem capture_keeps_files (env : Env) (dir : string) (w : World)
    (r : result bool) (w' : World) (k : string) :
  Clone env dir w = (r, w') ->
  is_Some (files w !! k) -> is_Some (files w' !! k).
Proof. intros H. apply Clone_backed in H as [H _]. apply H. Qed.

Lemma capture_keeps_files_witness :
  let run := Clone (sample_env net_no_linux_installer "Linux") "out"
               world_without_package in
  is_Some (files run.2 !! "/home/user/out/manifest.json").
Proof.
  intros run.
  apply (capture_keeps_files (sample_env net_no_linux_installer "Linux") "out"
           world_without_package run.1 run.2).
  - apply surjective_pairing.
  - eexists. reflexivity.
Defined.

(** ** Shape of the manifest *)

(** X9.  The manifest of a successful capture has exactly the two
    supported platforms as keys of its installer and server maps, has an
    extension entry for exactly the tokens the editor listed, and each
    entry has exactly the slots Linux, Windows and Generic, the generic
    one being empty exactly when both platform slots are filled. *)
Theorem manifest_shape (env : Env) (dir : string) (w w' : World) :
  Clone env dir w = (Ok true, w') ->
  exists m,
    written_manifest w' = Some m
    /\ dom (m_installer m) = ({[ "Linux"; "Windows" ]} : gset string)
    /\ dom (m_server m) = ({[ "Linux"; "Windows" ]} : gset string)
    /\ (exists n out,
          check_output env n "code --list-extensions --show-versions" = Some out
          /\ forall e, is_Some (m_extensions m !! e) <-> In e (Py.splitlines out))
    /\ forall e entry,
         m_extensions m !! e = Some entry ->
         exists linux windows generic,
           entry = fetched_entry linux windows generic
           /\ (generic = "" <-> linux <> "" /\ windows <> "").
Proof.
  intros H.
  apply Clone_spec in H as (l & _ & _ & _ & _ & _ & m & Hm & _ & Hc).
  destruct Hc as (_ & _ & Hi & Hni & Hs & Hns & n & out & Hout & Hin & Hnin).
  assert (Hdom : forall (d : gmap string string) (ks : list string),
            ks = ["Linux"; "Windows"] ->
            (forall pl, In pl ks -> exists path, d !! pl = Some path
                                                 /\ self_named env path) ->
            (forall pl, ~ In pl ks -> d !! pl = None) ->
            dom d = ({[ "Linux"; "Windows" ]} : gset string)).
  { intros d ks -> Hyes Hno. apply set_eq. intros k.
    rewrite elem_of_dom. split.
    - intros Hk. destruct (in_dec String.string_dec k ["Linux"; "Windows"])
        as [[<- | [<- | []]] | Hn]; [set_solver | set_solver |].
      rewrite (Hno k Hn) in Hk. now destruct Hk.
    - intros Hk. assert (In k ["Linux"; "Windows"]) as Hk'.
      { apply elem_of_union in Hk as [Hk | Hk];
          apply elem_of_singleton in Hk; subst; simpl; auto. }
      destruct (Hyes k Hk') as (path & -> & _). eauto. }
  exists m. split; [unfold written_manifest; now rewrite Hm |].
  split; [exact (Hdom _ _ eq_refl Hi Hni) |].
  split; [exact (Hdom _ _ eq_refl Hs Hns) |].
  split.
  - exists n, out. split; [exact Hout |]. intros e. split.
    + intros He. destruct (in_dec String.string_dec e (Py.splitlines out))
        as [Hy | Hn]; [exact Hy |].
      rewrite (Hnin e Hn) in He. now destruct He.
    + intros He. destruct (Hin e He) as (entry & -> & _). eauto.
  - intros e entry He.
    destruct (in_dec String.string_dec e (Py.splitlines out)) as [Hy | Hn].
    2:{ rewrite (Hnin e Hn) in He. discriminate. }
    destruct (Hin e Hy) as (entry' & He' & Hfrom).
    rewrite He in He'. injection He' as <-.
    destruct Hfrom as (p & k & v & okL & okW & _ & _ & _ & _ & ->).
    do 3 eexists. split; [reflexivity |].
    pose proof (ExtensionFilename_truthy p k v (Some "linux-x64")) as HL.
    pose proof (ExtensionFilename_truthy p k v (Some "win32-x64")) as HW.
    pose proof (ExtensionFilename_truthy p k v None) as HG.
    apply truthy_true in HL, HW, HG.
    destruct okL, okW; cbn [andb]; split; try tauto; try congruence.
    all: intros [? ?]; congruence.
Qed.

Lemma manifest_shape_witness :
  let run := Clone (sample_env net_no_windows_package "Linux") "out" sample_world in
  exists m,
    written_manifest run.2 = Some m
    /\ dom (m_installer m) = ({[ "Linux"; "Windows" ]} : gset string)
    /\ dom (m_server m) = ({[ "Linux"; "Windows" ]} : gset string)
    /\ (exists n out,
          check_output (sample_env net_no_windows_package "Linux") n
            "code --list-extensions --show-versions" = Some out
          /\ forall e, is_Some (m_extensions m !! e) <-> In e (Py.splitlines out))
    /\ forall e entry,
         m_extensions m !! e = Some entry ->
         exists linux windows generic,
           entry = fetched_entry linux windows generic
           /\ (generic = "" <-> linux <> "" /\ windows <> "").
Proof.
  intros run.
  apply (manifest_shape (sample_env net_no_windows_package "Linux") "out"
           sample_world run.2).
  assert (H1 : run.1 = Ok true) by (vm_compute; reflexivity).
  rewrite <- H1. apply surjective_pairing.
Defined.

(** ** Captures that cannot start or finish *)



Lemma bind_Ok {A B : Type} (m : M A) (f : A -> M B) (w w' : World) (a : A) :
  m w = (Ok a, w') -> bind m f w = f a w'.
Proof. intros H. unfold bind. now rewrite H. Qed.





(** ** Commands of the apply phase *)

Section Commands.

Variable env : Env.

Lemma print_all_spec (texts : list string) (w : World) :
  print_all texts w = (Ok tt, with_stdout (stdout w ++ texts) w).
Proof.
  revert w. induction texts as [|t texts IH]; intros w.
  - cbn. rewrite app_nil_r. now destruct w.
  - cbn [print_all]. unfold bind, print_raw. rewrite IH. cbn.
    now rewrite <- app_assoc.
Qed.

(** What running one command does. *)
Lemma ExecuteCommandArgv_spec (cmd : list string) (w : World) :
  ExecuteCommandArgv env cmd w =
  match popen env (clock w) cmd (files w) with
  | Some (texts, returncode, files') =>
      (Ok returncode,
       {| clock := S (clock w); cwd := cwd w; files := files';
          stdout := (stdout w ++ [Py.join " " cmd +:+ newline]) ++ texts;
          http_log := http_log w; cmd_log := cmd_log w ++ [cmd] |})
  | None =>
      (Raise (FileNotFoundError (hd "" cmd)),
       tick (with_stdout (stdout w ++ [Py.join " " cmd +:+ newline]) w))
  end.
Proof.
  unfold ExecuteCommandArgv, bind, print, run_process. cbn.
  destruct (popen env (clock w) cmd (files w)) as [[[texts rc] files']|];
    [| reflexivity].
  rewrite print_all_spec. reflexivity.
Qed.





End Commands.



Section InstallRuns.

Variable env : Env.

Lemma install_editor_supported (system installer : string) (w : World) :
  system = "Linux" \/ system = "Windows" ->
  install_editor env system installer w =
  (let* rc := ExecuteCommandArgv env (editor_command system installer) in
   if negb (Z.eqb rc 0) then ret (Return false) else ret (Next tt)) w.
Proof. intros [-> | ->]; reflexivity. Qed.

Lemma ExecuteCommandArgv_runs (cmd : list string) (w : World)
    (texts : list string) (returncode : Z) (files' : gmap string File) :
  popen env (clock w) cmd (files w) = Some (texts, returncode, files') ->
  exists w',
    ExecuteCommandArgv env cmd w = (Ok returncode, w')
    /\ files w' = files'
    /\ cmd_log w' = cmd_log w ++ [cmd]
    /\ cwd w' = cwd w.
Proof.
  intros H. rewrite ExecuteCommandArgv_spec, H. eexists.
  split; [reflexivity |]. split; [reflexivity |]. split; reflexivity.
Qed.

Lemma Install_start (dir : string) (w : World) (m : Manifest)
    (installer_rel : string) :
  let w0 := with_cwd (Path.abspath (cwd w) dir) w in
  files w0 !! Path.abspath (cwd w0) "manifest.json" = Some (FJson m) ->
  m_installer m !! platform_system env = Some installer_rel ->
  Install env dir w =
  (let* r := install_editor env (platform_system env)
               (Path.abspath (cwd w0) installer_rel) in
   match r with
   | Return b => ret b
   | Next _ =>
       let* r := collect_extensions (platform_system env)
                   (map_to_list (m_extensions m)) [] in
       match r with
       | Return b => ret b
       | Next to_install => install_collected env (platform_system env) m to_install
       end
   end) w0.
Proof.
  intros w0 Hload Hinst. unfold Install.
  rewrite (bind_Ok (chdir dir) _ w _ tt eq_refl). fold w0.
  assert (Hm : load_manifest "manifest.json" w0 = (Ok m, w0)).
  { unfold load_manifest. now rewrite Hload. }
  rewrite (bind_Ok _ _ _ _ _ Hm). cbv zeta.
  assert (Hi : dict_get (m_installer m) (platform_system env) w0
               = (Ok installer_rel, w0)).
  { unfold dict_get. now rewrite Hinst. }
  rewrite (bind_Ok _ _ _ _ _ Hi).
  now rewrite (bind_Ok getcwd _ w0 w0 (cwd w0) eq_refl).
Qed.

End InstallRuns.

(** X13.  When the installation of the editor exits with a non-zero code,
    [Install] returns failure at once: that command is the only one
    launched and the files are as it left them, so nothing was wiped and
    no extension was installed. *)
Theorem failed_editor_install (env : Env) (dir : string) (w : World)
    (m : Manifest) (installer_rel : string)
    (texts : list string) (returncode : Z) (files' : gmap string File) :
  let w0 := with_cwd (Path.abspath (cwd w) dir) w in
  let cmd := editor_command (platform_system env)
               (Path.abspath (cwd w0) installer_rel) in
  files w0 !! Path.abspath (cwd w0) "manifest.json" = Some (FJson m) ->
  m_installer m !! platform_system env = Some installer_rel ->
  platform_system env = "Linux" \/ platform_system env = "Windows" ->
  popen env (clock w) cmd (files w) = Some (texts, returncode, files') ->
  returncode <> 0%Z ->
  exists w',
    Install env dir w = (Ok false, w')
    /\ files w' = files'
    /\ cmd_log w' = cmd_log w ++ [cmd].
Proof.
  intros w0 cmd Hload Hinst Hsys Hpopen Hrc.
  rewrite (Install_start env dir w m installer_rel Hload Hinst). fold w0.
  destruct (ExecuteCommandArgv_runs env cmd w0 texts returncode files' Hpopen)
    as (w1 & Hrun & Hf & Hl & _).
  assert (He : install_editor env (platform_system env)
                 (Path.abspath (cwd w0) installer_rel) w0
               = (Ok (Return false), w1)).
  { rewrite (install_editor_supported env _ _ w0 Hsys).
    rewrite (bind_Ok _ _ _ _ _ Hrun).
    apply Z.eqb_neq in Hrc. now rewrite Hrc. }
  rewrite (bind_Ok _ _ _ _ _ He). exists w1.
  split; [reflexivity |]. split; [exact Hf | exact Hl].
Qed.

Lemma failed_editor_install_witness :
  exists w',
    Install env_failing_installer "out" world_without_package = (Ok false, w')
    /\ files w' = files world_without_package
    /\ cmd_log w'
       = [ ["sudo"; "apt-get"; "install"; "-y"; "/home/user/out/code.deb"] ].
Proof.
  apply (failed_editor_install env_failing_installer "out" world_without_package
           manifest_without_package "code.deb"
           ["E: Unable to locate package"] 100%Z (files world_without_package)).
  - reflexivity.
  - reflexivity.
  - now left.
  - reflexivity.
  - discriminate.
Defined.

(** ** The commands of a successful apply *)

Section InstallOrder.

Variable env : Env.










End InstallOrder.



(** ** The command line *)

Section MainEnds.

Variable env : Env.
Variable os : Os.

(** The four ways through [main]. *)
Lemma main_cases (args : Args) (w : World) (e : Ending) (w' : World) :
  main env os args w = (e, w') ->
  (directory_of args = "" /\ e = UnboundLocalError /\ w' = w)
  \/ (directory_of args <> "" /\ e = Exit (-1)
      /\ w' = with_stdout
                (stdout w ++ [("Error: " +:+ directory_of args
                               +:+ " is not a directory") +:+ newline]) w)
  \/ (exists d ex, args = Capture d /\ d <> ""
                   /\ os_path_exists os w d = false
                   /\ os_mkdir os w d = Some ex
                   /\ e = Uncaught ex /\ w' = w)
  \/ (directory_of args <> "" /\ main_finish (phase_of env args w) = (e, w')).
Proof.
  destruct args as [d | d]; cbn [main directory_of phase_of].
  - destruct (Py.truthy d) eqn:Ed.
    2:{ apply truthy_false in Ed. intros [= <- <-]. now left. }
    apply truthy_true in Ed.
    destruct (os_path_exists os w d) eqn:Ex; cbn [negb].
    + destruct (os_path_isfile os w d).
      * intros [= <- <-]. right. left. now split.
      * intros H. right. right. right. now split.
    + destruct (os_mkdir os w d) as [ex|] eqn:Em.
      * intros [= <- <-]. right. right. left. exists d, ex. now repeat split.
      * intros H. right. right. right. now split.
  - destruct (Py.truthy d) eqn:Ed.
    2:{ apply truthy_false in Ed. intros [= <- <-]. now left. }
    apply truthy_true in Ed.
    destruct (os_path_isdir os w d); cbn [negb].
    + intros H. right. right. right. now split.
    + intros [= <- <-]. right. left. now split.
Qed.

Lemma main_finish_cases (r : result bool) (w : World) (e : Ending) (w' : World) :
  main_finish (r, w) = (e, w') ->
  (r = Ok true /\ e = Exit 0 /\ w' = w)
  \/ (r = Ok false /\ e = Exit (-1)
      /\ w' = with_stdout
                (stdout w
                 ++ ["Error: Something went wrong. Installation failed."
                     +:+ newline]) w)
  \/ (exists ex, r = Raise ex /\ e = Uncaught ex /\ w' = w).
Proof.
  destruct r as [[|] | ex]; cbn; intros [= <- <-]; eauto 6.
Qed.

End MainEnds.

(** X15.  [main] returns exit code 0 only when a directory name was
    given and the phase asked for returned success; in capture mode a
    manifest then lies in the capture directory. *)
Theorem main_exit_zero (env : Env) (os : Os) (args : Args) (w w' : World) :
  main env os args w = (Exit 0, w') ->
  directory_of args <> ""
  /\ phase_of env args w = (Ok true, w')
  /\ (forall d, args = Capture d -> exists m, written_manifest w' = Some m).
Proof.
  intros H. apply main_cases in H
    as [(_ & ? & _) | [(_ & ? & _) | [(d & ex & _ & _ & _ & _ & ? & _) | [Hd H]]]];
    try discriminate.
  destruct (phase_of env args w) as [r w1] eqn:Ep.
  apply main_finish_cases in H
    as [(-> & _ & ->) | [(_ & ? & _) | (ex & _ & ? & _)]]; try discriminate.
  split; [exact Hd |]. split; [reflexivity |].
  intros d ->. cbn [phase_of] in Ep.
  apply Clone_spec in Ep as (l & _ & _ & _ & _ & _ & m & Hm & _).
  exists m. unfold written_manifest. now rewrite Hm.
Qed.

Lemma main_exit_zero_witness :
  let run := main (sample_env net_all_ok "Linux") os_directories (Capture "out")
               sample_world in
  directory_of (Capture "out") <> ""
  /\ phase_of (sample_env net_all_ok "Linux") (Capture "out") sample_world
     = (Ok true, run.2)
  /\ (forall d, Capture "out" = Capture d ->
                exists m, written_manifest run.2 = Some m).
Proof.
  intros run.
  apply (main_exit_zero (sample_env net_all_ok "Linux") os_directories
           (Capture "out") sample_world run.2).
  assert (H1 : run.1 = Exit 0) by (vm_compute; reflexivity).
  rewrite <- H1. apply surjective_pairing.
Defined.

(** X16.  Every exit code of [main] other than 0 is -1, and the last line
    printed before it begins with [Error: ]. *)
Theorem main_failure_reports (env : Env) (os : Os) (args : Args)
    (w : World) (code : Z) (w' : World) :
  main env os args w = (Exit code, w') ->
  code <> 0%Z ->
  code = (-1)%Z
  /\ exists line, last (stdout w') = Some line
                  /\ Py.startswith "Error: " line = true.
Proof.
  intros H Hcode. apply main_cases in H
    as [(_ & ? & _) | [(_ & Hc & ->) | [(d & ex & _ & _ & _ & _ & ? & _) | [Hd H]]]];
    try discriminate.
  - injection Hc as ->. split; [reflexivity |]. eexists.
    split; [apply last_snoc | reflexivity].
  - destruct (phase_of env args w) as [r w1].
    apply main_finish_cases in H
      as [(_ & Hc & _) | [(_ & Hc & ->) | (ex & _ & ? & _)]]; try discriminate.
    + injection Hc as ->. now contradiction Hcode.
    + injection Hc as ->. split; [reflexivity |]. eexists.
      split; [apply last_snoc | reflexivity].
Qed.

Lemma main_failure_reports_witness :
  let run := main (sample_env net_no_linux_installer "Linux") os_directories
               (Capture "out") sample_world in
  (-1)%Z = (-1)%Z
  /\ exists line, last (stdout run.2) = Some line
                  /\ Py.startswith "Error: " line = true.
Proof.
  intros run.
  apply (main_failure_reports (sample_env net_no_linux_installer "Linux")
           os_directories (Capture "out") sample_world (-1)%Z run.2).
  - assert (H1 : run.1 = Exit (-1)) by (vm_compute; reflexivity).
    rewrite <- H1. apply surjective_pairing.
  - discriminate.
Defined.

(** X17.  [main] ends by reading the variable [success] that was never
    set exactly when the directory name is the empty string; nothing has
    happened by then. *)
Theorem main_unbound_iff (env : Env) (os : Os) (args : Args) (w w' : World) :
  main env os args w = (UnboundLocalError, w')
  <-> directory_of args = "" /\ w' = w.
Proof.
  split.
  - intros H. apply main_cases in H
      as [(Hd & _ & ->) | [(_ & ? & _) | [(d & ex & _ & _ & _ & _ & ? & _) | [Hd H]]]];
      try discriminate; [now split |].
    destruct (phase_of env args w) as [r w1].
    apply main_finish_cases in H
      as [(_ & ? & _) | [(_ & ? & _) | (ex & _ & ? & _)]]; discriminate.
  - intros [Hd ->]. destruct args as [d | d]; cbn [directory_of] in Hd; subst d;
      reflexivity.
Qed.

(** X18.  [main] handles no exception: when it ends with one, either
    creating the capture directory raised it and nothing else happened,
    or the phase raised it and [main] ends in the world the phase left,
    without a further message. *)
Theorem main_uncaught (env : Env) (os : Os) (args : Args) (w : World)
    (ex : exn) (w' : World) :
  main env os args w = (Uncaught ex, w') ->
  (exists d, args = Capture d
             /\ os_path_exists os w d = false
             /\ os_mkdir os w d = Some ex /\ w' = w)
  \/ phase_of env args w = (Raise ex, w').
Proof.
  intros H. apply main_cases in H
    as [(_ & ? & _) | [(_ & ? & _) | [(d & ex' & -> & _ & Hx & Hm & He & ->) | [Hd H]]]];
    try discriminate.
  - injection He as <-. left. exists d. now repeat split.
  - right. destruct (phase_of env args w) as [r w1].
    apply main_finish_cases in H
      as [(_ & ? & _) | [(_ & ? & _) | (ex' & -> & He & ->)]]; try discriminate.
    now injection He as <-.
Qed.

Lemma main_uncaught_witness :
  let run := main env_short_version os_directories (Capture "out") sample_world in
  (exists d, Capture "out" = Capture d
             /\ os_path_exists os_directories sample_world d = false
             /\ os_mkdir os_directories sample_world d = Some IndexError
             /\ run.2 = sample_world)
  \/ phase_of env_short_version (Capture "out") sample_world
     = (Raise IndexError, run.2).
Proof.
  intros run.
  apply (main_uncaught env_short_version os_directories (Capture "out")
           sample_world IndexError run.2).
  assert (H1 : run.1 = Uncaught IndexError) by (vm_compute; reflexivity).
  rewrite <- H1. apply surjective_pairing.
Defined.

(** ** The wipe comes before the extensions *)

Section Wipe.

Variable env : Env.



End Wipe.



(** ** What a capture prints and asks for *)

Section Messages.

Variable env : Env.

Lemma Download_quiet (url path : string) (w : World) r w' :
  Download env url path w = (r, w') -> stdout w' = stdout w.
Proof.
  unfold Download, bind, http_get.
  destruct (requests_get env (clock w) url) as [resp|];
    [| now intros [= <- <-]].
  destruct (ok resp); cbn [negb]; [| now intros [= <- <-]].
  assert (Hname : forall r1 w1,
    or_else_lazy (Py.or_else path (GetFilenameFromHeaders (headers resp)))
      (uuid4_hex env)
      (with_http_log (http_log w ++ [(url, true)]) (tick w)) = (r1, w1) ->
    stdout w1 = stdout w /\ exists final, r1 = Ok final).
  { intros r1 w1. unfold or_else_lazy, uuid4_hex, ret.
    destruct (Py.truthy _); intros [= <- <-]; (split; [reflexivity |]); eauto. }
  destruct (or_else_lazy _ _ _) as [r1 w1].
  destruct (Hname r1 w1 eq_refl) as (Hs & final & ->).
  unfold content_length, write_file, ret, raise.
  destruct (headers_get (headers resp) "content-length") as [cl|];
    [destruct (Py.int cl) |]; intros [= <- <-]; exact Hs.
Qed.

Lemma reports_step {A : Type} (r : result (ctl A)) (w w1 w' : World) :
  stdout w1 = stdout w -> reports r w1 w' -> reports r w w'.
Proof. intros H. unfold reports. now rewrite H. Qed.

Lemma clone_installers_reports (ps : list string) (m : Manifest) (w : World) r w' :
  clone_installers env ps m w = (r, w') -> reports r w w'.
Proof.
  revert m w. induction ps as [|pl ps IH]; intros m w H.
  - now injection H as <- <-.
  - cbn [clone_installers] in H.
    apply bind_inv in H as [(id & w0 & Hid & H) | (e & Hid & ->)].
    2:{ now apply table_get_inv in Hid as [-> _]. }
    apply table_get_inv in Hid as [-> _].
    apply bind_inv in H as [(version & w1 & Hv & H) | (e & Hv & ->)].
    2:{ now apply (CurVSCodeVersion_spec env) in Hv as [-> _]. }
    apply (CurVSCodeVersion_spec env) in Hv as [-> _].
    apply bind_inv in H as [(path & w2 & Hd & H) | (e & Hd & ->)].
    2:{ now apply Download_quiet in Hd. }
    apply Download_quiet in Hd.
    destruct (Py.truthy path).
    + apply IH in H. now apply (reports_step r w w2 w').
    + injection H as <- <-. split; [reflexivity |].
      exists ("installer for " +:+ id). cbn [stdout with_stdout].
      rewrite Hd. reflexivity.
Qed.

Lemma clone_servers_reports (ps : list string) (m : Manifest) (w : World) r w' :
  clone_servers env ps m w = (r, w') -> reports r w w'.
Proof.
  revert m w. induction ps as [|pl ps IH]; intros m w H.
  - now injection H as <- <-.
  - cbn [clone_servers] in H.
    apply bind_inv in H as [(id & w0 & Hid & H) | (e & Hid & ->)].
    2:{ now apply table_get_inv in Hid as [-> _]. }
    apply table_get_inv in Hid as [-> _].
    apply bind_inv in H as [(commit & w1 & Hv & H) | (e & Hv & ->)].
    2:{ now apply (CurVSCodeCommitID_spec env) in Hv as [-> _]. }
    apply (CurVSCodeCommitID_spec env) in Hv as [-> _].
    apply bind_inv in H as [(path & w2 & Hd & H) | (e & Hd & ->)].
    2:{ now apply Download_quiet in Hd. }
    apply Download_quiet in Hd.
    destruct (Py.truthy path).
    + apply IH in H. now apply (reports_step r w w2 w').
    + injection H as <- <-. split; [reflexivity |].
      exists ("server for " +:+ id). cbn [stdout with_stdout].
      rewrite Hd. reflexivity.
Qed.

Lemma clone_extension_platforms_quiet (e p k v : string) (ps : list string)
    (m : Manifest) (g : bool) (w : World) r w' :
  clone_extension_platforms env e p k v ps m g w = (r, w') ->
  stdout w' = stdout w.
Proof.
  revert m g w. induction ps as [|pl ps IH]; intros m g w H.
  - now injection H as <- <-.
  - cbn [clone_extension_platforms] in H.
    apply bind_inv in H as [(id & w0 & Hid & H) | (ex & Hid & ->)].
    2:{ now apply table_get_inv in Hid as [-> _]. }
    apply table_get_inv in Hid as [-> _].
    apply bind_inv in H as [(path & w2 & Hd & H) | (ex & Hd & ->)].
    2:{ now apply Download_quiet in Hd. }
    apply Download_quiet in Hd.
    destruct (Py.truthy path); apply IH in H; congruence.
Qed.

Lemma clone_extension_reports (e : string) (m : Manifest) (w : World) r w' :
  clone_extension env e m w = (r, w') -> reports r w w'.
Proof.
  unfold clone_extension. intros H.
  apply bind_inv in H as [([[p k] v] & w0 & Hparse & H) | (ex & Hparse & ->)].
  2:{ unfold lift in Hparse. now injection Hparse as _ <-. }
  unfold lift in Hparse. injection Hparse as _ <-.
  apply bind_inv in H as [([m1 g] & w1 & Hloop & H) | (ex & Hloop & ->)].
  2:{ now apply clone_extension_platforms_quiet in Hloop. }
  apply clone_extension_platforms_quiet in Hloop.
  destruct g; cbn [negb] in H.
  - injection H as <- <-. exact Hloop.
  - apply bind_inv in H as [(path & w2 & Hd & H) | (ex & Hd & ->)].
    2:{ apply Download_quiet in Hd. cbn. congruence. }
    apply Download_quiet in Hd.
    destruct (Py.truthy path).
    + injection H as <- <-. cbn. congruence.
    + injection H as <- <-. split; [reflexivity |].
      exists ("extension " +:+ e). cbn [stdout with_stdout].
      rewrite Hd, Hloop. reflexivity.
Qed.

Lemma clone_extensions_reports (exts : list string) (m : Manifest) (w : World) r w' :
  clone_extensions env exts m w = (r, w') -> reports r w w'.
Proof.
  revert m w. induction exts as [|e exts IH]; intros m w H.
  - now injection H as <- <-.
  - cbn [clone_extensions] in H.
    apply bind_inv in H as [(r1 & w1 & Hstep & H) | (ex & Hstep & ->)].
    2:{ now apply clone_extension_reports in Hstep. }
    apply clone_extension_reports in Hstep.
    destruct r1 as [m1 | b].
    + apply IH in H. now apply (reports_step r w w1 w').
    + injection H as <- <-. exact Hstep.
Qed.

End Messages.

(** X20.  A capture prints exactly when it returns [False], and then one
    line, which names what could not be fetched; a capture that succeeds
    or ends with an exception prints nothing. *)
Theorem capture_failure_message (env : Env) (dir : string) (w : World)
    (r : result bool) (w' : World) :
  Clone env dir w = (r, w') ->
  (r = Ok false ->
   exists what, stdout w' = stdout w ++ [failure_line what])
  /\ (r <> Ok false -> stdout w' = stdout w).
Proof.
  unfold Clone. intros H.
  apply bind_inv in H as [([] & w0 & Hcd & H) | (ex & Hcd & ?)]; [| discriminate].
  injection Hcd as <-.
  set (w0 := with_cwd (Path.abspath (cwd w) dir) w) in *.
  assert (Hquiet : forall (ex : exn) w1,
            stdout w1 = stdout w ->
            (@Raise bool ex = Ok false ->
             exists what, stdout w1 = stdout w ++ [failure_line what])
            /\ (@Raise bool ex <> Ok false -> stdout w1 = stdout w)).
  { intros ex w1 Hs. split; [discriminate | now intros _]. }
  assert (Hfail : forall (b : bool) w1,
            (b = false /\ exists what, stdout w1 = stdout w ++ [failure_line what]) ->
            (Ok b = Ok false ->
             exists what, stdout w1 = stdout w ++ [failure_line what])
            /\ (@Ok bool b <> Ok false -> stdout w1 = stdout w)).
  { intros b w1 [-> Hw]. split; [now intros _ | congruence]. }
  apply bind_inv in H as [(version & w1 & Hv & H) | (ex & Hv & ->)].
  2:{ apply (CurVSCodeVersion_spec env) in Hv as [-> _]. now apply Hquiet. }
  apply (CurVSCodeVersion_spec env) in Hv as [-> _].
  apply bind_inv in H as [(commit & w1 & Hc & H) | (ex & Hc & ->)].
  2:{ apply (CurVSCodeCommitID_spec env) in Hc as [-> _]. now apply Hquiet. }
  apply (CurVSCodeCommitID_spec env) in Hc as [-> _].
  apply bind_inv in H as [(r1 & w1 & Hi & H) | (ex & Hi & ->)].
  2:{ apply clone_installers_reports in Hi. now apply Hquiet. }
  apply clone_installers_reports in Hi.
  destruct r1 as [m1 | b1].
  2:{ injection H as <- <-. now apply Hfail. }
  cbn [reports] in Hi.
  apply bind_inv in H as [(r2 & w2 & Hs & H) | (ex & Hs & ->)].
  2:{ apply clone_servers_reports in Hs. apply Hquiet. cbn [reports] in Hs.
      rewrite Hs. exact Hi. }
  apply clone_servers_reports in Hs.
  apply (reports_step (Ok r2) (tick (tick w0)) w1 w2 Hi) in Hs.
  destruct r2 as [m2 | b2].
  2:{ injection H as <- <-. now apply Hfail. }
  cbn [reports] in Hs.
  apply bind_inv in H as [(exts & w3 & Hx & H) | (ex & Hx & ->)].
  2:{ apply (CurVSCodeExtensions_spec env) in Hx as [-> _]. now apply Hquiet. }
  apply (CurVSCodeExtensions_spec env) in Hx as [-> _].
  apply bind_inv in H as [(r3 & w3 & Hl & H) | (ex & Hl & ->)].
  2:{ apply clone_extensions_reports in Hl. apply Hquiet. cbn [reports] in Hl.
      rewrite Hl. exact Hs. }
  apply clone_extensions_reports in Hl.
  apply (reports_step (Ok r3) (tick (tick w0)) (tick w2) w3 Hs) in Hl.
  destruct r3 as [m3 | b3].
  2:{ injection H as <- <-. now apply Hfail. }
  cbn [reports] in Hl. injection H as <- <-.
  split; [discriminate |]. intros _. exact Hl.
Qed.

Lemma capture_failure_message_witness :
  let run := Clone (sample_env net_no_linux_installer "Linux") "out" sample_world in
  (run.1 = Ok false ->
   exists what, stdout run.2 = stdout sample_world ++ [failure_line what])
  /\ (run.1 <> Ok false -> stdout run.2 = stdout sample_world).
Proof.
  intros run.
  apply (capture_failure_message (sample_env net_no_linux_installer "Linux") "out"
           sample_world run.1 run.2).
  apply surjective_pairing.
Defined.

(** X21.  The requests of a capture come in three groups, in this order:
    installers, servers, extensions.  A server is asked for only after
    every installer has come, and an extension only after every server
    has come. *)
Theorem capture_phases_in_order (env : Env) (dir : string) (w : World)
    (r : result bool) (w' : World) :
  Clone env dir w = (r, w') ->
  exists li ls lx,
    http_log w' = http_log w ++ li ++ ls ++ lx
    /\ Forall (fun ub : string * bool => installer_request env ub.1) li
    /\ Forall (fun ub : string * bool => server_request env ub.1) ls
    /\ Forall (fun ub : string * bool =>
                 exists n out,
                   check_output env n "code --list-extensions --show-versions"
                   = Some out
                   /\ extension_request (Py.splitlines out) ub.1) lx
    /\ (ls ++ lx <> [] -> all_ok li)
    /\ (lx <> [] -> all_ok ls).
Proof.
  unfold Clone. intros H.
  apply bind_inv in H as [([] & w0 & Hcd & H) | (ex & Hcd & ?)]; [| discriminate].
  injection Hcd as <-.
  set (w0 := with_cwd (Path.abspath (cwd w) dir) w) in *.
  assert (Hnone : forall w1, http_log w1 = http_log w ->
            exists li ls lx,
              http_log w1 = http_log w ++ li ++ ls ++ lx
              /\ Forall (fun ub : string * bool => installer_request env ub.1) li
              /\ Forall (fun ub : string * bool => server_request env ub.1) ls
              /\ Forall (fun ub : string * bool =>
                           exists n out,
                             check_output env n
                               "code --list-extensions --show-versions" = Some out
                             /\ extension_request (Py.splitlines out) ub.1) lx
              /\ (ls ++ lx <> [] -> all_ok li)
              /\ (lx <> [] -> all_ok ls)).
  { intros w1 Hw. exists [], [], []. rewrite Hw, !app_nil_r.
    split; [reflexivity |]. do 3 (split; [constructor |]).
    split; intros Hne; now contradiction Hne. }
  apply bind_inv in H as [(version & w1 & Hv & H) | (ex & Hv & ->)].
  2:{ apply (CurVSCodeVersion_spec env) in Hv as [-> _]. now apply Hnone. }
  apply (CurVSCodeVersion_spec env) in Hv as [-> _].
  apply bind_inv in H as [(commit & w1 & Hc & H) | (ex & Hc & ->)].
  2:{ apply (CurVSCodeCommitID_spec env) in Hc as [-> _]. now apply Hnone. }
  apply (CurVSCodeCommitID_spec env) in Hc as [-> _].
  assert (Hone : forall w1 li,
            http_log w1 = http_log w ++ li ->
            Forall (fun ub : string * bool => installer_request env ub.1) li ->
            exists li ls lx,
              http_log w1 = http_log w ++ li ++ ls ++ lx
              /\ Forall (fun ub : string * bool => installer_request env ub.1) li
              /\ Forall (fun ub : string * bool => server_request env ub.1) ls
              /\ Forall (fun ub : string * bool =>
                           exists n out,
                             check_output env n
                               "code --list-extensions --show-versions" = Some out
                             /\ extension_request (Py.splitlines out) ub.1) lx
              /\ (ls ++ lx <> [] -> all_ok li)
              /\ (lx <> [] -> all_ok ls)).
  { intros w1 li Hw Hli. exists li, [], []. rewrite Hw, !app_nil_r.
    split; [reflexivity |]. split; [exact Hli |]. do 2 (split; [constructor |]).
    split; intros Hne; now contradiction Hne. }
  assert (Htwo : forall w1 li ls,
            http_log w1 = http_log w ++ li ++ ls ->
            Forall (fun ub : string * bool => installer_request env ub.1) li ->
            Forall (fun ub : string * bool => server_request env ub.1) ls ->
            all_ok li ->
            exists li ls lx,
              http_log w1 = http_log w ++ li ++ ls ++ lx
              /\ Forall (fun ub : string * bool => installer_request env ub.1) li
              /\ Forall (fun ub : string * bool => server_request env ub.1) ls
              /\ Forall (fun ub : string * bool =>
                           exists n out,
                             check_output env n
                               "code --list-extensions --show-versions" = Some out
                             /\ extension_request (Py.splitlines out) ub.1) lx
              /\ (ls ++ lx <> [] -> all_ok li)
              /\ (lx <> [] -> all_ok ls)).
  { intros w1 li ls Hw Hli Hls Hok. exists li, ls, []. rewrite Hw, !app_nil_r.
    split; [reflexivity |]. split; [exact Hli |]. split; [exact Hls |].
    split; [constructor |]. split; [now intros _ |].
    intros Hne. now contradiction Hne. }
  (* the installers *)
  apply bind_inv in H as [(r1 & w1 & Hi & H) | (ex & Hi & ->)].
  2:{ apply clone_installers_spec in Hi as (li & [_ Hlog _ _] & Hli & _).
      now apply (Hone _ li). }
  apply clone_installers_spec in Hi as (li & [_ Hlog1 _ _] & Hli & Hr1).
  change (http_log (tick (tick w0))) with (http_log w) in Hlog1.
  destruct r1 as [m1 | b1].
  2:{ injection H as <- <-. now apply (Hone _ li). }
  destruct Hr1 as (Hok1 & _).
  (* the servers *)
  apply bind_inv in H as [(r2 & w2 & Hs & H) | (ex & Hs & ->)].
  2:{ apply clone_servers_spec in Hs as (ls & [_ Hlog _ _] & Hls & _).
      apply (Htwo _ li ls); try assumption.
      now rewrite Hlog, Hlog1, <- app_assoc. }
  apply clone_servers_spec in Hs as (ls & [_ Hlog2 _ _] & Hls & Hr2).
  assert (Hlog12 : http_log w2 = http_log w ++ li ++ ls).
  { now rewrite Hlog2, Hlog1, <- app_assoc. }
  destruct r2 as [m2 | b2].
  2:{ injection H as <- <-. now apply (Htwo _ li ls). }
  destruct Hr2 as (Hok2 & _).
  (* the extensions *)
  apply bind_inv in H as [(exts & w3 & Hx & H) | (ex & Hx & ->)].
  2:{ apply (CurVSCodeExtensions_spec env) in Hx as [-> _].
      now apply (Htwo _ li ls). }
  apply (CurVSCodeExtensions_spec env) in Hx as [-> Hexts].
  destruct (Hexts exts eq_refl) as (out & Hout & ->).
  assert (Hlast : forall w3 (lx : list (string * bool)),
            http_log w3 = http_log (tick w2) ++ lx ->
            Forall (fun ub : string * bool =>
                      extension_request (Py.splitlines out) ub.1) lx ->
            exists li ls lx,
              http_log w3 = http_log w ++ li ++ ls ++ lx
              /\ Forall (fun ub : string * bool => installer_request env ub.1) li
              /\ Forall (fun ub : string * bool => server_request env ub.1) ls
              /\ Forall (fun ub : string * bool =>
                           exists n out,
                             check_output env n
                               "code --list-extensions --show-versions" = Some out
                             /\ extension_request (Py.splitlines out) ub.1) lx
              /\ (ls ++ lx <> [] -> all_ok li)
              /\ (lx <> [] -> all_ok ls)).
  { intros w3 lx Hw Hlx. exists li, ls, lx.
    change (http_log (tick w2)) with (http_log w2) in Hw.
    split; [rewrite Hw, Hlog12, <- !app_assoc; reflexivity |].
    split; [exact Hli |]. split; [exact Hls |]. split.
    - eapply List.Forall_impl; [| exact Hlx]. intros ub Hub. eauto.
    - split; now intros _. }
  apply bind_inv in H as [(r3 & w3 & Hl & H) | (ex & Hl & ->)].
  2:{ apply clone_extensions_spec in Hl as (lx & [_ Hlog _ _] & Hlx & _).
      exact (Hlast w' lx Hlog Hlx). }
  apply clone_extensions_spec in Hl as (lx & [_ Hlog3 _ _] & Hlx & _).
  assert (Hw' : http_log w' = http_log w3).
  { destruct r3 as [m3 | b3]; now injection H as _ <-. }
  rewrite <- Hw' in Hlog3.
  exact (Hlast w' lx Hlog3 Hlx).
Qed.

Lemma capture_phases_in_order_witness :
  let run := Clone (sample_env net_no_windows_package "Linux") "out" sample_world in
  exists li ls lx,
    http_log run.2 = http_log sample_world ++ li ++ ls ++ lx
    /\ Forall (fun ub : string * bool =>
                 installer_request (sample_env net_no_windows_package "Linux") ub.1) li
    /\ Forall (fun ub : string * bool =>
                 server_request (sample_env net_no_windows_package "Linux") ub.1) ls
    /\ Forall (fun ub : string * bool =>
                 exists n out,
                   check_output (sample_env net_no_windows_package "Linux") n
                     "code --list-extensions --show-versions" = Some out
                   /\ extension_request (Py.splitlines out) ub.1) lx
    /\ (ls ++ lx <> [] -> all_ok li)
    /\ (lx <> [] -> all_ok ls).
Proof.
  intros run.
  apply (capture_phases_in_order (sample_env net_no_windows_package "Linux") "out"
           sample_world run.1 run.2).
  apply surjective_pairing.
Defined.
